(** * Transformer forward pass: a shallow embedding of [transformer.py]

    The development follows the source class by class: a small model of the
    tensor operations the program calls (shapes, broadcasting, [matmul],
    [view], [transpose], [softmax], ...), then [PositionalEncoding],
    [ScaledDotProductAttention], [MultiHeadAttention], [LayerNorm],
    [FeedForward], the encoder and decoder layers and their stacks.

    Modelling conventions.
    - A tensor is its shape together with its indexing function; an index is
      the list of its coordinates, outermost axis first.
    - Floating-point numbers are idealised as real numbers.  Inputs on which
      the program would produce NaN or an infinity (a standard deviation over
      a single feature, a division by [sqrt 0]) lie outside the model and are
      excluded by hypotheses where a statement depends on them.
    - A Python exception is a value of type [error]; every operation that can
      raise returns a [result].
    - The Bernoulli draws of a dropout call are an explicit field of the
      dropout module, and the training flag of [nn.Module] is explicit too. *)

From Stdlib Require Import Reals Lra Lia List Arith Bool ZArith.
Import ListNotations.

(** ** Exceptions *)

Inductive error : Type :=
| RuntimeError      (* shape mismatch in a tensor operation *)
| IndexError        (* index or dimension out of range *)
| ValueError        (* bad argument, or unpacking the wrong number of sizes *)
| ZeroDivisionError
| AttributeError.   (* an attribute that [__init__] did not create *)

Inductive result (A : Type) : Type :=
| Ok (a : A)
| Err (e : error).

Arguments Ok {A} a.
Arguments Err {A} e.

Definition bind {A B : Type} (r : result A) (k : A -> result B) : result B :=
  match r with
  | Ok a => k a
  | Err e => Err e
  end.

Notation "x <- e ;; k" := (bind e (fun x => k))
  (at level 61, e at next level, right associativity).

(** A [for] loop whose body may raise. *)
Fixpoint foldM {A B : Type} (f : A -> B -> result A) (l : list B) (a : A)
  : result A :=
  match l with
  | [] => Ok a
  | b :: l' => a' <- f a b ;; foldM f l' a'
  end.

(** ** Shapes and indices *)

Definition numel (sh : list nat) : nat := fold_right Nat.mul 1 sh.

Fixpoint in_bounds (sh idx : list nat) : bool :=
  match sh, idx with
  | [], [] => true
  | d :: sh', i :: idx' => (i <? d) && in_bounds sh' idx'
  | _, _ => false
  end.

(** Row-major offset of an index, and its inverse. *)
Fixpoint ravel (sh idx : list nat) : nat :=
  match sh, idx with
  | _ :: sh', i :: idx' => i * numel sh' + ravel sh' idx'
  | _, _ => 0
  end.

Fixpoint unravel (sh : list nat) (off : nat) : list nat :=
  match sh with
  | [] => []
  | _ :: sh' => off / numel sh' :: unravel sh' (off mod numel sh')
  end.

(** Broadcasting aligns shapes at their last axis; two sizes are compatible
    when they are equal or one of them is 1. *)
Definition broadcast_dim (a b : nat) : result nat :=
  if a =? b then Ok a
  else if a =? 1 then Ok b
  else if b =? 1 then Ok a
  else Err RuntimeError.

Fixpoint broadcast_rev (r1 r2 : list nat) : result (list nat) :=
  match r1, r2 with
  | [], _ => Ok r2
  | _, [] => Ok r1
  | a :: r1', b :: r2' =>
      d <- broadcast_dim a b ;;
      r <- broadcast_rev r1' r2' ;;
      Ok (d :: r)
  end.

Definition broadcast_shapes (s1 s2 : list nat) : result (list nat) :=
  r <- broadcast_rev (rev s1) (rev s2) ;; Ok (rev r).

(** The coordinate read from an operand of size [d] along an axis when the
    broadcast result is read at coordinate [i]. *)
Definition bdim (d i : nat) : nat := if d =? 1 then 0 else i.

Fixpoint bidx_rev (rsh ridx : list nat) : list nat :=
  match rsh, ridx with
  | d :: rsh', i :: ridx' => bdim d i :: bidx_rev rsh' ridx'
  | _, _ => []
  end.

Definition bidx (sh idx : list nat) : list nat :=
  rev (bidx_rev (rev sh) (rev idx)).

(** ** Tensors *)

Record tensor (A : Type) : Type := mkTensor {
  shape : list nat;
  get : list nat -> A
}.

Arguments mkTensor {A} shape get.
Arguments shape {A} t.
Arguments get {A} t idx.

Definition rank {A : Type} (t : tensor A) : nat := length (shape t).

Definition full {A : Type} (sh : list nat) (v : A) : tensor A :=
  {| shape := sh; get := fun _ => v |}.

Definition tmap {A B : Type} (f : A -> B) (t : tensor A) : tensor B :=
  {| shape := shape t; get := fun idx => f (get t idx) |}.

(** An elementwise binary operation with broadcasting. *)
Definition tmap2 {A B C : Type} (f : A -> B -> C) (a : tensor A) (b : tensor B)
  : result (tensor C) :=
  sh <- broadcast_shapes (shape a) (shape b) ;;
  Ok {| shape := sh;
        get := fun idx => f (get a (bidx (shape a) idx))
                            (get b (bidx (shape b) idx)) |}.

Definition idx_eqb (i j : list nat) : bool :=
  if list_eq_dec Nat.eq_dec i j then true else false.

(** [t[idx] = v] *)
Definition tset {A : Type} (t : tensor A) (idx : list nat) (v : A)
  : result (tensor A) :=
  if in_bounds (shape t) idx
  then Ok {| shape := shape t;
             get := fun i => if idx_eqb i idx then v else get t i |}
  else Err IndexError.

Open Scope R_scope.

Definition zeros (sh : list nat) : tensor R := full sh 0.
Definition tadd : tensor R -> tensor R -> result (tensor R) := tmap2 Rplus.
Definition tsub : tensor R -> tensor R -> result (tensor R) := tmap2 Rminus.
Definition tmul : tensor R -> tensor R -> result (tensor R) := tmap2 Rmult.
Definition tdiv : tensor R -> tensor R -> result (tensor R) := tmap2 Rdiv.

(** Sum of [f 0], ..., [f (n-1)]. *)
Definition rsum (n : nat) (f : nat -> R) : R :=
  fold_right Rplus 0 (map f (seq 0 n)).

(** ** PositionalEncoding *)

Record PositionalEncoding : Type := {
  positionalEncoding : tensor R
}.

(** One iteration of the inner loop of [__init__]. *)
Definition pe_assign (embedding_dim pos : nat) (t : tensor R) (i : nat)
  : result (tensor R) :=
  t1 <- tset t [pos; 2 * i]%nat
          (sin (INR pos / Rpower 10000 (INR (2 * i) / INR embedding_dim))) ;;
  tset t1 [pos; 2 * i + 1]%nat
          (cos (INR pos / Rpower 10000 (INR (2 * i) / INR embedding_dim))).

Definition PositionalEncoding_init (max_len embedding_dim : nat)
  : result PositionalEncoding :=
  t <- foldM (fun t pos =>
                foldM (pe_assign embedding_dim pos)
                      (seq 0 (embedding_dim / 2)) t)
             (seq 0 max_len)
             (zeros [max_len; embedding_dim]) ;;
  Ok {| positionalEncoding := t |}.

Definition PositionalEncoding_forward (self : PositionalEncoding)
  (x : tensor R) : result (tensor R) :=
  tadd x (positionalEncoding self).

(** ** Tensor operations used by the attention modules *)

Definition swap {A : Type} (d : A) (i j : nat) (l : list A) : list A :=
  map (fun k => nth (if k =? i then j else if k =? j then i else k)%nat l d)
      (seq 0 (length l)).

(** [t.transpose(d0, d1)] *)
Definition transpose {A : Type} (t : tensor A) (d0 d1 : nat)
  : result (tensor A) :=
  if (d0 <? rank t)%nat && (d1 <? rank t)%nat
  then Ok {| shape := swap 0%nat d0 d1 (shape t);
             get := fun idx => get t (swap 0%nat d0 d1 idx) |}
  else Err IndexError.

Definition insert_at {A : Type} (n : nat) (x : A) (l : list A) : list A :=
  firstn n l ++ x :: skipn n l.

Definition remove_at {A : Type} (n : nat) (l : list A) : list A :=
  firstn n l ++ skipn (S n) l.

(** [t.unsqueeze(dim)] *)
Definition unsqueeze {A : Type} (t : tensor A) (dim : nat)
  : result (tensor A) :=
  if (dim <=? rank t)%nat
  then Ok {| shape := insert_at dim 1%nat (shape t);
             get := fun idx => get t (remove_at dim idx) |}
  else Err IndexError.

(** [t.view(sh)] on a contiguous tensor: the row-major sequence of elements
    is kept and re-indexed.  Every [view] of the program is applied to the
    fresh output of a linear layer or of [matmul], which is contiguous. *)
Definition view {A : Type} (t : tensor A) (sh : list nat)
  : result (tensor A) :=
  if (numel (shape t) =? numel sh)%nat
  then Ok {| shape := sh;
             get := fun idx => get t (unravel (shape t) (ravel sh idx)) |}
  else Err RuntimeError.

(** [torch.matmul] on operands of rank at least 2: the leading (batch) axes
    broadcast, the last two axes are multiplied as matrices.  Operands of
    rank below 2, which torch promotes to matrices, do not occur in the
    program (the key is transposed on axes 2 and 3) and are reported as
    [RuntimeError] here. *)
Definition matmul (a b : tensor R) : result (tensor R) :=
  match rev (shape a), rev (shape b) with
  | m :: n :: ra, p :: m' :: rb =>
      if (m =? m')%nat then
        rbatch <- broadcast_rev ra rb ;;
        Ok {| shape := rev rbatch ++ [n; p];
              get := fun idx =>
                let bi := firstn (length rbatch) idx in
                let i := nth (length rbatch) idx 0%nat in
                let j := nth (S (length rbatch)) idx 0%nat in
                rsum m (fun k => get a (bidx (rev ra) bi ++ [i; k])
                                 * get b (bidx (rev rb) bi ++ [k; j])) |}
      else Err RuntimeError
  | _, _ => Err RuntimeError
  end.

(** [x.masked_fill(mask, v)]: out of place, both operands broadcast. *)
Definition masked_fill (x : tensor R) (mask : tensor bool) (v : R)
  : result (tensor R) :=
  tmap2 (fun (s : R) (m : bool) => if m then v else s) x mask.

(** [nn.Softmax(dim=-1)] *)
Definition softmax (t : tensor R) : tensor R :=
  {| shape := shape t;
     get := fun idx =>
       exp (get t idx)
       / rsum (last (shape t) 0%nat)
              (fun k => exp (get t (removelast idx ++ [k]))) |}.

(** [x.mean(dim=-1, keepdim=True)] *)
Definition mean_last (x : tensor R) : tensor R :=
  {| shape := removelast (shape x) ++ [1%nat];
     get := fun idx =>
       rsum (last (shape x) 0%nat)
            (fun j => get x (removelast idx ++ [j]))
       / INR (last (shape x) 0%nat) |}.

(** [x.std(dim=-1, keepdim=True)], with Bessel's correction as in torch. *)
Definition std_last (x : tensor R) : tensor R :=
  {| shape := removelast (shape x) ++ [1%nat];
     get := fun idx =>
       sqrt (rsum (last (shape x) 0%nat)
                  (fun j => Rsqr (get x (removelast idx ++ [j])
                                  - get (mean_last x) idx))
             / INR (last (shape x) 0%nat - 1)) |}.

(** ** nn.Dropout, nn.Linear, nn.Embedding *)

Record Dropout : Type := {
  p : R;
  training : bool;
  (* the outcome of the Bernoulli draw of a call: [true] keeps the element *)
  bernoulli : list nat -> bool
}.

(** [nn.Dropout(p)] raises unless [0 <= p <= 1]; a new module is in training
    mode. *)
Definition Dropout_init (rate : R) (draw : list nat -> bool) : result Dropout :=
  if Rlt_dec rate 0 then Err ValueError
  else if Rgt_dec rate 1 then Err ValueError
  else Ok {| p := rate; training := true; bernoulli := draw |}.

Definition Dropout_forward (self : Dropout) (x : tensor R) : tensor R :=
  if training self
  then {| shape := shape x;
          get := fun idx =>
            if bernoulli self idx then get x idx / (1 - p self) else 0 |}
  else x.

Record Linear : Type := {
  in_features : nat;
  out_features : nat;
  weight : tensor R;   (* shape [out_features; in_features] *)
  bias : tensor R      (* shape [out_features] *)
}.

(** The random initial values are given as index functions. *)
Definition Linear_init (n_in n_out : nat) (w b : list nat -> R) : Linear :=
  {| in_features := n_in; out_features := n_out;
     weight := {| shape := [n_out; n_in]; get := w |};
     bias := {| shape := [n_out]; get := b |} |}.

Definition Linear_forward (self : Linear) (x : tensor R) : result (tensor R) :=
  match rev (shape x) with
  | d :: _ =>
      if (d =? in_features self)%nat
      then Ok {| shape := removelast (shape x) ++ [out_features self];
                 get := fun idx =>
                   rsum (in_features self)
                        (fun i => get x (removelast idx ++ [i])
                                  * get (weight self) [last idx 0%nat; i])
                   + get (bias self) [last idx 0%nat] |}
      else Err RuntimeError
  | [] => Err RuntimeError
  end.

Fixpoint all_indices (sh : list nat) : list (list nat) :=
  match sh with
  | [] => [[]]
  | d :: sh' =>
      flat_map (fun i => map (cons i) (all_indices sh')) (seq 0 d)
  end.

Record Embedding : Type := {
  num_embeddings : nat;
  embedding_weight : tensor R   (* shape [num_embeddings; embedding_dim] *)
}.

(** Lookup of every token id of [x]; an id outside the table raises. *)
Definition Embedding_forward (self : Embedding) (x : tensor Z)
  : result (tensor R) :=
  if forallb (fun idx => (0 <=? get x idx)%Z
                         && (get x idx <? Z.of_nat (num_embeddings self))%Z)
             (all_indices (shape x))
  then Ok {| shape := shape x ++ skipn 1 (shape (embedding_weight self));
             get := fun idx =>
               get (embedding_weight self)
                   [Z.to_nat (get x (removelast idx)); last idx 0%nat] |}
  else Err IndexError.

(** ** ScaledDotProductAttention *)

Record ScaledDotProductAttention : Type := {
  sdpa_dk : nat;
  sdpa_dropout_rate : R;
  sdpa_dropout : option Dropout   (* created only when [dropout_rate > 0] *)
}.

Definition ScaledDotProductAttention_init (dk : nat) (dropout_rate : R)
  (draw : list nat -> bool) : result ScaledDotProductAttention :=
  if Rgt_dec dropout_rate 0
  then d <- Dropout_init dropout_rate draw ;;
       Ok {| sdpa_dk := dk; sdpa_dropout_rate := dropout_rate;
             sdpa_dropout := Some d |}
  else Ok {| sdpa_dk := dk; sdpa_dropout_rate := dropout_rate;
             sdpa_dropout := None |}.

(** The constant written over masked scores. *)
Definition mask_fill_value : R := -1e10.

Definition ScaledDotProductAttention_forward (self : ScaledDotProductAttention)
  (query key value : tensor R) (mask : option (tensor bool))
  : result (tensor R) :=
  kt <- transpose key 2 3 ;;
  out <- matmul query kt ;;
  let out := tmap (fun s => s / sqrt (INR (sdpa_dk self))) out in
  out <- match mask with
         | Some m =>
             m1 <- unsqueeze m 1 ;;
             masked_fill out (tmap negb m1) mask_fill_value
         | None => Ok out
         end ;;
  let out := softmax out in
  out <- (if Rgt_dec (sdpa_dropout_rate self) 0
          then match sdpa_dropout self with
               | Some d => Ok (Dropout_forward d out)
               | None => Err AttributeError
               end
          else Ok out) ;;
  matmul out value.

(** ** MultiHeadAttention *)

Record MultiHeadAttention : Type := {
  mha_embedding_dim : nat;
  head : nat;
  mha_dk : nat;
  dense_query : Linear;
  dense_key : Linear;
  dense_value : Linear;
  scaled_dot_product_attention : ScaledDotProductAttention;
  dense : Linear
}.

(** The random initial values of the four linear layers and the Bernoulli
    draws of the dropout module. *)
Record mha_random : Type := {
  rnd_query : (list nat -> R) * (list nat -> R);
  rnd_key : (list nat -> R) * (list nat -> R);
  rnd_value : (list nat -> R) * (list nat -> R);
  rnd_dense : (list nat -> R) * (list nat -> R);
  rnd_draw : list nat -> bool
}.

Definition MultiHeadAttention_init (head_count embedding_dim : nat)
  (dropout_rate : R) (rnd : mha_random) : result MultiHeadAttention :=
  dk <- (if (head_count =? 0)%nat then Err ZeroDivisionError
         else Ok (embedding_dim / head_count)%nat) ;;
  let lin := fun wb : (list nat -> R) * (list nat -> R) =>
               Linear_init embedding_dim embedding_dim (fst wb) (snd wb) in
  let dq := lin (rnd_query rnd) in
  let dkey := lin (rnd_key rnd) in
  let dv := lin (rnd_value rnd) in
  sdpa <- ScaledDotProductAttention_init dk dropout_rate (rnd_draw rnd) ;;
  Ok {| mha_embedding_dim := embedding_dim; head := head_count; mha_dk := dk;
        dense_query := dq; dense_key := dkey; dense_value := dv;
        scaled_dot_product_attention := sdpa;
        dense := lin (rnd_dense rnd) |}.

Definition MultiHeadAttention_forward (self : MultiHeadAttention)
  (query key value : tensor R) (mask : option (tensor bool))
  : result (tensor R) :=
  match shape query with
  | [batch; max_len; _] =>
      let split := [batch; max_len; head self; mha_dk self] in
      q <- Linear_forward (dense_query self) query ;;
      query_out <- view q split ;;
      k <- Linear_forward (dense_key self) key ;;
      key_out <- view k split ;;
      v <- Linear_forward (dense_value self) value ;;
      value_out <- view v split ;;
      query_out <- transpose query_out 1 2 ;;
      key_out <- transpose key_out 1 2 ;;
      value_out <- transpose value_out 1 2 ;;
      a <- ScaledDotProductAttention_forward
             (scaled_dot_product_attention self)
             query_out key_out value_out mask ;;
      out <- view a [batch; max_len; mha_embedding_dim self] ;;
      Linear_forward (dense self) out
  | _ => Err ValueError
  end.

(** ** LayerNorm *)

Record LayerNorm : Type := {
  ln_embedding_dim : nat;
  eps : R;
  gamma : tensor R;
  beta : tensor R
}.

Definition default_eps : R := 1e-6.

Definition LayerNorm_init (embedding_dim : nat) (e : R) : LayerNorm :=
  {| ln_embedding_dim := embedding_dim; eps := e;
     gamma := full [embedding_dim] 1;
     beta := full [embedding_dim] 0 |}.

Definition LayerNorm_forward (self : LayerNorm) (x : tensor R)
  : result (tensor R) :=
  let mean := mean_last x in
  let std := std_last x in
  c <- tsub x mean ;;
  g <- tmul (gamma self) c ;;
  q <- tdiv g (tmap (fun s => s + eps self) std) ;;
  tadd q (beta self).

(** ** FeedForward *)

(** The [dense] pipeline: linear, ReLU, dropout, linear.  The [conv] pipeline
    that [__init__] also builds is never called by [forward]. *)
Record FeedForward : Type := {
  ff_linear1 : Linear;
  ff_dropout : Dropout;
  ff_linear2 : Linear
}.

Definition relu (x : tensor R) : tensor R := tmap (Rmax 0) x.

Definition FeedForward_forward (self : FeedForward) (x : tensor R)
  : result (tensor R) :=
  h <- Linear_forward (ff_linear1 self) x ;;
  let h := Dropout_forward (ff_dropout self) (relu h) in
  Linear_forward (ff_linear2 self) h.

(** ** EncoderLayer and Encoder *)

Record EncoderLayer : Type := {
  enc_multi_head_attention : MultiHeadAttention;
  enc_layer_norm1 : LayerNorm;
  enc_feed_forward : FeedForward;
  enc_layer_norm2 : LayerNorm
}.

Definition EncoderLayer_forward (self : EncoderLayer) (x : tensor R)
  (x_mask : option (tensor bool)) : result (tensor R) :=
  multi_head_out <-
    MultiHeadAttention_forward (enc_multi_head_attention self) x x x x_mask ;;
  s <- tadd multi_head_out x ;;
  out <- LayerNorm_forward (enc_layer_norm1 self) s ;;
  feed_forward_out <- FeedForward_forward (enc_feed_forward self) out ;;
  s <- tadd feed_forward_out out ;;
  LayerNorm_forward (enc_layer_norm2 self) s.

(** [self.seq[i]] for a [nn.Sequential] holding [layers]. *)
Definition sequential_get {A : Type} (layers : list A) (i : nat) : result A :=
  match nth_error layers i with
  | Some l => Ok l
  | None => Err IndexError
  end.

Record Encoder : Type := {
  enc_N : nat;
  enc_embedding : Embedding;
  enc_positionalEncoding : PositionalEncoding;
  encoder_layers : list EncoderLayer
}.

(** The first two statements of [Encoder.forward]: the value of [out] on
    entry to the loop over the layers. *)
Definition Encoder_embed (self : Encoder) (x : tensor Z) : result (tensor R) :=
  embedding_out <- Embedding_forward (enc_embedding self) x ;;
  pe <- PositionalEncoding_forward (enc_positionalEncoding self)
          embedding_out ;;
  tadd embedding_out pe.

Definition Encoder_forward (self : Encoder) (x : tensor Z)
  (x_mask : option (tensor bool)) : result (tensor R) :=
  out <- Encoder_embed self x ;;
  foldM (fun out i =>
           layer <- sequential_get (encoder_layers self) i ;;
           EncoderLayer_forward layer out x_mask)
        (seq 0 (enc_N self)) out.

(** ** DecoderLayer and Decoder *)

Record DecoderLayer : Type := {
  multi_head_attention1 : MultiHeadAttention;
  multi_head_attention2 : MultiHeadAttention;
  layer_norm1 : LayerNorm;
  layer_norm2 : LayerNorm;
  layer_norm3 : LayerNorm;
  feed_forward : FeedForward
}.

(** The three stages of [DecoderLayer.forward]; each takes the value of [out]
    left by the stage before it. *)
Definition DecoderLayer_stage1 (self : DecoderLayer) (target : tensor R)
  (target_mask : option (tensor bool)) : result (tensor R) :=
  multi_head_out1 <-
    MultiHeadAttention_forward (multi_head_attention1 self)
      target target target target_mask ;;
  s <- tadd multi_head_out1 target ;;
  LayerNorm_forward (layer_norm1 self) s.

Definition DecoderLayer_stage2 (self : DecoderLayer)
  (encoder_out out : tensor R) (x_mask : option (tensor bool))
  : result (tensor R) :=
  multi_head_out2 <-
    MultiHeadAttention_forward (multi_head_attention2 self)
      encoder_out encoder_out out x_mask ;;
  s <- tadd multi_head_out2 out ;;
  LayerNorm_forward (layer_norm2 self) s.

Definition DecoderLayer_stage3 (self : DecoderLayer) (out : tensor R)
  : result (tensor R) :=
  feed_forward_out <- FeedForward_forward (feed_forward self) out ;;
  s <- tadd feed_forward_out out ;;
  LayerNorm_forward (layer_norm3 self) s.

Definition DecoderLayer_forward (self : DecoderLayer)
  (encoder_out target : tensor R) (x_mask target_mask : option (tensor bool))
  : result (tensor R) :=
  out <- DecoderLayer_stage1 self target target_mask ;;
  out <- DecoderLayer_stage2 self encoder_out out x_mask ;;
  DecoderLayer_stage3 self out.

Record Decoder : Type := {
  dec_N : nat;
  dec_embedding : Embedding;
  dec_positionalEncoding : PositionalEncoding;
  decoder_layers : list DecoderLayer
}.

Definition Decoder_embed (self : Decoder) (x : tensor Z) : result (tensor R) :=
  embedding_out <- Embedding_forward (dec_embedding self) x ;;
  pe <- PositionalEncoding_forward (dec_positionalEncoding self)
          embedding_out ;;
  tadd embedding_out pe.

Definition Decoder_forward (self : Decoder) (encoder_out : tensor R)
  (x : tensor Z) (x_mask target_mask : option (tensor bool))
  : result (tensor R) :=
  out <- Decoder_embed self x ;;
  foldM (fun out i =>
           layer <- sequential_get (decoder_layers self) i ;;
           DecoderLayer_forward layer encoder_out out x_mask target_mask)
        (seq 0 (dec_N self)) out.

(** ** Transformer *)

Record Transformer : Type := {
  tr_encoder : Encoder;
  tr_decoder : Decoder;
  tr_out : Linear
}.

Definition Transformer_forward (self : Transformer) (x : tensor Z)
  (x_mask : option (tensor bool)) (target : tensor Z)
  (target_mask : option (tensor bool)) : result (tensor R) :=
  encoder_out <- Encoder_forward (tr_encoder self) x x_mask ;;
  decoder_out <-
    Decoder_forward (tr_decoder self) encoder_out target x_mask target_mask ;;
  Linear_forward (tr_out self) decoder_out.

(** ** Constructors of the composite modules

    As for [MultiHeadAttention], the random initial values are arguments.
    [FeedForward.__init__] also builds a convolutional pipeline that
    [forward] never reads; only its dropout module, which is validated like
    the dense one, can make construction raise.  As in current PyTorch, a
    layer with a dimension of size 0 is built without error. *)

Definition inner_dim : nat := 2048.

Record ff_random : Type := {
  rnd_ff1 : (list nat -> R) * (list nat -> R);
  rnd_ff2 : (list nat -> R) * (list nat -> R);
  rnd_ff_draw : list nat -> bool
}.

Definition FeedForward_init (embedding_dim : nat) (dropout : R)
  (rnd : ff_random) : result FeedForward :=
  d <- Dropout_init dropout (rnd_ff_draw rnd) ;;
  _ <- Dropout_init dropout (rnd_ff_draw rnd) ;;
  Ok {| ff_linear1 := Linear_init embedding_dim inner_dim
                        (fst (rnd_ff1 rnd)) (snd (rnd_ff1 rnd));
        ff_dropout := d;
        ff_linear2 := Linear_init inner_dim embedding_dim
                        (fst (rnd_ff2 rnd)) (snd (rnd_ff2 rnd)) |}.

Record encoder_layer_random : Type := {
  rnd_enc_mha : mha_random;
  rnd_enc_ff : ff_random
}.

Definition EncoderLayer_init (head_count embedding_dim : nat)
  (dropout_rate : R) (rnd : encoder_layer_random) : result EncoderLayer :=
  mha <- MultiHeadAttention_init head_count embedding_dim dropout_rate
           (rnd_enc_mha rnd) ;;
  ff <- FeedForward_init embedding_dim dropout_rate (rnd_enc_ff rnd) ;;
  Ok {| enc_multi_head_attention := mha;
        enc_layer_norm1 := LayerNorm_init embedding_dim default_eps;
        enc_feed_forward := ff;
        enc_layer_norm2 := LayerNorm_init embedding_dim default_eps |}.

Record decoder_layer_random : Type := {
  rnd_dec_mha1 : mha_random;
  rnd_dec_mha2 : mha_random;
  rnd_dec_ff : ff_random
}.

Definition DecoderLayer_init (head_count embedding_dim : nat)
  (dropout_rate : R) (rnd : decoder_layer_random) : result DecoderLayer :=
  mha1 <- MultiHeadAttention_init head_count embedding_dim dropout_rate
            (rnd_dec_mha1 rnd) ;;
  mha2 <- MultiHeadAttention_init head_count embedding_dim dropout_rate
            (rnd_dec_mha2 rnd) ;;
  ff <- FeedForward_init embedding_dim dropout_rate (rnd_dec_ff rnd) ;;
  Ok {| multi_head_attention1 := mha1;
        multi_head_attention2 := mha2;
        layer_norm1 := LayerNorm_init embedding_dim default_eps;
        layer_norm2 := LayerNorm_init embedding_dim default_eps;
        layer_norm3 := LayerNorm_init embedding_dim default_eps;
        feed_forward := ff |}.

(** [for _ in range(N): layers.append(make(...))] *)
Fixpoint mapM {A B : Type} (f : A -> result B) (l : list A)
  : result (list B) :=
  match l with
  | [] => Ok []
  | a :: l' => b <- f a ;; bs <- mapM f l' ;; Ok (b :: bs)
  end.

Definition Embedding_init (num embedding_dim : nat) (w : list nat -> R)
  : Embedding :=
  {| num_embeddings := num;
     embedding_weight := {| shape := [num; embedding_dim]; get := w |} |}.

Definition Encoder_init (input_size max_len head_count embedding_dim : nat)
  (dropout_rate : R) (N : nat)
  (rnd_emb : list nat -> R) (rnd_layers : nat -> encoder_layer_random)
  : result Encoder :=
  pe <- PositionalEncoding_init max_len embedding_dim ;;
  layers <- mapM (fun i => EncoderLayer_init head_count embedding_dim
                             dropout_rate (rnd_layers i))
                 (seq 0 N) ;;
  Ok {| enc_N := N;
        enc_embedding := Embedding_init input_size embedding_dim rnd_emb;
        enc_positionalEncoding := pe;
        encoder_layers := layers |}.

Definition Decoder_init (input_size max_len head_count embedding_dim : nat)
  (dropout_rate : R) (N : nat)
  (rnd_emb : list nat -> R) (rnd_layers : nat -> decoder_layer_random)
  : result Decoder :=
  pe <- PositionalEncoding_init max_len embedding_dim ;;
  layers <- mapM (fun i => DecoderLayer_init head_count embedding_dim
                             dropout_rate (rnd_layers i))
                 (seq 0 N) ;;
  Ok {| dec_N := N;
        dec_embedding := Embedding_init input_size embedding_dim rnd_emb;
        dec_positionalEncoding := pe;
        decoder_layers := layers |}.

Record transformer_random : Type := {
  rnd_src_emb : list nat -> R;
  rnd_enc_layers : nat -> encoder_layer_random;
  rnd_tgt_emb : list nat -> R;
  rnd_dec_layers : nat -> decoder_layer_random;
  rnd_out : (list nat -> R) * (list nat -> R)
}.

Definition Transformer_init (input_size target_size max_len head_count
  embedding_dim : nat) (dropout_rate : R) (N : nat) (rnd : transformer_random)
  : result Transformer :=
  enc <- Encoder_init input_size max_len head_count embedding_dim
           dropout_rate N (rnd_src_emb rnd) (rnd_enc_layers rnd) ;;
  dec <- Decoder_init target_size max_len head_count embedding_dim
           dropout_rate N (rnd_tgt_emb rnd) (rnd_dec_layers rnd) ;;
  Ok {| tr_encoder := enc;
        tr_decoder := dec;
        tr_out := Linear_init embedding_dim target_size
                    (fst (rnd_out rnd)) (snd (rnd_out rnd)) |}.

(** * Definitions used by the statements *)

(** ** The positional table

    The sine and cosine entries the table is meant to hold. *)
Definition pe_sin (embedding_dim pos i : nat) : R :=
  sin (INR pos / Rpower 10000 (2 * INR i / INR embedding_dim)).

Definition pe_cos (embedding_dim pos i : nat) : R :=
  cos (INR pos / Rpower 10000 (2 * INR i / INR embedding_dim)).

(** ** The attention kernel as the specification words it

    [scores = (Q . K^T) / sqrt dk], masked entries replaced by the fill
    constant, softmax over the last axis, dropout of the weights in training
    mode, output [weights . V].  Indices are written out: [b] batch, [h] head,
    [i] query position, [j] key position, [c] feature. *)

Module AttentionSpec.

Section Kernel.
Variable self : ScaledDotProductAttention.
Variables query key value : tensor R.
Variable mask : option (tensor bool).
(* feature size of query and key, number of key positions *)
Variables D Lk : nat.

Definition score (b h i j : nat) : R :=
  rsum D (fun c => get query [b; h; i; c] * get key [b; h; j; c])
  / sqrt (INR (sdpa_dk self)).

Definition masked_score (b h i j : nat) : R :=
  match mask with
  | Some m =>
      if get m [b; bdim (nth 1 (shape m) 0%nat) i; j]
      then score b h i j
      else mask_fill_value
  | None => score b h i j
  end.

Definition softmax_weight (b h i j : nat) : R :=
  exp (masked_score b h i j)
  / rsum Lk (fun j' => exp (masked_score b h i j')).

Definition weight_after_dropout (b h i j : nat) : R :=
  match sdpa_dropout self with
  | Some d =>
      if Rgt_dec (sdpa_dropout_rate self) 0 then
        if training d then
          if bernoulli d [b; h; i; j]
          then softmax_weight b h i j / (1 - p d)
          else 0
        else softmax_weight b h i j
      else softmax_weight b h i j
  | None => softmax_weight b h i j
  end.

Definition attention (b h i c : nat) : R :=
  rsum Lk (fun j => weight_after_dropout b h i j * get value [b; h; j; c]).
End Kernel.

End AttentionSpec.

(** A mask the kernel accepts for scores of shape [(B, H, Lq, Lk)]: absent,
    or of shape [(B, 1, Lk)] (padding) or [(B, Lq, Lk)] (causal). *)
Definition mask_fits (mask : option (tensor bool)) (B Lq Lk : nat) : Prop :=
  match mask with
  | Some m => exists Lm, shape m = [B; Lm; Lk] /\ (Lm = 1%nat \/ Lm = Lq)
  | None => True
  end.

(** The dropout attribute exists whenever [forward] reads it, as [__init__]
    ensures. *)
Definition dropout_present (self : ScaledDotProductAttention) : Prop :=
  sdpa_dropout_rate self > 0 -> sdpa_dropout self <> None.

(** Fixed inputs for examples: all initial weights 0, every element kept. *)
Definition rnd0 : mha_random :=
  {| rnd_query := (fun _ => 0, fun _ => 0);
     rnd_key := (fun _ => 0, fun _ => 0);
     rnd_value := (fun _ => 0, fun _ => 0);
     rnd_dense := (fun _ => 0, fun _ => 0);
     rnd_draw := fun _ => true |}.

(** ** Row statistics

    Mean and standard deviation (with Bessel's correction) of the feature
    vector at batch [b], position [i] of a tensor of shape [(B, L, E)]. *)

Definition row_mean (x : tensor R) (E b i : nat) : R :=
  rsum E (fun j => get x [b; i; j]) / INR E.

Definition row_std (x : tensor R) (E b i : nat) : R :=
  sqrt (rsum E (fun j => Rsqr (get x [b; i; j] - row_mean x E b i))
        / INR (E - 1)).

(** ** A small encoder and decoder front end

    Vocabulary of two tokens, [embedding_dim = 2], every embedding entry 1,
    and one batch of two tokens, both with id 1. *)

Definition example_embedding : Embedding :=
  {| num_embeddings := 2; embedding_weight := full [2; 2]%nat 1 |}.

Definition example_tokens : tensor Z := full [1; 2]%nat 1%Z.

Definition example_encoder (pe : PositionalEncoding) : Encoder :=
  {| enc_N := 0; enc_embedding := example_embedding;
     enc_positionalEncoding := pe; encoder_layers := [] |}.

Definition example_decoder (pe : PositionalEncoding) : Decoder :=
  {| dec_N := 0; dec_embedding := example_embedding;
     dec_positionalEncoding := pe; decoder_layers := [] |}.

(** ** The cross-attention stage as the specification words it

    Query = the output of stage 1, key = value = the encoder output. *)

Definition DecoderLayer_stage2_as_specified (self : DecoderLayer)
  (encoder_out out : tensor R) (x_mask : option (tensor bool))
  : result (tensor R) :=
  a <- MultiHeadAttention_forward (multi_head_attention2 self)
         out encoder_out encoder_out x_mask ;;
  s <- tadd a out ;;
  LayerNorm_forward (layer_norm2 self) s.

Definition DecoderLayer_forward_as_specified (self : DecoderLayer)
  (encoder_out target : tensor R) (x_mask target_mask : option (tensor bool))
  : result (tensor R) :=
  out <- DecoderLayer_stage1 self target target_mask ;;
  out <- DecoderLayer_stage2_as_specified self encoder_out out x_mask ;;
  DecoderLayer_stage3 self out.

(** ** A small decoder layer

    One head over [embedding_dim = 3]; the value and output projections are
    the identity, the query and key projections and the feed-forward
    weights are zero, no dropout; the three normalisations have unit scale
    and zero bias. *)

Definition identity_weight (idx : list nat) : R :=
  match idx with
  | [o; c] => if (o =? c)%nat then 1 else 0
  | _ => 0
  end.

Definition example_rnd : mha_random :=
  {| rnd_query := (fun _ => 0, fun _ => 0);
     rnd_key := (fun _ => 0, fun _ => 0);
     rnd_value := (identity_weight, fun _ => 0);
     rnd_dense := (identity_weight, fun _ => 0);
     rnd_draw := fun _ => true |}.

Definition example_attention : MultiHeadAttention :=
  {| mha_embedding_dim := 3; head := 1; mha_dk := 3;
     dense_query := Linear_init 3 3 (fun _ => 0) (fun _ => 0);
     dense_key := Linear_init 3 3 (fun _ => 0) (fun _ => 0);
     dense_value := Linear_init 3 3 identity_weight (fun _ => 0);
     scaled_dot_product_attention :=
       {| sdpa_dk := 3; sdpa_dropout_rate := 0; sdpa_dropout := None |};
     dense := Linear_init 3 3 identity_weight (fun _ => 0) |}.

Definition example_feed_forward : FeedForward :=
  {| ff_linear1 := Linear_init 3 2048 (fun _ => 0) (fun _ => 0);
     ff_dropout := {| p := 0; training := false; bernoulli := fun _ => true |};
     ff_linear2 := Linear_init 2048 3 (fun _ => 0) (fun _ => 0) |}.

Definition example_decoder_layer : DecoderLayer :=
  {| multi_head_attention1 := example_attention;
     multi_head_attention2 := example_attention;
     layer_norm1 := LayerNorm_init 3 default_eps;
     layer_norm2 := LayerNorm_init 3 default_eps;
     layer_norm3 := LayerNorm_init 3 default_eps;
     feed_forward := example_feed_forward |}.

(** One batch, one position, the given feature vector. *)
Definition row_tensor (l : list R) : tensor R :=
  {| shape := [1%nat; 1%nat; length l];
     get := fun idx => nth (last idx 0%nat) l 0 |}.

Definition example_target : tensor R := row_tensor [0; 1; 2].
Definition example_encoder_out : tensor R := row_tensor [1; 1; 1].
Definition example_x_mask : option (tensor bool) :=
  Some (full [1; 1; 1]%nat true).
Definition example_target_mask : option (tensor bool) :=
  Some (full [1; 1; 1]%nat true).

(** The factor by which [LayerNorm] with unit scale shrinks a row of
    standard deviation [k]. *)
Definition unit_scale (k : R) : R := k / (k + default_eps).

(** No dropout is applied by the kernel: the rate is not positive, or the
    dropout module is in evaluation mode. *)
Definition dropout_inactive (self : ScaledDotProductAttention) : Prop :=
  sdpa_dropout_rate self <= 0
  \/ forall d, sdpa_dropout self = Some d -> training d = false.

(** ** The projections of multi-head attention, index by index

    [project l x b i o] is entry [o] of the linear layer [l] applied to the
    feature vector of [x] at batch [b], position [i]; [heads_of h dk l x] is
    that projection split into [h] heads of size [dk], indexed
    [(batch, head, position, feature)]. *)

Definition project (l : Linear) (x : tensor R) (b i o : nat) : R :=
  rsum (in_features l) (fun c => get x [b; i; c] * get (weight l) [o; c])
  + get (bias l) [o].

Definition heads_of (h dk : nat) (l : Linear) (x : tensor R) : tensor R :=
  {| shape := [nth 0 (shape x) 0%nat; h; nth 1 (shape x) 0%nat; dk];
     get := fun idx =>
       project l x (nth 0 idx 0%nat) (nth 2 idx 0%nat)
               (nth 1 idx 0%nat * dk + nth 3 idx 0%nat) |}.

(** Fixed initial values for examples of the composite modules. *)
Definition ff_rnd0 : ff_random :=
  {| rnd_ff1 := (fun _ => 0, fun _ => 0);
     rnd_ff2 := (fun _ => 0, fun _ => 0);
     rnd_ff_draw := fun _ => true |}.

Definition enc_layer_rnd0 : encoder_layer_random :=
  {| rnd_enc_mha := rnd0; rnd_enc_ff := ff_rnd0 |}.

Definition dec_layer_rnd0 : decoder_layer_random :=
  {| rnd_dec_mha1 := rnd0; rnd_dec_mha2 := rnd0; rnd_dec_ff := ff_rnd0 |}.

Definition transformer_rnd0 : transformer_random :=
  {| rnd_src_emb := fun _ => 0;
     rnd_enc_layers := fun _ => enc_layer_rnd0;
     rnd_tgt_emb := fun _ => 0;
     rnd_dec_layers := fun _ => dec_layer_rnd0;
     rnd_out := (fun _ => 0, fun _ => 0) |}.

(** * Properties *)

(** ** Loops, indices and sums *)

Lemma foldM_seq_from {A : Type} (f : A -> nat -> result A)
      (I : nat -> A -> Prop) (n s : nat) (a : A) :
  I s a ->
  (forall k x, (s <= k < s + n)%nat -> I k x ->
               exists x', f x k = Ok x' /\ I (S k) x') ->
  exists a', foldM f (seq s n) a = Ok a' /\ I (s + n)%nat a'.
Proof.
  revert s a.
  induction n as [|n IH]; intros s a Ha Hstep; simpl.
  - exists a. rewrite Nat.add_0_r. auto.
  - destruct (Hstep s a) as [x' [Hf Hx']]; [lia | assumption |].
    rewrite Hf. simpl.
    destruct (IH (S s) x') as [a' [Hfold Ha']]; [assumption | |].
    + intros k x Hk Hx. apply Hstep; [lia | assumption].
    + exists a'. split; [assumption |].
      replace (s + S n)%nat with (S s + n)%nat by lia. assumption.
Qed.

Lemma foldM_seq_inv {A : Type} (f : A -> nat -> result A)
      (I : nat -> A -> Prop) (n : nat) (a : A) :
  I 0%nat a ->
  (forall k x, (k < n)%nat -> I k x ->
               exists x', f x k = Ok x' /\ I (S k) x') ->
  exists a', foldM f (seq 0 n) a = Ok a' /\ I n a'.
Proof.
  intros H0 Hstep.
  destruct (foldM_seq_from f I n 0%nat a H0) as [a' [Hf Ha']].
  - intros k x Hk. apply Hstep. lia.
  - exists a'. auto.
Qed.

Lemma idx_eqb_refl (i : list nat) : idx_eqb i i = true.
Proof. unfold idx_eqb. destruct (list_eq_dec Nat.eq_dec i i); congruence. Qed.

Lemma idx_eqb_neq (i j : list nat) : i <> j -> idx_eqb i j = false.
Proof. unfold idx_eqb. destruct (list_eq_dec Nat.eq_dec i j); congruence. Qed.

Lemma tset_ok {A : Type} (t : tensor A) (idx : list nat) (v : A) :
  in_bounds (shape t) idx = true ->
  exists t', tset t idx v = Ok t'
             /\ shape t' = shape t
             /\ get t' idx = v
             /\ (forall j, j <> idx -> get t' j = get t j).
Proof.
  intros Hb. unfold tset. rewrite Hb.
  eexists. split; [reflexivity |]. simpl.
  split; [reflexivity |]. split.
  - now rewrite idx_eqb_refl.
  - intros j Hj. now rewrite idx_eqb_neq.
Qed.

Lemma in_bounds2 (m d i j : nat) :
  (i < m)%nat -> (j < d)%nat -> in_bounds [m; d] [i; j] = true.
Proof.
  intros Hi Hj. simpl.
  apply Nat.ltb_lt in Hi. apply Nat.ltb_lt in Hj.
  now rewrite Hi, Hj.
Qed.

Lemma half_double_le (d i : nat) : (i < d / 2 -> 2 * i + 1 < d)%nat.
Proof.
  intros Hi.
  pose proof (Nat.div_mod_eq d 2) as Hd.
  pose proof (Nat.mod_upper_bound d 2).
  lia.
Qed.

Lemma pe_assign_ok (m d pos i : nat) (t : tensor R) :
  shape t = [m; d] -> (pos < m)%nat -> (i < d / 2)%nat ->
  exists t', pe_assign d pos t i = Ok t'
    /\ shape t' = [m; d]
    /\ get t' [pos; 2 * i]%nat = pe_sin d pos i
    /\ get t' [pos; 2 * i + 1]%nat = pe_cos d pos i
    /\ (forall j, j <> [pos; 2 * i]%nat -> j <> [pos; 2 * i + 1]%nat ->
                  get t' j = get t j).
Proof.
  intros Hsh Hpos Hi.
  pose proof (half_double_le d i Hi) as Hlt.
  unfold pe_assign.
  destruct (tset_ok t [pos; 2 * i]%nat
              (sin (INR pos / Rpower 10000 (INR (2 * i) / INR d))))
    as [t1 [E1 [S1 [G1 F1]]]].
  { rewrite Hsh. apply in_bounds2; lia. }
  rewrite E1. cbn [bind].
  destruct (tset_ok t1 [pos; 2 * i + 1]%nat
              (cos (INR pos / Rpower 10000 (INR (2 * i) / INR d))))
    as [t2 [E2 [S2 [G2 F2]]]].
  { rewrite S1, Hsh. apply in_bounds2; lia. }
  exists t2. split; [exact E2 |].
  assert (Hinr : INR (2 * i) = 2 * INR i).
  { rewrite mult_INR. simpl. lra. }
  split; [congruence |]. split; [| split].
  - rewrite F2, G1.
    + unfold pe_sin. now rewrite Hinr.
    + intros H. injection H. lia.
  - rewrite G2. unfold pe_cos. now rewrite Hinr.
  - intros j H1 H2. rewrite F2, F1; auto.
Qed.

Lemma pe_row_ok (m d pos : nat) (t : tensor R) :
  shape t = [m; d] -> (pos < m)%nat ->
  exists t', foldM (pe_assign d pos) (seq 0 (d / 2)) t = Ok t'
    /\ shape t' = [m; d]
    /\ (forall i, (i < d / 2)%nat ->
          get t' [pos; 2 * i]%nat = pe_sin d pos i
          /\ get t' [pos; 2 * i + 1]%nat = pe_cos d pos i)
    /\ (forall q c, q <> pos -> get t' [q; c] = get t [q; c]).
Proof.
  intros Hsh Hpos.
  destruct (foldM_seq_inv (pe_assign d pos)
    (fun n x => shape x = [m; d]
       /\ (forall i, (i < n)%nat ->
             get x [pos; 2 * i]%nat = pe_sin d pos i
             /\ get x [pos; 2 * i + 1]%nat = pe_cos d pos i)
       /\ (forall q c, q <> pos -> get x [q; c] = get t [q; c]))
    (d / 2)%nat t) as [t' [Hf Hinv]].
  - split; [assumption |]. split; [intros i Hi; lia | reflexivity].
  - intros k x Hk [Hx [Hdone Hframe]].
    destruct (pe_assign_ok m d pos k x Hx Hpos Hk)
      as [x' [E [S' [Gs [Gc F]]]]].
    exists x'. split; [exact E |]. split; [exact S' |]. split.
    + intros i Hi.
      destruct (Nat.eq_dec i k) as [-> | Hne]; [auto |].
      assert (i < k)%nat as Hik by lia.
      destruct (Hdone i Hik) as [Hs Hc].
      rewrite !F; try (intros H; injection H; lia). auto.
    + intros q c Hq. rewrite F; try (intros H; injection H; lia).
      now apply Hframe.
  - exists t'. tauto.
Qed.

Lemma PositionalEncoding_init_table (max_len embedding_dim : nat) :
  exists self,
    PositionalEncoding_init max_len embedding_dim = Ok self
    /\ shape (positionalEncoding self) = [max_len; embedding_dim]
    /\ forall pos i, (pos < max_len)%nat -> (i < embedding_dim / 2)%nat ->
         get (positionalEncoding self) [pos; 2 * i]%nat
         = pe_sin embedding_dim pos i
         /\ get (positionalEncoding self) [pos; 2 * i + 1]%nat
            = pe_cos embedding_dim pos i.
Proof.
  unfold PositionalEncoding_init.
  destruct (foldM_seq_inv
    (fun t pos => foldM (pe_assign embedding_dim pos)
                        (seq 0 (embedding_dim / 2)) t)
    (fun n x => shape x = [max_len; embedding_dim]
       /\ forall pos i, (pos < n)%nat -> (i < embedding_dim / 2)%nat ->
            get x [pos; 2 * i]%nat = pe_sin embedding_dim pos i
            /\ get x [pos; 2 * i + 1]%nat = pe_cos embedding_dim pos i)
    max_len (zeros [max_len; embedding_dim])) as [t [Hf [Hsh Hent]]].
  - split; [reflexivity | intros; lia].
  - intros k x Hk [Hx Hdone].
    destruct (pe_row_ok max_len embedding_dim k x Hx Hk)
      as [x' [E [S' [Hrow Hframe]]]].
    exists x'. split; [exact E |]. split; [exact S' |].
    intros pos i Hpos Hi.
    destruct (Nat.eq_dec pos k) as [-> | Hne]; [now apply Hrow |].
    rewrite !Hframe by assumption. apply Hdone; [lia | assumption].
  - rewrite Hf. cbn [bind].
    eexists. split; [reflexivity |]. cbn [positionalEncoding].
    split; [exact Hsh | exact Hent].
Qed.

(** C8: the table built by [__init__] has shape [(max_len, embedding_dim)]
    and holds, for every [pos < max_len] and every [i < embedding_dim / 2],
    [sin (pos / 10000^(2i/embedding_dim))] at column [2i] and the cosine of
    the same angle at column [2i+1]; construction never raises, and the table
    is a function of [max_len] and [embedding_dim] alone. *)
Theorem positional_table_entries (max_len embedding_dim : nat) :
  exists self,
    PositionalEncoding_init max_len embedding_dim = Ok self
    /\ shape (positionalEncoding self) = [max_len; embedding_dim]
    /\ forall pos i, (pos < max_len)%nat -> (i < embedding_dim / 2)%nat ->
         get (positionalEncoding self) [pos; 2 * i]%nat
         = sin (INR pos / Rpower 10000 (2 * INR i / INR embedding_dim))
         /\ get (positionalEncoding self) [pos; 2 * i + 1]%nat
            = cos (INR pos / Rpower 10000 (2 * INR i / INR embedding_dim)).
Proof. exact (PositionalEncoding_init_table max_len embedding_dim). Qed.

(** ** Broadcasting *)

Lemma broadcast_dim_refl (a : nat) : broadcast_dim a a = Ok a.
Proof. unfold broadcast_dim. now rewrite Nat.eqb_refl. Qed.

Lemma broadcast_dim_one_r (a : nat) : broadcast_dim a 1 = Ok a.
Proof.
  unfold broadcast_dim.
  destruct (Nat.eqb_spec a 1) as [-> | Hne]; [reflexivity |].
  reflexivity.
Qed.

Lemma broadcast_dim_clash (a b : nat) :
  a <> b -> a <> 1%nat -> b <> 1%nat -> broadcast_dim a b = Err RuntimeError.
Proof.
  intros Hab Ha Hb. unfold broadcast_dim.
  destruct (Nat.eqb_spec a b); [contradiction |].
  destruct (Nat.eqb_spec a 1); [contradiction |].
  destruct (Nat.eqb_spec b 1); [contradiction | reflexivity].
Qed.

Lemma broadcast_dim_error (a b : nat) (e : error) :
  broadcast_dim a b = Err e -> e = RuntimeError.
Proof.
  unfold broadcast_dim.
  destruct (a =? b)%nat; [discriminate |].
  destruct (a =? 1)%nat; [discriminate |].
  destruct (b =? 1)%nat; [discriminate |].
  congruence.
Qed.

Lemma bdim_lt (d i : nat) : (i < d)%nat -> bdim d i = i.
Proof.
  intros Hi. unfold bdim.
  destruct (Nat.eqb_spec d 1); [lia | reflexivity].
Qed.

(** ** PositionalEncoding.forward *)

Lemma tadd_table_same_length (B L d : nat) (x pe : tensor R) :
  shape x = [B; L; d] -> shape pe = [L; d] ->
  exists out, tadd x pe = Ok out
    /\ shape out = [B; L; d]
    /\ forall b pos j, (b < B)%nat -> (pos < L)%nat -> (j < d)%nat ->
         get out [b; pos; j] = get x [b; pos; j] + get pe [pos; j].
Proof.
  intros Hx Hpe. unfold tadd, tmap2, broadcast_shapes.
  rewrite Hx, Hpe. cbn [rev app broadcast_rev].
  rewrite !broadcast_dim_refl. cbn [bind rev app].
  eexists. split; [reflexivity |]. cbn [shape get].
  split; [reflexivity |].
  intros b pos j Hb Hpos Hj.
  unfold bidx. cbn [rev app bidx_rev].
  now rewrite !bdim_lt by assumption.
Qed.

Lemma tadd_table_length_clash (B L E M d : nat) (x pe : tensor R) :
  shape x = [B; L; E] -> shape pe = [M; d] ->
  L <> M -> L <> 1%nat -> M <> 1%nat ->
  tadd x pe = Err RuntimeError.
Proof.
  intros Hx Hpe HLM HL HM. unfold tadd, tmap2, broadcast_shapes.
  rewrite Hx, Hpe. cbn [rev app broadcast_rev].
  rewrite (broadcast_dim_clash L M) by assumption.
  destruct (broadcast_dim E d) as [r | e] eqn:HE; [reflexivity |].
  now rewrite (broadcast_dim_error E d e HE).
Qed.

(** C5, as the code has it: the table is added whole, never sliced.  For
    every [max_len], an input of sequence length [max_len] makes the call
    return [input + PE] broadcast over the batch axis.  Separately, for a
    sequence length strictly between 1 and [max_len] the addition does not
    broadcast and the call raises. *)
Theorem positional_forward_lengths (max_len d B : nat) (x : tensor R) :
  shape x = [B; max_len; d] ->
  exists self,
    PositionalEncoding_init max_len d = Ok self
    /\ (exists out,
          PositionalEncoding_forward self x = Ok out
          /\ shape out = [B; max_len; d]
          /\ forall b pos j, (b < B)%nat -> (pos < max_len)%nat -> (j < d)%nat ->
               get out [b; pos; j]
               = get x [b; pos; j] + get (positionalEncoding self) [pos; j])
    /\ (forall (L : nat) (x' : tensor R),
          shape x' = [B; L; d] -> (1 < L < max_len)%nat ->
          PositionalEncoding_forward self x' = Err RuntimeError).
Proof.
  intros Hx.
  destruct (PositionalEncoding_init_table max_len d) as [self [Hinit [Hsh _]]].
  exists self. split; [exact Hinit |]. split.
  - unfold PositionalEncoding_forward.
    now apply tadd_table_same_length.
  - intros L x' Hx' HL. unfold PositionalEncoding_forward.
    apply (tadd_table_length_clash B L d max_len d); auto; lia.
Qed.

Lemma positional_forward_lengths_witness :
  exists self,
    PositionalEncoding_init 3 2 = Ok self
    /\ (exists out,
          PositionalEncoding_forward self (zeros [1; 3; 2]%nat) = Ok out
          /\ shape out = [1; 3; 2]%nat
          /\ forall b pos j, (b < 1)%nat -> (pos < 3)%nat -> (j < 2)%nat ->
               get out [b; pos; j]
               = get (zeros [1; 3; 2]%nat) [b; pos; j]
                 + get (positionalEncoding self) [pos; j])
    /\ PositionalEncoding_forward self (zeros [1; 2; 2]%nat) = Err RuntimeError.
Proof.
  destruct (positional_forward_lengths 3 2 1 (zeros [1; 3; 2]%nat) eq_refl)
    as [self [Hinit [Hsame Hshort]]].
  exists self. split; [exact Hinit |]. split; [exact Hsame |].
  apply (Hshort 2%nat (zeros [1; 2; 2]%nat)); [reflexivity | lia].
Defined.

(** C5 fails as stated: with [max_len = 3], an input of sequence length 2,
    strictly smaller than [max_len], makes the call raise. *)
Lemma positional_forward_shorter_fails :
  exists self,
    PositionalEncoding_init 3 2 = Ok self
    /\ PositionalEncoding_forward self (zeros [1; 2; 2]%nat) = Err RuntimeError.
Proof.
  destruct (PositionalEncoding_init_table 3 2) as [self [Hinit [Hsh _]]].
  exists self. split; [exact Hinit |].
  unfold PositionalEncoding_forward.
  apply (tadd_table_length_clash 1 2 2 3 2); auto; lia.
Qed.

(** C7, as the code has it: there is no length check.  A sequence longer
    than [max_len] makes the broadcast addition raise the generic shape
    error whenever [max_len >= 2]; nothing is returned. *)
Theorem positional_forward_too_long (max_len d B L E : nat) (x : tensor R) :
  shape x = [B; L; E] ->
  (2 <= max_len < L)%nat ->
  exists self,
    PositionalEncoding_init max_len d = Ok self
    /\ PositionalEncoding_forward self x = Err RuntimeError.
Proof.
  intros Hx HL.
  destruct (PositionalEncoding_init_table max_len d) as [self [Hinit [Hsh _]]].
  exists self. split; [exact Hinit |].
  unfold PositionalEncoding_forward.
  apply (tadd_table_length_clash B L E max_len d); auto; lia.
Qed.

Lemma positional_forward_too_long_witness :
  exists self,
    PositionalEncoding_init 2 2 = Ok self
    /\ PositionalEncoding_forward self (zeros [1; 3; 2]%nat) = Err RuntimeError.
Proof.
  apply (positional_forward_too_long 2 2 1 3 2 (zeros [1; 3; 2]%nat));
    [reflexivity | lia].
Defined.

(** C7 fails as stated: with [max_len = 1] the one-row table broadcasts over
    any sequence length, so a call with sequence length 2 succeeds. *)
Lemma positional_forward_too_long_succeeds :
  exists self out,
    PositionalEncoding_init 1 2 = Ok self
    /\ PositionalEncoding_forward self (zeros [1; 2; 2]%nat) = Ok out
    /\ shape out = [1; 2; 2]%nat.
Proof.
  destruct (PositionalEncoding_init_table 1 2) as [self [Hinit [Hsh _]]].
  exists self.
  unfold PositionalEncoding_forward, tadd, tmap2, broadcast_shapes.
  rewrite Hsh. cbn.
  eexists. split; [exact Hinit |]. split; reflexivity.
Qed.

(** ** ScaledDotProductAttention.forward *)

Lemma rsum_ext (n : nat) (f g : nat -> R) :
  (forall k, (k < n)%nat -> f k = g k) -> rsum n f = rsum n g.
Proof.
  intros H. unfold rsum. f_equal.
  apply map_ext_in. intros k Hk. apply in_seq in Hk. apply H. lia.
Qed.

Lemma matmul_rank4 (a b : tensor R) (B H n m p : nat) :
  shape a = [B; H; n; m] -> shape b = [B; H; m; p] ->
  exists out, matmul a b = Ok out
    /\ shape out = [B; H; n; p]
    /\ forall x h i j, (x < B)%nat -> (h < H)%nat ->
         get out [x; h; i; j]
         = rsum m (fun k => get a [x; h; i; k] * get b [x; h; k; j]).
Proof.
  intros Ha Hb. unfold matmul. rewrite Ha, Hb.
  cbn [rev app broadcast_rev].
  rewrite Nat.eqb_refl, !broadcast_dim_refl. cbn [bind rev app length].
  eexists. split; [reflexivity |]. cbn [shape get].
  split; [reflexivity |].
  intros x h i j Hx Hh.
  unfold bidx. cbn [firstn nth rev app bidx_rev].
  now rewrite !bdim_lt by assumption.
Qed.

Lemma sdpa_forward_spec (self : ScaledDotProductAttention)
      (query key value : tensor R) (mask : option (tensor bool))
      (B H Lq Lk D Dv : nat) :
  shape query = [B; H; Lq; D] ->
  shape key = [B; H; Lk; D] ->
  shape value = [B; H; Lk; Dv] ->
  mask_fits mask B Lq Lk ->
  dropout_present self ->
  exists out,
    ScaledDotProductAttention_forward self query key value mask = Ok out
    /\ shape out = [B; H; Lq; Dv]
    /\ forall b h i c, (b < B)%nat -> (h < H)%nat -> (i < Lq)%nat -> (c < Dv)%nat ->
         get out [b; h; i; c]
         = AttentionSpec.attention self query key value mask D Lk b h i c.
Proof.
  intros Hq Hk Hv Hm Hd.
  unfold ScaledDotProductAttention_forward.
  (* key.transpose(2, 3) *)
  unfold transpose, rank. rewrite Hk.
  cbn [length Nat.ltb Nat.leb andb bind swap seq map nth Nat.eqb].
  (* scores *)
  match goal with
  | |- context [matmul query ?kt] =>
      destruct (matmul_rank4 query kt B H Lq D Lk Hq eq_refl)
        as [s [Es [Ss Gs]]]
  end.
  rewrite Es. cbn [bind]. cbn [get swap length seq map nth Nat.eqb] in Gs.
  (* mask *)
  assert (Hmask : exists out0,
    match mask with
    | Some m =>
        m1 <- unsqueeze m 1 ;;
        masked_fill (tmap (fun x => x / sqrt (INR (sdpa_dk self))) s)
                    (tmap negb m1) mask_fill_value
    | None => Ok (tmap (fun x => x / sqrt (INR (sdpa_dk self))) s)
    end = Ok out0
    /\ shape out0 = [B; H; Lq; Lk]
    /\ forall b h i j, (b < B)%nat -> (h < H)%nat -> (i < Lq)%nat -> (j < Lk)%nat ->
         get out0 [b; h; i; j]
         = AttentionSpec.masked_score self query key mask D b h i j).
  { destruct mask as [m |].
    - destruct Hm as [Lm [Hms HLm]].
      unfold unsqueeze, rank. rewrite Hms.
      cbn [length Nat.leb bind insert_at firstn skipn app].
      unfold masked_fill, tmap2, broadcast_shapes.
      cbn [tmap shape]. rewrite Ss. cbn [rev app broadcast_rev].
      rewrite !broadcast_dim_refl, broadcast_dim_one_r.
      assert (HbL : broadcast_dim Lq Lm = Ok Lq).
      { destruct HLm as [-> | ->];
          [apply broadcast_dim_one_r | apply broadcast_dim_refl]. }
      rewrite HbL. cbn [bind rev app].
      eexists. split; [reflexivity |]. cbn [shape get].
      split; [reflexivity |].
      intros b h i j Hb Hh Hi Hj.
      unfold bidx. cbn [rev app bidx_rev remove_at firstn skipn].
      rewrite !(bdim_lt B), !(bdim_lt H), !(bdim_lt Lq), !(bdim_lt Lk)
        by assumption.
      unfold AttentionSpec.masked_score, AttentionSpec.score.
      rewrite Hms. cbn [nth tmap get app].
      rewrite (Gs b h i j Hb Hh).
      now destruct (get m [b; bdim Lm i; j]).
    - eexists. split; [reflexivity |]. cbn [tmap shape get].
      split; [exact Ss |].
      intros b h i j Hb Hh Hi Hj.
      unfold AttentionSpec.masked_score, AttentionSpec.score.
      now rewrite (Gs b h i j Hb Hh). }
  destruct Hmask as [out0 [E0 [S0 G0]]].
  rewrite E0. cbn [bind].
  (* softmax *)
  assert (Gw : forall b h i j,
    (b < B)%nat -> (h < H)%nat -> (i < Lq)%nat -> (j < Lk)%nat ->
    get (softmax out0) [b; h; i; j]
    = AttentionSpec.softmax_weight self query key mask D Lk b h i j).
  { intros b h i j Hb Hh Hi Hj.
    unfold softmax, AttentionSpec.softmax_weight.
    cbn [get]. rewrite S0. cbn [last removelast app].
    rewrite G0 by assumption. f_equal.
    apply rsum_ext. intros k Hk'. now rewrite G0. }
  (* dropout *)
  assert (Hdrop : exists w,
    (if Rgt_dec (sdpa_dropout_rate self) 0
     then match sdpa_dropout self with
          | Some d => Ok (Dropout_forward d (softmax out0))
          | None => Err AttributeError
          end
     else Ok (softmax out0)) = Ok w
    /\ shape w = [B; H; Lq; Lk]
    /\ forall b h i j,
         (b < B)%nat -> (h < H)%nat -> (i < Lq)%nat -> (j < Lk)%nat ->
         get w [b; h; i; j]
         = AttentionSpec.weight_after_dropout self query key mask D Lk b h i j).
  { unfold AttentionSpec.weight_after_dropout.
    destruct (Rgt_dec (sdpa_dropout_rate self) 0) as [Hpos | Hnpos].
    - destruct (sdpa_dropout self) as [d |] eqn:Hsd.
      + eexists. split; [reflexivity |].
        unfold Dropout_forward.
        destruct (training d); cbn [shape get].
        * split; [exact S0 |].
          intros b h i j Hb Hh Hi Hj. now rewrite Gw.
        * split; [exact S0 | exact Gw].
      + exfalso. now apply (Hd Hpos).
    - eexists. split; [reflexivity |]. split; [exact S0 |].
      intros b h i j Hb Hh Hi Hj. rewrite Gw by assumption.
      now destruct (sdpa_dropout self). }
  destruct Hdrop as [w [Ew [Sw Gw']]].
  rewrite Ew. cbn [bind].
  destruct (matmul_rank4 w value B H Lq Lk Dv Sw Hv) as [out [Eo [So Go]]].
  exists out. split; [exact Eo |]. split; [exact So |].
  intros b h i c Hb Hh Hi Hc.
  rewrite (Go b h i c Hb Hh). unfold AttentionSpec.attention.
  apply rsum_ext. intros j Hj. now rewrite Gw'.
Qed.

(** ** MultiHeadAttention *)

Lemma ScaledDotProductAttention_init_ok (dk : nat) (rate : R)
      (draw : list nat -> bool) :
  rate <= 1 ->
  exists sdpa,
    ScaledDotProductAttention_init dk rate draw = Ok sdpa
    /\ sdpa_dk sdpa = dk
    /\ sdpa_dropout_rate sdpa = rate
    /\ dropout_present sdpa.
Proof.
  intros Hrate. unfold ScaledDotProductAttention_init.
  destruct (Rgt_dec rate 0) as [Hpos | Hnpos].
  - unfold Dropout_init.
    destruct (Rlt_dec rate 0) as [Hneg | _]; [lra |].
    destruct (Rgt_dec rate 1) as [Hbig | _]; [lra |].
    cbn [bind]. eexists. split; [reflexivity |].
    cbn. repeat split. intros _. discriminate.
  - eexists. split; [reflexivity |].
    cbn. repeat split. intros Hpos. cbn in Hpos. lra.
Qed.

Lemma MultiHeadAttention_init_ok (h E : nat) (rate : R) (rnd : mha_random) :
  (0 < h)%nat -> rate <= 1 ->
  exists self,
    MultiHeadAttention_init h E rate rnd = Ok self
    /\ mha_embedding_dim self = E
    /\ head self = h
    /\ mha_dk self = (E / h)%nat
    /\ in_features (dense_query self) = E
    /\ out_features (dense_query self) = E
    /\ in_features (dense_key self) = E
    /\ out_features (dense_key self) = E
    /\ in_features (dense_value self) = E
    /\ out_features (dense_value self) = E
    /\ in_features (dense self) = E
    /\ out_features (dense self) = E
    /\ sdpa_dk (scaled_dot_product_attention self) = (E / h)%nat
    /\ dropout_present (scaled_dot_product_attention self).
Proof.
  intros Hh Hrate. unfold MultiHeadAttention_init.
  destruct (Nat.eqb_spec h 0) as [-> | _]; [lia |].
  cbn [bind].
  destruct (ScaledDotProductAttention_init_ok (E / h) rate (rnd_draw rnd) Hrate)
    as [sdpa [Es [Hdk [_ Hdp]]]].
  rewrite Es. cbn [bind].
  eexists. split; [reflexivity |]. cbn.
  repeat split; assumption.
Qed.

Lemma view_ok {A : Type} (t : tensor A) (sh : list nat) :
  numel (shape t) = numel sh ->
  exists out, view t sh = Ok out
    /\ shape out = sh
    /\ forall idx, get out idx = get t (unravel (shape t) (ravel sh idx)).
Proof.
  intros Hn. unfold view.
  apply Nat.eqb_eq in Hn. rewrite Hn.
  eexists. split; [reflexivity |]. split; reflexivity.
Qed.

Lemma view_clash {A : Type} (t : tensor A) (sh : list nat) :
  numel (shape t) <> numel sh -> view t sh = Err RuntimeError.
Proof.
  intros Hn. unfold view.
  apply Nat.eqb_neq in Hn. now rewrite Hn.
Qed.

Lemma Linear_forward_rank3 (l : Linear) (x : tensor R) (B L E : nat) :
  shape x = [B; L; E] -> in_features l = E ->
  exists out, Linear_forward l x = Ok out
    /\ shape out = [B; L; out_features l]
    /\ forall b i o,
         get out [b; i; o]
         = rsum E (fun c => get x [b; i; c] * get (weight l) [o; c])
           + get (bias l) [o].
Proof.
  intros Hx Hin. unfold Linear_forward. rewrite Hx, Hin.
  cbn [rev app]. rewrite Nat.eqb_refl.
  eexists. split; [reflexivity |]. cbn [shape get removelast app last].
  split; reflexivity.
Qed.

Lemma transpose12_rank4 {A : Type} (t : tensor A) (a b c d : nat) :
  shape t = [a; b; c; d] ->
  exists out, transpose t 1 2 = Ok out
    /\ shape out = [a; c; b; d]
    /\ forall i j k l, get out [i; j; k; l] = get t [i; k; j; l].
Proof.
  intros Ht. unfold transpose, rank. rewrite Ht.
  eexists. split; [reflexivity |]. split; reflexivity.
Qed.

(** The forward call succeeds as soon as the projected key and value hold as
    many elements as the split shape read off the query asks for. *)
Lemma MultiHeadAttention_forward_ok (h E : nat) (rate : R) (rnd : mha_random)
      (query key value : tensor R) (mask : option (tensor bool))
      (B L Bk Lk Bv Lv : nat) :
  (0 < h)%nat -> rate <= 1 -> E = (h * (E / h))%nat ->
  shape query = [B; L; E] ->
  shape key = [Bk; Lk; E] ->
  shape value = [Bv; Lv; E] ->
  (Bk * Lk = B * L)%nat -> (Bv * Lv = B * L)%nat ->
  mask_fits mask B L L ->
  exists self out,
    MultiHeadAttention_init h E rate rnd = Ok self
    /\ MultiHeadAttention_forward self query key value mask = Ok out
    /\ shape out = [B; L; E].
Proof.
  intros Hh Hrate Hdiv Hq Hk Hv Hnk Hnv Hm.
  destruct (MultiHeadAttention_init_ok h E rate rnd Hh Hrate)
    as [self [Hinit [HE [Hhead [Hdk [Hqi [Hqo [Hki [Hko [Hvi [Hvo
         [Hdi [Hdo [Hsdk Hdp]]]]]]]]]]]]]].
  exists self.
  unfold MultiHeadAttention_forward. rewrite Hq, Hhead, Hdk, HE.
  destruct (Linear_forward_rank3 _ query B L E Hq Hqi) as [q [Eq [Sq _]]].
  destruct (Linear_forward_rank3 _ key Bk Lk E Hk Hki) as [k [Ek [Sk _]]].
  destruct (Linear_forward_rank3 _ value Bv Lv E Hv Hvi) as [v [Ev [Sv _]]].
  rewrite Hqo in Sq. rewrite Hko in Sk. rewrite Hvo in Sv.
  destruct (view_ok q [B; L; h; (E / h)%nat]) as [q1 [Eq1 [Sq1 _]]].
  { rewrite Sq. cbn [numel fold_right]. nia. }
  destruct (view_ok k [B; L; h; (E / h)%nat]) as [k1 [Ek1 [Sk1 _]]].
  { rewrite Sk. cbn [numel fold_right]. nia. }
  destruct (view_ok v [B; L; h; (E / h)%nat]) as [v1 [Ev1 [Sv1 _]]].
  { rewrite Sv. cbn [numel fold_right]. nia. }
  destruct (transpose12_rank4 q1 _ _ _ _ Sq1) as [q2 [Eq2 [Sq2 _]]].
  destruct (transpose12_rank4 k1 _ _ _ _ Sk1) as [k2 [Ek2 [Sk2 _]]].
  destruct (transpose12_rank4 v1 _ _ _ _ Sv1) as [v2 [Ev2 [Sv2 _]]].
  destruct (sdpa_forward_spec (scaled_dot_product_attention self)
              q2 k2 v2 mask B h L L (E / h) (E / h) Sq2 Sk2 Sv2 Hm Hdp)
    as [a [Ea [Sa _]]].
  destruct (view_ok a [B; L; E]) as [a1 [Ea1 [Sa1 _]]].
  { rewrite Sa. cbn [numel fold_right]. nia. }
  destruct (Linear_forward_rank3 _ a1 B L E Sa1 Hdi) as [out [Eo [So _]]].
  rewrite Hdo in So.
  exists out. split; [exact Hinit |].
  rewrite Eq. cbn [bind]. rewrite Eq1. cbn [bind].
  rewrite Ek. cbn [bind]. rewrite Ek1. cbn [bind].
  rewrite Ev. cbn [bind]. rewrite Ev1. cbn [bind].
  rewrite Eq2. cbn [bind]. rewrite Ek2. cbn [bind]. rewrite Ev2. cbn [bind].
  rewrite Ea. cbn [bind]. rewrite Ea1. cbn [bind].
  split; [exact Eo | exact So].
Qed.

Lemma numel_split (B L h dk E : nat) :
  E = (h * dk)%nat -> numel [B; L; h; dk] = numel [B; L; E].
Proof. intros ->. cbn [numel fold_right]. lia. Qed.

Lemma numel_rank3_neq (B L L' E : nat) :
  (0 < B)%nat -> (0 < E)%nat -> L <> L' -> numel [B; L; E] <> numel [B; L'; E].
Proof.
  intros HB HE HL. cbn [numel fold_right]. rewrite !Nat.mul_1_r.
  intros H. apply Nat.mul_cancel_l in H; [| lia].
  apply Nat.mul_cancel_r in H; [| lia]. contradiction.
Qed.

Lemma MultiHeadAttention_forward_length_clash (h E : nat) (rate : R)
      (rnd : mha_random) (query key value : tensor R)
      (mask : option (tensor bool)) (B L Lk Lv : nat) :
  (0 < h)%nat -> rate <= 1 -> E = (h * (E / h))%nat ->
  (0 < B)%nat -> (0 < E)%nat ->
  shape query = [B; L; E] ->
  shape key = [B; Lk; E] ->
  shape value = [B; Lv; E] ->
  Lk <> L \/ Lv <> L ->
  exists self,
    MultiHeadAttention_init h E rate rnd = Ok self
    /\ MultiHeadAttention_forward self query key value mask = Err RuntimeError.
Proof.
  intros Hh Hrate Hdiv HB HEpos Hq Hk Hv Hlen.
  destruct (MultiHeadAttention_init_ok h E rate rnd Hh Hrate)
    as [self [Hinit [HE [Hhead [Hdk [Hqi [Hqo [Hki [Hko [Hvi [Hvo _]]]]]]]]]]].
  exists self. split; [exact Hinit |].
  unfold MultiHeadAttention_forward. rewrite Hq, Hhead, Hdk.
  destruct (Linear_forward_rank3 _ query B L E Hq Hqi) as [q [Eq [Sq _]]].
  destruct (Linear_forward_rank3 _ key B Lk E Hk Hki) as [k [Ek [Sk _]]].
  destruct (Linear_forward_rank3 _ value B Lv E Hv Hvi) as [v [Ev [Sv _]]].
  rewrite Hqo in Sq. rewrite Hko in Sk. rewrite Hvo in Sv.
  destruct (view_ok q [B; L; h; (E / h)%nat]) as [q1 [Eq1 _]].
  { rewrite Sq. cbn [numel fold_right]. nia. }
  rewrite Eq. cbn [bind]. rewrite Eq1. cbn [bind]. rewrite Ek. cbn [bind].
  destruct (Nat.eq_dec Lk L) as [HkL | HkL].
  - destruct (view_ok k [B; L; h; (E / h)%nat]) as [k1 [Ek1 _]].
    { rewrite Sk, HkL. cbn [numel fold_right]. nia. }
    rewrite Ek1. cbn [bind]. rewrite Ev. cbn [bind].
    rewrite view_clash; [reflexivity |].
    rewrite Sv, (numel_split B L h (E / h) E Hdiv).
    apply numel_rank3_neq; try assumption.
    destruct Hlen as [H | H]; [contradiction | exact H].
  - rewrite view_clash; [reflexivity |].
    rewrite Sk, (numel_split B L h (E / h) E Hdiv).
    now apply numel_rank3_neq.
Qed.

(** C10, as the code has it: the projected key and value are reshaped with
    the batch size and sequence length of the query, and [view] only compares
    element counts.  With a common positive batch size and
    [embedding_dim = head * dk > 0], a key or value whose sequence length
    differs from the query's makes the forward call raise the shape error. *)
Theorem multi_head_length_mismatch_fails (h E : nat) (rate : R)
      (rnd : mha_random) (query key value : tensor R)
      (mask : option (tensor bool)) (B L Lk Lv : nat) :
  (0 < h)%nat -> rate <= 1 -> E = (h * (E / h))%nat ->
  (0 < B)%nat -> (0 < E)%nat ->
  shape query = [B; L; E] ->
  shape key = [B; Lk; E] ->
  shape value = [B; Lv; E] ->
  Lk <> L \/ Lv <> L ->
  exists self,
    MultiHeadAttention_init h E rate rnd = Ok self
    /\ MultiHeadAttention_forward self query key value mask = Err RuntimeError.
Proof. exact (MultiHeadAttention_forward_length_clash h E rate rnd query key value mask B L Lk Lv). Qed.

Lemma multi_head_length_mismatch_fails_witness :
  exists self,
    MultiHeadAttention_init 2 4 0 rnd0 = Ok self
    /\ MultiHeadAttention_forward self (zeros [1; 2; 4]%nat)
         (zeros [1; 3; 4]%nat) (zeros [1; 3; 4]%nat) None
       = Err RuntimeError.
Proof.
  apply (multi_head_length_mismatch_fails 2 4 0 rnd0
           (zeros [1; 2; 4]%nat) (zeros [1; 3; 4]%nat) (zeros [1; 3; 4]%nat)
           None 1 2 3 3);
    try reflexivity; try lia; try lra.
Defined.

(** C10 fails as stated: a query of shape [(2, 4, 2)] with key and value of
    shape [(4, 2, 2)] has different sequence lengths, yet every reshape
    succeeds because the element counts agree, and the call returns. *)
Lemma multi_head_length_mismatch_accepted :
  exists self out,
    MultiHeadAttention_init 1 2 0 rnd0 = Ok self
    /\ MultiHeadAttention_forward self (zeros [2; 4; 2]%nat)
         (zeros [4; 2; 2]%nat) (zeros [4; 2; 2]%nat) None = Ok out
    /\ shape out = [2; 4; 2]%nat.
Proof.
  apply (MultiHeadAttention_forward_ok 1 2 0 rnd0
           (zeros [2; 4; 2]%nat) (zeros [4; 2; 2]%nat) (zeros [4; 2; 2]%nat)
           None 2 4 4 2 4 2);
    try reflexivity; try lia; try lra.
Qed.

(** C3, as the code has it: [__init__] performs no divisibility check.  For
    every positive head count (and a dropout rate that [nn.Dropout] accepts)
    construction succeeds, with [dk] the floor of
    [embedding_dim / head_count]. *)
Theorem multi_head_init_succeeds (h E : nat) (rate : R) (rnd : mha_random) :
  (0 < h)%nat -> rate <= 1 ->
  exists self,
    MultiHeadAttention_init h E rate rnd = Ok self
    /\ head self = h
    /\ mha_embedding_dim self = E
    /\ mha_dk self = (E / h)%nat.
Proof.
  intros Hh Hrate.
  destruct (MultiHeadAttention_init_ok h E rate rnd Hh Hrate)
    as [self [Hinit [HE [Hhead [Hdk _]]]]].
  exists self. auto.
Qed.

Lemma multi_head_init_succeeds_witness :
  exists self,
    MultiHeadAttention_init 8 512 (1 / 10) rnd0 = Ok self
    /\ head self = 8%nat
    /\ mha_embedding_dim self = 512%nat
    /\ mha_dk self = 64%nat.
Proof.
  destruct (multi_head_init_succeeds 8 512 (1 / 10) rnd0) as [self H];
    [lia | lra |].
  exists self. exact H.
Defined.

(** C3 fails as stated: with [embedding_dim = 10] and [head_count = 3]
    construction does not fail; it returns a module with [dk = 3]. *)
Lemma multi_head_init_indivisible_succeeds :
  exists self,
    MultiHeadAttention_init 3 10 (1 / 10) rnd0 = Ok self
    /\ mha_dk self = 3%nat.
Proof.
  destruct (MultiHeadAttention_init_ok 3 10 (1 / 10) rnd0)
    as [self [Hinit [_ [_ [Hdk _]]]]]; [lia | lra |].
  exists self. split; [exact Hinit | exact Hdk].
Qed.



(** C6, as the code has it: the kernel's output has the query's sequence
    length and the value's feature size, [(B, H, Lq, Dv)]; it equals the
    value's shape when the query and the key/value have the same length. *)
Theorem attention_output_shape (self : ScaledDotProductAttention)
      (query key value : tensor R) (mask : option (tensor bool))
      (B H Lq Lk D Dv : nat) :
  shape query = [B; H; Lq; D] ->
  shape key = [B; H; Lk; D] ->
  shape value = [B; H; Lk; Dv] ->
  mask_fits mask B Lq Lk ->
  dropout_present self ->
  exists out,
    ScaledDotProductAttention_forward self query key value mask = Ok out
    /\ shape out = [B; H; Lq; Dv]
    /\ (Lq = Lk -> shape out = shape value).
Proof.
  intros Hq Hk Hv Hm Hd.
  destruct (sdpa_forward_spec self query key value mask
              B H Lq Lk D Dv Hq Hk Hv Hm Hd) as [out [E [S _]]].
  exists out. split; [exact E |]. split; [exact S |].
  intros ->. now rewrite S, Hv.
Qed.

Lemma attention_output_shape_witness :
  exists out,
    ScaledDotProductAttention_forward
      {| sdpa_dk := 1; sdpa_dropout_rate := 0; sdpa_dropout := None |}
      (zeros [1; 2; 3; 1]%nat) (zeros [1; 2; 3; 1]%nat)
      (zeros [1; 2; 3; 2]%nat) (Some (full [1; 3; 3]%nat true)) = Ok out
    /\ shape out = [1; 2; 3; 2]%nat
    /\ (3%nat = 3%nat -> shape out = shape (zeros [1; 2; 3; 2]%nat)).
Proof.
  apply (attention_output_shape
           {| sdpa_dk := 1; sdpa_dropout_rate := 0; sdpa_dropout := None |}
           (zeros [1; 2; 3; 1]%nat) (zeros [1; 2; 3; 1]%nat)
           (zeros [1; 2; 3; 2]%nat) (Some (full [1; 3; 3]%nat true))
           1 2 3 3 1 2 eq_refl eq_refl eq_refl).
  - exists 3%nat. split; [reflexivity | right; reflexivity].
  - intros Hpos. cbn in Hpos. lra.
Defined.

(** C6 fails as stated: with two query positions and three key/value
    positions the output has shape [(1, 1, 2, 1)], not the value's
    [(1, 1, 3, 1)]. *)
Lemma attention_output_shape_differs :
  exists out,
    ScaledDotProductAttention_forward
      {| sdpa_dk := 1; sdpa_dropout_rate := 0; sdpa_dropout := None |}
      (zeros [1; 1; 2; 1]%nat) (zeros [1; 1; 3; 1]%nat)
      (zeros [1; 1; 3; 1]%nat) None = Ok out
    /\ shape out = [1; 1; 2; 1]%nat
    /\ shape out <> shape (zeros [1; 1; 3; 1]%nat).
Proof.
  destruct (sdpa_forward_spec
              {| sdpa_dk := 1; sdpa_dropout_rate := 0; sdpa_dropout := None |}
              (zeros [1; 1; 2; 1]%nat) (zeros [1; 1; 3; 1]%nat)
              (zeros [1; 1; 3; 1]%nat) None
              1 1 2 3 1 1 eq_refl eq_refl eq_refl I) as [out [E [S _]]].
  - intros Hpos. cbn in Hpos. lra.
  - exists out. split; [exact E |]. split; [exact S |].
    rewrite S. discriminate.
Qed.

(** ** LayerNorm *)


Lemma rsum_scal (n : nat) (c : R) (f : nat -> R) :
  rsum n (fun j => c * f j) = c * rsum n f.
Proof.
  unfold rsum. induction (seq 0 n) as [| k l IH]; simpl; [lra |].
  rewrite IH. lra.
Qed.

Lemma rsum_const (n : nat) (c : R) : rsum n (fun _ => c) = INR n * c.
Proof.
  unfold rsum. rewrite <- (length_seq n 0) at 2.
  induction (seq 0 n) as [| k l IH]; [simpl; lra |].
  cbn [map fold_right length]. rewrite IH, S_INR. lra.
Qed.

Lemma rsum_nonneg (n : nat) (f : nat -> R) :
  (forall j, 0 <= f j) -> 0 <= rsum n f.
Proof.
  intros Hf. unfold rsum. induction (seq 0 n) as [| k l IH]; simpl; [lra |].
  specialize (Hf k). lra.
Qed.


Lemma LayerNorm_forward_rank3 (self : LayerNorm) (x : tensor R) (B L E : nat) :
  shape x = [B; L; E] ->
  shape (gamma self) = [E] ->
  shape (beta self) = [E] ->
  exists out,
    LayerNorm_forward self x = Ok out
    /\ shape out = [B; L; E]
    /\ forall b i j, (b < B)%nat -> (i < L)%nat -> (j < E)%nat ->
         get out [b; i; j]
         = get (gamma self) [j] * (get x [b; i; j] - row_mean x E b i)
           / (row_std x E b i + eps self)
           + get (beta self) [j].
Proof.
  intros Hx Hg Hb.
  unfold LayerNorm_forward, tsub, tmul, tdiv, tadd, tmap2, broadcast_shapes.
  cbn [mean_last std_last tmap shape]. rewrite Hx, Hg, Hb.
  cbn [removelast app rev broadcast_rev].
  rewrite !broadcast_dim_refl, !broadcast_dim_one_r. cbn [bind rev app shape].
  cbn [broadcast_rev]. rewrite !broadcast_dim_refl. cbn [bind rev app shape].
  cbn [broadcast_rev]. rewrite !broadcast_dim_refl, !broadcast_dim_one_r.
  cbn [bind rev app shape].
  cbn [broadcast_rev]. rewrite !broadcast_dim_refl. cbn [bind rev app shape].
  eexists. split; [reflexivity |]. cbn [shape get].
  split; [reflexivity |].
  intros b i j Hbb Hi Hj.
  unfold bidx. cbn [rev app bidx_rev last removelast].
  rewrite !(bdim_lt B b Hbb), !(bdim_lt L i Hi), !(bdim_lt E j Hj).
  change (bdim 1 j) with 0%nat.
  cbn [tmap mean_last std_last get]. rewrite Hx.
  reflexivity.
Qed.







(** ** Encoder and Decoder: the input of the first layer *)

Lemma all_indices_rank2 (B M : nat) (idx : list nat) :
  In idx (all_indices [B; M]) ->
  exists b pos, idx = [b; pos] /\ (b < B)%nat /\ (pos < M)%nat.
Proof.
  cbn [all_indices]. intros H.
  apply in_flat_map in H. destruct H as [b [Hb H]].
  apply in_map_iff in H. destruct H as [r [<- H]].
  apply in_flat_map in H. destruct H as [pos [Hp H]].
  apply in_map_iff in H. destruct H as [r' [<- H]].
  destruct H as [<- | []].
  apply in_seq in Hb. apply in_seq in Hp.
  exists b, pos. repeat split; lia.
Qed.

Lemma Embedding_forward_rank2 (self : Embedding) (x : tensor Z) (B M E : nat) :
  shape x = [B; M] ->
  shape (embedding_weight self) = [num_embeddings self; E] ->
  (forall b pos, (b < B)%nat -> (pos < M)%nat ->
     (0 <= get x [b; pos] < Z.of_nat (num_embeddings self))%Z) ->
  exists out,
    Embedding_forward self x = Ok out
    /\ shape out = [B; M; E]
    /\ forall b pos j,
         get out [b; pos; j]
         = get (embedding_weight self) [Z.to_nat (get x [b; pos]); j].
Proof.
  intros Hx Hw Hrange. unfold Embedding_forward.
  assert (Hall : forallb
            (fun idx => (0 <=? get x idx)%Z
                        && (get x idx <? Z.of_nat (num_embeddings self))%Z)
            (all_indices (shape x)) = true).
  { apply forallb_forall. intros idx Hin. rewrite Hx in Hin.
    destruct (all_indices_rank2 B M idx Hin) as [b [pos [-> [Hb Hp]]]].
    specialize (Hrange b pos Hb Hp).
    apply andb_true_iff. split; [apply Z.leb_le | apply Z.ltb_lt]; lia. }
  rewrite Hall. eexists. split; [reflexivity |].
  cbn [shape get]. rewrite Hx, Hw.
  split; reflexivity.
Qed.

(** What the first two statements of [Encoder.forward] compute: the
    embedding is added to the output of the positional encoder, which
    already contains it. *)
Lemma embed_then_encode (emb : Embedding) (pe : PositionalEncoding)
      (x : tensor Z) (B M E : nat) :
  shape x = [B; M] ->
  shape (embedding_weight emb) = [num_embeddings emb; E] ->
  shape (positionalEncoding pe) = [M; E] ->
  (forall b pos, (b < B)%nat -> (pos < M)%nat ->
     (0 <= get x [b; pos] < Z.of_nat (num_embeddings emb))%Z) ->
  exists out,
    (embedding_out <- Embedding_forward emb x ;;
     p <- PositionalEncoding_forward pe embedding_out ;;
     tadd embedding_out p) = Ok out
    /\ shape out = [B; M; E]
    /\ forall b pos j, (b < B)%nat -> (pos < M)%nat -> (j < E)%nat ->
         get out [b; pos; j]
         = get (embedding_weight emb) [Z.to_nat (get x [b; pos]); j]
           + (get (embedding_weight emb) [Z.to_nat (get x [b; pos]); j]
              + get (positionalEncoding pe) [pos; j]).
Proof.
  intros Hx Hw Hpe Hrange.
  destruct (Embedding_forward_rank2 emb x B M E Hx Hw Hrange)
    as [e [Ee [Se Ge]]].
  rewrite Ee. cbn [bind]. unfold PositionalEncoding_forward.
  destruct (tadd_table_same_length B M E e (positionalEncoding pe) Se Hpe)
    as [p [Ep [Sp Gp]]].
  rewrite Ep. cbn [bind].
  unfold tadd, tmap2, broadcast_shapes. rewrite Se, Sp.
  cbn [rev app broadcast_rev]. rewrite !broadcast_dim_refl.
  cbn [bind rev app].
  eexists. split; [reflexivity |]. cbn [shape get].
  split; [reflexivity |].
  intros b pos j Hb Hp Hj.
  unfold bidx. cbn [rev app bidx_rev].
  rewrite !(bdim_lt B b Hb), !(bdim_lt M pos Hp), !(bdim_lt E j Hj).
  now rewrite Gp, Ge.
Qed.

(** C2: the code does not hand [embedding(x) + PE] to the first layer.  For
    the two-token example the entry at batch 0, position 0, feature 0 is
    [1 + (1 + PE[0,0]) = 2] in both the encoder and the decoder, while
    [embedding(x) + PE] is 1 there: the embedding is counted twice. *)
Theorem first_layer_input_counts_embedding_twice :
  exists pe out_e out_d,
    PositionalEncoding_init 2 2 = Ok pe
    /\ Encoder_embed (example_encoder pe) example_tokens = Ok out_e
    /\ Encoder_forward (example_encoder pe) example_tokens None = Ok out_e
    /\ Decoder_embed (example_decoder pe) example_tokens = Ok out_d
    /\ get out_e [0; 0; 0]%nat = 2
    /\ get out_d [0; 0; 0]%nat = 2
    /\ get (embedding_weight example_embedding)
           [Z.to_nat (get example_tokens [0; 0]%nat); 0%nat]
       + get (positionalEncoding pe) [0; 0]%nat = 1.
Proof.
  destruct (PositionalEncoding_init_table 2 2) as [pe [Hinit [Hsh Hent]]].
  assert (Hpe0 : get (positionalEncoding pe) [0; 0]%nat = 0).
  { destruct (Hent 0%nat 0%nat) as [Hs _]; [lia | cbn; lia |].
    change (2 * 0)%nat with 0%nat in Hs. rewrite Hs. unfold pe_sin. cbn [INR].
    unfold Rdiv at 1. rewrite Rmult_0_l. apply sin_0. }
  destruct (embed_then_encode example_embedding pe example_tokens 1 2 2
              eq_refl eq_refl Hsh) as [out [Eo [So Go]]].
  { intros b pos _ _. cbn. lia. }
  exists pe, out, out.
  assert (Hval : get out [0; 0; 0]%nat = 2).
  { rewrite Go by lia. cbn [example_embedding embedding_weight full get].
    rewrite Hpe0. lra. }
  split; [exact Hinit |].
  split; [exact Eo |].
  split; [unfold Encoder_forward, Encoder_embed; cbn [example_encoder enc_embedding enc_positionalEncoding enc_N]; rewrite Eo; reflexivity |].
  split; [exact Eo |].
  split; [exact Hval |]. split; [exact Hval |].
  cbn [example_embedding embedding_weight full get]. rewrite Hpe0. lra.
Qed.

(** ** DecoderLayer: the cross-attention stage *)

Lemma example_attention_constructed :
  MultiHeadAttention_init 1 3 0 example_rnd = Ok example_attention.
Proof.
  unfold MultiHeadAttention_init, ScaledDotProductAttention_init.
  cbn [Nat.eqb bind].
  destruct (Rgt_dec 0 0) as [H | _]; [lra |].
  reflexivity.
Qed.

Lemma exp_ratio_one (x : R) : exp x / (exp x + 0) = 1.
Proof. pose proof (exp_pos x). field. lra. Qed.

Lemma rsum3_identity (f : nat -> R) (o : nat) :
  (o < 3)%nat ->
  rsum 3 (fun c => f c * identity_weight [o; c]) + 0 = f o.
Proof.
  intros Ho. unfold rsum. cbn [seq map fold_right identity_weight].
  destruct o as [| [| [| o]]]; [cbn [Nat.eqb]; lra .. | lia].
Qed.

(** With a single position the softmax weight is 1, so the example module
    returns its value argument, whatever the query and the key. *)
Lemma example_attention_returns_value (query key value : tensor R) :
  shape query = [1; 1; 3]%nat ->
  shape key = [1; 1; 3]%nat ->
  shape value = [1; 1; 3]%nat ->
  exists a,
    MultiHeadAttention_forward example_attention query key value
      example_x_mask = Ok a
    /\ shape a = [1; 1; 3]%nat
    /\ forall o, (o < 3)%nat -> get a [0; 0; o]%nat = get value [0; 0; o]%nat.
Proof.
  intros Hq Hk Hv.
  unfold MultiHeadAttention_forward. rewrite Hq.
  cbn [example_attention head mha_dk mha_embedding_dim dense_query dense_key
       dense_value dense scaled_dot_product_attention].
  destruct (Linear_forward_rank3 (Linear_init 3 3 (fun _ => 0) (fun _ => 0))
              query 1 1 3 Hq eq_refl) as [q [Eq [Sq _]]].
  destruct (Linear_forward_rank3 (Linear_init 3 3 (fun _ => 0) (fun _ => 0))
              key 1 1 3 Hk eq_refl) as [k [Ek [Sk _]]].
  destruct (Linear_forward_rank3 (Linear_init 3 3 identity_weight (fun _ => 0))
              value 1 1 3 Hv eq_refl) as [v [Ev [Sv Gv]]].
  cbn [Linear_init out_features weight bias get] in Sq, Sk, Sv, Gv.
  destruct (view_ok q [1; 1; 1; 3]%nat) as [q1 [Eq1 [Sq1 _]]];
    [now rewrite Sq |].
  destruct (view_ok k [1; 1; 1; 3]%nat) as [k1 [Ek1 [Sk1 _]]];
    [now rewrite Sk |].
  destruct (view_ok v [1; 1; 1; 3]%nat) as [v1 [Ev1 [Sv1 Gv1]]];
    [now rewrite Sv |].
  destruct (transpose12_rank4 q1 _ _ _ _ Sq1) as [q2 [Eq2 [Sq2 _]]].
  destruct (transpose12_rank4 k1 _ _ _ _ Sk1) as [k2 [Ek2 [Sk2 _]]].
  destruct (transpose12_rank4 v1 _ _ _ _ Sv1) as [v2 [Ev2 [Sv2 Gv2]]].
  destruct (sdpa_forward_spec
              {| sdpa_dk := 3; sdpa_dropout_rate := 0; sdpa_dropout := None |}
              q2 k2 v2 example_x_mask 1 1 1 1 3 3 Sq2 Sk2 Sv2)
    as [a [Ea [Sa Ga]]].
  { exists 1%nat. split; [reflexivity | left; reflexivity]. }
  { intros Hpos. cbn in Hpos. lra. }
  destruct (view_ok a [1; 1; 3]%nat) as [a1 [Ea1 [Sa1 Ga1]]];
    [now rewrite Sa |].
  destruct (Linear_forward_rank3 (Linear_init 3 3 identity_weight (fun _ => 0))
              a1 1 1 3 Sa1 eq_refl) as [out [Eo [So Go]]].
  cbn [Linear_init out_features weight bias get] in So, Go.
  exists out.
  rewrite Eq. cbn [bind]. rewrite Eq1. cbn [bind].
  rewrite Ek. cbn [bind]. rewrite Ek1. cbn [bind].
  rewrite Ev. cbn [bind]. rewrite Ev1. cbn [bind].
  rewrite Eq2. cbn [bind]. rewrite Ek2. cbn [bind]. rewrite Ev2. cbn [bind].
  rewrite Ea. cbn [bind]. rewrite Ea1. cbn [bind].
  split; [exact Eo |]. split; [exact So |].
  intros o Ho.
  (* every intermediate tensor holds the value row *)
  assert (Hv2 : forall c, (c < 3)%nat ->
            get v2 [0; 0; 0; c]%nat = get value [0; 0; c]%nat).
  { intros c Hc. rewrite Gv2, Gv1, Sv.
    replace (unravel [1; 1; 3]%nat (ravel [1; 1; 1; 3]%nat [0; 0; 0; c]%nat))
      with [0; 0; c]%nat
      by (destruct c as [| [| [| c]]]; [reflexivity .. | lia]).
    rewrite Gv. now apply rsum3_identity. }
  assert (Ha : forall c, (c < 3)%nat ->
            get a [0; 0; 0; c]%nat = get value [0; 0; c]%nat).
  { intros c Hc. rewrite Ga by lia.
    unfold AttentionSpec.attention, AttentionSpec.weight_after_dropout,
      AttentionSpec.softmax_weight, rsum.
    cbn [sdpa_dropout seq map fold_right].
    rewrite exp_ratio_one, (Hv2 c Hc). lra. }
  rewrite Go.
  rewrite (rsum3_identity (fun c => get a1 [0; 0; c]%nat) o Ho).
  rewrite Ga1, Sa.
  replace (unravel [1; 1; 1; 3]%nat (ravel [1; 1; 3]%nat [0; 0; o]%nat))
    with [0; 0; 0; o]%nat
    by (destruct o as [| [| [| o]]]; [reflexivity .. | lia]).
  now apply Ha.
Qed.

Lemma tadd_same_shape_rank3 (a b : tensor R) (B L E : nat) :
  shape a = [B; L; E] -> shape b = [B; L; E] ->
  exists s, tadd a b = Ok s
    /\ shape s = [B; L; E]
    /\ forall x i j, (x < B)%nat -> (i < L)%nat -> (j < E)%nat ->
         get s [x; i; j] = get a [x; i; j] + get b [x; i; j].
Proof.
  intros Ha Hb. unfold tadd, tmap2, broadcast_shapes. rewrite Ha, Hb.
  cbn [rev app broadcast_rev]. rewrite !broadcast_dim_refl.
  cbn [bind rev app].
  eexists. split; [reflexivity |]. cbn [shape get].
  split; [reflexivity |].
  intros x i j Hx Hi Hj. unfold bidx. cbn [rev app bidx_rev].
  now rewrite !(bdim_lt B x Hx), !(bdim_lt L i Hi), !(bdim_lt E j Hj).
Qed.

Lemma row3_stats (s : tensor R) (s0 s1 s2 : R) :
  get s [0; 0; 0]%nat = s0 ->
  get s [0; 0; 1]%nat = s1 ->
  get s [0; 0; 2]%nat = s2 ->
  row_mean s 3 0 0 = (s0 + s1 + s2) / 3
  /\ row_std s 3 0 0
     = sqrt ((Rsqr (s0 - (s0 + s1 + s2) / 3)
              + Rsqr (s1 - (s0 + s1 + s2) / 3)
              + Rsqr (s2 - (s0 + s1 + s2) / 3)) / 2).
Proof.
  intros H0 H1 H2.
  assert (Hm : row_mean s 3 0 0 = (s0 + s1 + s2) / 3).
  { unfold row_mean, rsum. cbn [seq map fold_right INR].
    rewrite H0, H1, H2. field. }
  split; [exact Hm |].
  unfold row_std. rewrite Hm. unfold rsum.
  cbn [seq map fold_right INR Nat.sub].
  rewrite H0, H1, H2. f_equal. field.
Qed.


Lemma default_eps_pos : default_eps > 0.
Proof. unfold default_eps. lra. Qed.

Lemma unit_scale_pos (k : R) : 0 < k -> 0 < unit_scale k.
Proof.
  intros Hk. pose proof default_eps_pos. unfold unit_scale.
  apply Rdiv_lt_0_compat; lra.
Qed.

Lemma unit_scale_inj (x y : R) :
  0 <= x -> 0 <= y -> unit_scale x = unit_scale y -> x = y.
Proof.
  intros Hx Hy H. pose proof default_eps_pos as He. unfold unit_scale in H.
  apply (f_equal (fun z => z * (x + default_eps) * (y + default_eps))) in H.
  field_simplify in H; nra.
Qed.

(** Residual addition and unit-scale normalisation of a one-position row
    whose sum has the entries [m - k], [m], [m + k]: the mean is [m], the
    standard deviation is [k]. *)
Lemma residual_norm_spread_row (a out : tensor R) (m k : R) :
  shape a = [1; 1; 3]%nat -> shape out = [1; 1; 3]%nat ->
  0 <= k ->
  get a [0; 0; 0]%nat + get out [0; 0; 0]%nat = m - k ->
  get a [0; 0; 1]%nat + get out [0; 0; 1]%nat = m ->
  get a [0; 0; 2]%nat + get out [0; 0; 2]%nat = m + k ->
  exists r,
    (s <- tadd a out ;; LayerNorm_forward (LayerNorm_init 3 default_eps) s)
    = Ok r
    /\ shape r = [1; 1; 3]%nat
    /\ get r [0; 0; 0]%nat = - unit_scale k
    /\ get r [0; 0; 1]%nat = 0
    /\ get r [0; 0; 2]%nat = unit_scale k.
Proof.
  intros Sa So Hk H0 H1 H2.
  pose proof default_eps_pos as He.
  destruct (tadd_same_shape_rank3 a out 1 1 3 Sa So) as [s [Es [Ss Gs]]].
  rewrite Es. cbn [bind].
  destruct (LayerNorm_forward_rank3 (LayerNorm_init 3 default_eps) s 1 1 3 Ss
              eq_refl eq_refl) as [r [Er [Sr Gr]]].
  exists r. split; [exact Er |]. split; [exact Sr |].
  destruct (row3_stats s (m - k) m (m + k)) as [Hm Hs];
    try (rewrite Gs by lia; assumption).
  replace ((m - k + m + (m + k)) / 3) with m in Hm, Hs by field.
  replace ((Rsqr (m - k - m) + Rsqr (m - m) + Rsqr (m + k - m)) / 2)
    with (k * k) in Hs by (unfold Rsqr; field).
  rewrite sqrt_square in Hs by exact Hk.
  rewrite !Gr by lia. rewrite Hm, Hs, !Gs by lia. rewrite H0, H1, H2.
  cbn [LayerNorm_init gamma beta eps full get].
  unfold unit_scale.
  repeat split; field; lra.
Qed.

Lemma rsum_zero (n : nat) (f : nat -> R) :
  (forall c, f c = 0) -> rsum n f = 0.
Proof.
  intros Hf. rewrite (rsum_ext n f (fun _ => 0)) by (intros; apply Hf).
  rewrite rsum_const. ring.
Qed.

(** With zero weights and biases the feed-forward block returns zeros. *)
Lemma example_feed_forward_zero (x : tensor R) :
  shape x = [1; 1; 3]%nat ->
  exists f,
    FeedForward_forward example_feed_forward x = Ok f
    /\ shape f = [1; 1; 3]%nat
    /\ forall o, get f [0; 0; o]%nat = 0.
Proof.
  intros Hx. unfold FeedForward_forward.
  cbn [example_feed_forward ff_linear1 ff_dropout ff_linear2].
  destruct (Linear_forward_rank3
              (Linear_init 3 2048 (fun _ => 0) (fun _ => 0)) x 1 1 3 Hx eq_refl)
    as [h [Eh [Sh _]]].
  rewrite Eh. cbn [bind]. cbn [Linear_init out_features] in Sh.
  destruct (Linear_forward_rank3
              (Linear_init 2048 3 (fun _ => 0) (fun _ => 0))
              (Dropout_forward
                 {| p := 0; training := false; bernoulli := fun _ => true |}
                 (relu h)) 1 1 2048 Sh eq_refl)
    as [f [Ef [Sf Gf]]].
  exists f. split; [exact Ef |]. split; [exact Sf |].
  intros o. rewrite Gf. cbn [Linear_init weight bias get].
  rewrite rsum_zero by (intros c; ring). ring.
Qed.

Lemma example_stage3 (out : tensor R) (k : R) :
  shape out = [1; 1; 3]%nat -> 0 <= k ->
  get out [0; 0; 0]%nat = - k ->
  get out [0; 0; 1]%nat = 0 ->
  get out [0; 0; 2]%nat = k ->
  exists r,
    DecoderLayer_stage3 example_decoder_layer out = Ok r
    /\ get r [0; 0; 0]%nat = - unit_scale k.
Proof.
  intros So Hk H0 H1 H2. unfold DecoderLayer_stage3.
  cbn [example_decoder_layer feed_forward layer_norm3].
  destruct (example_feed_forward_zero out So) as [f [Ef [Sf Gf]]].
  rewrite Ef. cbn [bind].
  destruct (residual_norm_spread_row f out 0 k Sf So Hk) as [r [Er [_ [G0 _]]]];
    try (rewrite Gf; lra).
  exists r. split; [exact Er | exact G0].
Qed.

(** C1: the code's cross-attention does not take its query from stage 1.
    It calls the attention module with query = key = the encoder output and
    value = the stage-1 output.  On the one-position example (target
    [(0, 1, 2)], encoder output [(1, 1, 1)]) the layer built from the code
    and the layer whose second stage has query = stage-1 output and
    key = value = encoder output both return, and their outputs differ at
    feature 0. *)
Theorem cross_attention_arguments_swapped :
  exists got want,
    MultiHeadAttention_init 1 3 0 example_rnd
    = Ok (multi_head_attention2 example_decoder_layer)
    /\ DecoderLayer_forward example_decoder_layer
         example_encoder_out example_target example_x_mask example_target_mask
       = Ok got
    /\ DecoderLayer_forward_as_specified example_decoder_layer
         example_encoder_out example_target example_x_mask example_target_mask
       = Ok want
    /\ get got [0; 0; 0]%nat
       = - unit_scale (unit_scale (2 * unit_scale 2))
    /\ get want [0; 0; 0]%nat
       = - unit_scale (unit_scale (unit_scale 2))
    /\ get got [0; 0; 0]%nat <> get want [0; 0; 0]%nat.
Proof.
  pose proof default_eps_pos as He.
  assert (Hc : 0 < unit_scale 2) by (apply unit_scale_pos; lra).
  set (c := unit_scale 2) in *.
  (* stage 1: self-attention over the target returns the target *)
  destruct (example_attention_returns_value
              example_target example_target example_target
              eq_refl eq_refl eq_refl) as [a1 [Ea1 [Sa1 Ga1]]].
  destruct (residual_norm_spread_row a1 example_target 2 2 Sa1 eq_refl)
    as [out1 [E1 [S1 [G10 [G11 G12]]]]];
    try (rewrite Ga1 by lia; cbn; lra); [lra |].
  fold c in G10, G12.
  (* stage 2 of the code: attention(encoder_out, encoder_out, out1) = out1 *)
  destruct (example_attention_returns_value
              example_encoder_out example_encoder_out out1
              eq_refl eq_refl S1) as [a2 [Ea2 [Sa2 Ga2]]].
  destruct (residual_norm_spread_row a2 out1 0 (2 * c) Sa2 S1)
    as [out2 [E2 [S2 [G20 [G21 G22]]]]];
    try (rewrite Ga2 by lia; lra); [lra |].
  (* stage 2 as specified: attention(out1, encoder_out, encoder_out)
     = encoder_out *)
  destruct (example_attention_returns_value
              out1 example_encoder_out example_encoder_out
              S1 eq_refl eq_refl) as [a2' [Ea2' [Sa2' Ga2']]].
  destruct (residual_norm_spread_row a2' out1 1 c Sa2' S1)
    as [out2' [E2' [S2' [G20' [G21' G22']]]]];
    try (rewrite Ga2' by lia; cbn; lra); [lra |].
  (* stage 3 *)
  assert (Hk : 0 < unit_scale (2 * c)) by (apply unit_scale_pos; lra).
  assert (Hk' : 0 < unit_scale c) by (apply unit_scale_pos; lra).
  destruct (example_stage3 out2 (unit_scale (2 * c)) S2)
    as [got [E3 G3]]; try assumption; [lra |].
  destruct (example_stage3 out2' (unit_scale c) S2')
    as [want [E3' G3']]; try assumption; [lra |].
  exists got, want.
  split; [exact example_attention_constructed |].
  split.
  { unfold DecoderLayer_forward, DecoderLayer_stage1, DecoderLayer_stage2.
    cbn [example_decoder_layer multi_head_attention1 multi_head_attention2
         layer_norm1 layer_norm2].
    change example_target_mask with example_x_mask.
    rewrite Ea1. cbn [bind]. rewrite E1. cbn [bind].
    rewrite Ea2. cbn [bind]. rewrite E2. cbn [bind]. exact E3. }
  split.
  { unfold DecoderLayer_forward_as_specified, DecoderLayer_stage1,
      DecoderLayer_stage2_as_specified.
    cbn [example_decoder_layer multi_head_attention1 multi_head_attention2
         layer_norm1 layer_norm2].
    change example_target_mask with example_x_mask.
    rewrite Ea1. cbn [bind]. rewrite E1. cbn [bind].
    rewrite Ea2'. cbn [bind]. rewrite E2'. cbn [bind]. exact E3'. }
  split; [exact G3 |]. split; [exact G3' |].
  rewrite G3, G3'. intros H.
  apply Ropp_eq_compat in H. rewrite !Ropp_involutive in H.
  apply unit_scale_inj in H; [| lra | lra].
  apply unit_scale_inj in H; [| lra | lra].
  lra.
Qed.

(** * Further properties of the code *)

(** ** The attention weights *)

Lemma rsum_le (n : nat) (f g : nat -> R) :
  (forall j, (j < n)%nat -> f j <= g j) -> rsum n f <= rsum n g.
Proof.
  intros H. unfold rsum.
  assert (Hin : forall j, In j (seq 0 n) -> f j <= g j).
  { intros j Hj. apply in_seq in Hj. apply H. lia. }
  induction (seq 0 n) as [| k l IH]; simpl; [lra |].
  pose proof (Hin k (or_introl eq_refl)).
  assert (fold_right Rplus 0 (map f l) <= fold_right Rplus 0 (map g l)).
  { apply IH. intros j Hj. apply Hin. now right. }
  lra.
Qed.

Lemma rsum_S (n : nat) (f : nat -> R) : rsum (S n) f = rsum n f + f n.
Proof.
  unfold rsum. rewrite seq_S, map_app, fold_right_app. simpl.
  generalize (seq 0 n). intros l.
  induction l as [| k l IH]; simpl; [lra |]. rewrite IH. lra.
Qed.

Lemma rsum_exp_pos (n : nat) (f : nat -> R) :
  (0 < n)%nat -> 0 < rsum n (fun j => exp (f j)).
Proof.
  intros Hn. destruct n as [| n]; [lia |].
  rewrite rsum_S.
  assert (0 <= rsum n (fun j => exp (f j))).
  { apply rsum_nonneg. intros j. apply Rlt_le, exp_pos. }
  pose proof (exp_pos (f n)). lra.
Qed.

Section SoftmaxWeights.
Variable self : ScaledDotProductAttention.
Variables query key : tensor R.
Variable mask : option (tensor bool).
Variables D Lk : nat.
Hypothesis Lk_pos : (0 < Lk)%nat.

Let w := AttentionSpec.softmax_weight self query key mask D Lk.

Lemma softmax_weight_nonneg (b h i j : nat) : 0 <= w b h i j.
Proof.
  unfold w, AttentionSpec.softmax_weight.
  apply Rlt_le, Rdiv_lt_0_compat; [apply exp_pos |].
  now apply rsum_exp_pos.
Qed.

Lemma softmax_weight_sum (b h i : nat) : rsum Lk (w b h i) = 1.
Proof.
  unfold w, AttentionSpec.softmax_weight.
  set (z := rsum Lk (fun j' =>
              exp (AttentionSpec.masked_score self query key mask D b h i j'))).
  assert (Hz : 0 < z) by (now apply rsum_exp_pos).
  rewrite (rsum_ext Lk _
             (fun j => / z * exp (AttentionSpec.masked_score
                                    self query key mask D b h i j)))
    by (intros; unfold Rdiv; ring).
  rewrite rsum_scal. fold z. field. lra.
Qed.
End SoftmaxWeights.

Lemma weight_without_dropout (self : ScaledDotProductAttention)
      (query key : tensor R) (mask : option (tensor bool)) (D Lk : nat)
      (b h i j : nat) :
  dropout_inactive self ->
  AttentionSpec.weight_after_dropout self query key mask D Lk b h i j
  = AttentionSpec.softmax_weight self query key mask D Lk b h i j.
Proof.
  intros Hoff. unfold AttentionSpec.weight_after_dropout.
  destruct (sdpa_dropout self) as [d |] eqn:Hd; [| reflexivity].
  destruct (Rgt_dec (sdpa_dropout_rate self) 0) as [Hpos | _]; [| reflexivity].
  destruct Hoff as [Hle | Heval]; [lra |].
  now rewrite (Heval d Hd).
Qed.

(** X1: Without dropout and with [dk > 0], every output entry is a convex
    combination of the value entries of its column, so it stays within their
    bounds. *)
Theorem attention_output_within_value_bounds
      (self : ScaledDotProductAttention)
      (query key value : tensor R) (mask : option (tensor bool))
      (B H Lq Lk D Dv : nat) (b h i c : nat) (lo hi : R) :
  shape query = [B; H; Lq; D] ->
  shape key = [B; H; Lk; D] ->
  shape value = [B; H; Lk; Dv] ->
  mask_fits mask B Lq Lk ->
  dropout_present self ->
  dropout_inactive self ->
  (0 < sdpa_dk self)%nat ->
  (0 < Lk)%nat ->
  (b < B)%nat -> (h < H)%nat -> (i < Lq)%nat -> (c < Dv)%nat ->
  (forall j, (j < Lk)%nat -> lo <= get value [b; h; j; c] <= hi) ->
  exists out,
    ScaledDotProductAttention_forward self query key value mask = Ok out
    /\ lo <= get out [b; h; i; c] <= hi.
Proof.
  intros Hq Hk Hv Hm Hd Hoff _ HLk Hb Hh Hi Hc Hbound.
  destruct (sdpa_forward_spec self query key value mask
              B H Lq Lk D Dv Hq Hk Hv Hm Hd) as [out [E [_ G]]].
  exists out. split; [exact E |].
  rewrite (G b h i c Hb Hh Hi Hc). unfold AttentionSpec.attention.
  set (w := AttentionSpec.softmax_weight self query key mask D Lk b h i).
  rewrite (rsum_ext Lk _ (fun j => w j * get value [b; h; j; c]))
    by (intros j _; now rewrite weight_without_dropout).
  assert (Hw : forall j, 0 <= w j)
    by (intros j; now apply softmax_weight_nonneg).
  assert (Hsum : rsum Lk w = 1) by (now apply softmax_weight_sum).
  split.
  - replace lo with (rsum Lk (fun j => w j * lo)).
    + apply rsum_le. intros j Hj.
      apply Rmult_le_compat_l; [apply Hw | apply (Hbound j Hj)].
    + rewrite (rsum_ext Lk _ (fun j => lo * w j)) by (intros; ring).
      rewrite rsum_scal, Hsum. ring.
  - replace hi with (rsum Lk (fun j => w j * hi)).
    + apply rsum_le. intros j Hj.
      apply Rmult_le_compat_l; [apply Hw | apply (Hbound j Hj)].
    + rewrite (rsum_ext Lk _ (fun j => hi * w j)) by (intros; ring).
      rewrite rsum_scal, Hsum. ring.
Qed.

Lemma attention_output_within_value_bounds_witness :
  exists out,
    ScaledDotProductAttention_forward
      {| sdpa_dk := 1; sdpa_dropout_rate := 0; sdpa_dropout := None |}
      (zeros [1; 1; 2; 1]%nat) (zeros [1; 1; 2; 1]%nat)
      (full [1; 1; 2; 1]%nat 3) (Some (full [1; 1; 2]%nat true)) = Ok out
    /\ 3 <= get out [0; 0; 0; 0]%nat <= 3.
Proof.
  apply (attention_output_within_value_bounds
           {| sdpa_dk := 1; sdpa_dropout_rate := 0; sdpa_dropout := None |}
           (zeros [1; 1; 2; 1]%nat) (zeros [1; 1; 2; 1]%nat)
           (full [1; 1; 2; 1]%nat 3) (Some (full [1; 1; 2]%nat true))
           1 1 2 2 1 1 0 0 0 0 3 3 eq_refl eq_refl eq_refl);
    try lia.
  - exists 1%nat. split; [reflexivity | left; reflexivity].
  - intros Hpos. cbn in Hpos. lra.
  - left. cbn. lra.
  - cbn. lia.
  - intros j _. cbn. lra.
Defined.

(** X2: A row whose every key position is masked gets the same score everywhere,
    so (without dropout) its weights are uniform and the output is the plain
    average of the value rows: the fill constant keeps the result defined. *)
Theorem fully_masked_row_averages_values
      (self : ScaledDotProductAttention)
      (query key value : tensor R) (m : tensor bool)
      (B H Lq Lk Lm D Dv : nat) (b h i c : nat) :
  shape query = [B; H; Lq; D] ->
  shape key = [B; H; Lk; D] ->
  shape value = [B; H; Lk; Dv] ->
  shape m = [B; Lm; Lk] ->
  Lm = 1%nat \/ Lm = Lq ->
  dropout_present self ->
  dropout_inactive self ->
  (0 < Lk)%nat ->
  (b < B)%nat -> (h < H)%nat -> (i < Lq)%nat -> (c < Dv)%nat ->
  (forall j, (j < Lk)%nat -> get m [b; bdim Lm i; j] = false) ->
  exists out,
    ScaledDotProductAttention_forward self query key value (Some m) = Ok out
    /\ get out [b; h; i; c]
       = rsum Lk (fun j => get value [b; h; j; c]) / INR Lk.
Proof.
  intros Hq Hk Hv Hms HLm Hd Hoff HLk Hb Hh Hi Hc Hmasked.
  destruct (sdpa_forward_spec self query key value (Some m)
              B H Lq Lk D Dv Hq Hk Hv) as [out [E [_ G]]];
    [exists Lm; auto | exact Hd |].
  exists out. split; [exact E |].
  rewrite (G b h i c Hb Hh Hi Hc). unfold AttentionSpec.attention.
  assert (Hscore : forall j, (j < Lk)%nat ->
            AttentionSpec.masked_score self query key (Some m) D b h i j
            = mask_fill_value).
  { intros j Hj. unfold AttentionSpec.masked_score.
    rewrite Hms. cbn [nth]. now rewrite (Hmasked j Hj). }
  assert (HI : INR Lk <> 0) by (apply not_0_INR; lia).
  assert (Hw : forall j, (j < Lk)%nat ->
            AttentionSpec.weight_after_dropout
              self query key (Some m) D Lk b h i j = / INR Lk).
  { intros j Hj. rewrite weight_without_dropout by exact Hoff.
    unfold AttentionSpec.softmax_weight.
    rewrite (Hscore j Hj).
    rewrite (rsum_ext Lk _ (fun _ => exp mask_fill_value))
      by (intros j' Hj'; now rewrite (Hscore j' Hj')).
    rewrite rsum_const.
    pose proof (exp_pos mask_fill_value). field.
    repeat split; try lra; exact HI. }
  rewrite (rsum_ext Lk _ (fun j => / INR Lk * get value [b; h; j; c]))
    by (intros j Hj; now rewrite (Hw j Hj)).
  rewrite rsum_scal. field. exact HI.
Qed.

Lemma fully_masked_row_averages_values_witness :
  exists out,
    ScaledDotProductAttention_forward
      {| sdpa_dk := 1; sdpa_dropout_rate := 0; sdpa_dropout := None |}
      (zeros [1; 1; 2; 1]%nat) (zeros [1; 1; 2; 1]%nat)
      (full [1; 1; 2; 1]%nat 3) (Some (full [1; 1; 2]%nat false)) = Ok out
    /\ get out [0; 0; 0; 0]%nat
       = rsum 2 (fun j => get (full [1; 1; 2; 1]%nat 3) [0; 0; j; 0]%nat)
         / INR 2.
Proof.
  apply (fully_masked_row_averages_values
           {| sdpa_dk := 1; sdpa_dropout_rate := 0; sdpa_dropout := None |}
           (zeros [1; 1; 2; 1]%nat) (zeros [1; 1; 2; 1]%nat)
           (full [1; 1; 2; 1]%nat 3) (full [1; 1; 2]%nat false)
           1 1 2 2 1 1 1 0 0 0 0 eq_refl eq_refl eq_refl eq_refl);
    try lia.
  - intros Hpos. cbn in Hpos. lra.
  - left. cbn. lra.
  - intros j _. reflexivity.
Defined.

(** X3: Key rows at positions that the mask hides from every query position do
    not influence the output: two keys that agree wherever some query may
    attend give the same result. *)
Theorem masked_key_rows_are_ignored
      (self : ScaledDotProductAttention)
      (query key key' value : tensor R) (m : tensor bool)
      (B H Lq Lk Lm D Dv : nat) :
  shape query = [B; H; Lq; D] ->
  shape key = [B; H; Lk; D] ->
  shape key' = [B; H; Lk; D] ->
  shape value = [B; H; Lk; Dv] ->
  shape m = [B; Lm; Lk] ->
  Lm = 1%nat \/ Lm = Lq ->
  dropout_present self ->
  (forall b h i j c,
     (b < B)%nat -> (i < Lq)%nat -> (j < Lk)%nat ->
     get m [b; bdim Lm i; j] = true ->
     get key [b; h; j; c] = get key' [b; h; j; c]) ->
  exists out out',
    ScaledDotProductAttention_forward self query key value (Some m) = Ok out
    /\ ScaledDotProductAttention_forward self query key' value (Some m)
       = Ok out'
    /\ shape out = shape out'
    /\ forall b h i c,
         (b < B)%nat -> (h < H)%nat -> (i < Lq)%nat -> (c < Dv)%nat ->
         get out [b; h; i; c] = get out' [b; h; i; c].
Proof.
  intros Hq Hk Hk' Hv Hms HLm Hd Hagree.
  destruct (sdpa_forward_spec self query key value (Some m)
              B H Lq Lk D Dv Hq Hk Hv) as [out [E [S G]]];
    [exists Lm; auto | exact Hd |].
  destruct (sdpa_forward_spec self query key' value (Some m)
              B H Lq Lk D Dv Hq Hk' Hv) as [out' [E' [S' G']]];
    [exists Lm; auto | exact Hd |].
  exists out, out'. split; [exact E |]. split; [exact E' |].
  split; [congruence |].
  intros b h i c Hb Hh Hi Hc.
  rewrite (G b h i c Hb Hh Hi Hc), (G' b h i c Hb Hh Hi Hc).
  assert (Hscore : forall j, (j < Lk)%nat ->
            AttentionSpec.masked_score self query key (Some m) D b h i j
            = AttentionSpec.masked_score self query key' (Some m) D b h i j).
  { intros j Hj. unfold AttentionSpec.masked_score, AttentionSpec.score.
    rewrite Hms. cbn [nth].
    destruct (get m [b; bdim Lm i; j]) eqn:Hmj; [| reflexivity].
    f_equal. apply rsum_ext. intros d _.
    now rewrite (Hagree b h i j d Hb Hi Hj Hmj). }
  assert (Hsoft : forall j, (j < Lk)%nat ->
            AttentionSpec.softmax_weight self query key (Some m) D Lk b h i j
            = AttentionSpec.softmax_weight self query key' (Some m) D Lk b h i j).
  { intros j Hj. unfold AttentionSpec.softmax_weight.
    rewrite (Hscore j Hj). f_equal.
    apply rsum_ext. intros j' Hj'. now rewrite (Hscore j' Hj'). }
  unfold AttentionSpec.attention. apply rsum_ext. intros j Hj.
  f_equal. unfold AttentionSpec.weight_after_dropout.
  now rewrite (Hsoft j Hj).
Qed.

Lemma masked_key_rows_are_ignored_witness :
  exists out out',
    ScaledDotProductAttention_forward
      {| sdpa_dk := 1; sdpa_dropout_rate := 0; sdpa_dropout := None |}
      (zeros [1; 1; 2; 1]%nat) (full [1; 1; 2; 1]%nat 5)
      (zeros [1; 1; 2; 1]%nat) (Some (full [1; 1; 2]%nat false)) = Ok out
    /\ ScaledDotProductAttention_forward
         {| sdpa_dk := 1; sdpa_dropout_rate := 0; sdpa_dropout := None |}
         (zeros [1; 1; 2; 1]%nat) (full [1; 1; 2; 1]%nat 7)
         (zeros [1; 1; 2; 1]%nat) (Some (full [1; 1; 2]%nat false)) = Ok out'
    /\ shape out = shape out'
    /\ forall b h i c,
         (b < 1)%nat -> (h < 1)%nat -> (i < 2)%nat -> (c < 1)%nat ->
         get out [b; h; i; c] = get out' [b; h; i; c].
Proof.
  apply (masked_key_rows_are_ignored
           {| sdpa_dk := 1; sdpa_dropout_rate := 0; sdpa_dropout := None |}
           (zeros [1; 1; 2; 1]%nat) (full [1; 1; 2; 1]%nat 5)
           (full [1; 1; 2; 1]%nat 7) (zeros [1; 1; 2; 1]%nat)
           (full [1; 1; 2]%nat false) 1 1 2 2 1 1 1
           eq_refl eq_refl eq_refl eq_refl eq_refl).
  - left. reflexivity.
  - intros Hpos. cbn in Hpos. lra.
  - intros b h i j c _ _ _ Hm. cbn in Hm. discriminate.
Defined.

(** ** MultiHeadAttention.forward *)

(** X6: When query, key and value have the same shape [(B, L, E)] and [E] is a
    multiple of the head count, the forward call returns a tensor of the
    query's shape. *)
Theorem multi_head_forward_keeps_query_shape (h E : nat) (rate : R)
      (rnd : mha_random) (query key value : tensor R)
      (mask : option (tensor bool)) (B L : nat) :
  (0 < h)%nat -> rate <= 1 -> E = (h * (E / h))%nat ->
  shape query = [B; L; E] ->
  shape key = [B; L; E] ->
  shape value = [B; L; E] ->
  mask_fits mask B L L ->
  exists self out,
    MultiHeadAttention_init h E rate rnd = Ok self
    /\ MultiHeadAttention_forward self query key value mask = Ok out
    /\ shape out = shape query.
Proof.
  intros Hh Hrate Hdiv Hq Hk Hv Hm.
  destruct (MultiHeadAttention_forward_ok h E rate rnd query key value mask
              B L B L B L Hh Hrate Hdiv Hq Hk Hv eq_refl eq_refl Hm)
    as [self [out [Hinit [Hf Hs]]]].
  exists self, out. split; [exact Hinit |]. split; [exact Hf |].
  now rewrite Hs, Hq.
Qed.

Lemma multi_head_forward_keeps_query_shape_witness :
  exists self out,
    MultiHeadAttention_init 2 4 0 rnd0 = Ok self
    /\ MultiHeadAttention_forward self (zeros [1; 3; 4]%nat)
         (zeros [1; 3; 4]%nat) (zeros [1; 3; 4]%nat)
         (Some (full [1; 1; 3]%nat true)) = Ok out
    /\ shape out = shape (zeros [1; 3; 4]%nat).
Proof.
  apply (multi_head_forward_keeps_query_shape 2 4 0 rnd0
           (zeros [1; 3; 4]%nat) (zeros [1; 3; 4]%nat) (zeros [1; 3; 4]%nat)
           (Some (full [1; 1; 3]%nat true)) 1 3);
    try reflexivity; try lia; try lra.
  exists 1%nat. split; [reflexivity | left; reflexivity].
Defined.

(** X7: A module built with an embedding size that is not a multiple of the
    head count is accepted by the constructor but unusable: on every
    non-empty query the first reshape raises. *)
Theorem multi_head_forward_fails_when_indivisible (h E : nat) (rate : R)
      (rnd : mha_random) (query key value : tensor R)
      (mask : option (tensor bool)) (B L : nat) :
  (0 < h)%nat -> rate <= 1 -> E <> (h * (E / h))%nat ->
  (0 < B)%nat -> (0 < L)%nat ->
  shape query = [B; L; E] ->
  exists self,
    MultiHeadAttention_init h E rate rnd = Ok self
    /\ MultiHeadAttention_forward self query key value mask
       = Err RuntimeError.
Proof.
  intros Hh Hrate Hdiv HB HL Hq.
  destruct (MultiHeadAttention_init_ok h E rate rnd Hh Hrate)
    as [self [Hinit [HE [Hhead [Hdk [Hqi [Hqo _]]]]]]].
  exists self. split; [exact Hinit |].
  unfold MultiHeadAttention_forward. rewrite Hq, Hhead, Hdk.
  destruct (Linear_forward_rank3 _ query B L E Hq Hqi) as [q [Eq [Sq _]]].
  rewrite Hqo in Sq. rewrite Eq. cbn [bind].
  rewrite view_clash; [reflexivity |].
  rewrite Sq. cbn [numel fold_right]. rewrite !Nat.mul_1_r.
  intros Hn. apply Nat.mul_cancel_l in Hn; [| lia].
  apply Nat.mul_cancel_l in Hn; [| lia]. contradiction.
Qed.

Lemma multi_head_forward_fails_when_indivisible_witness :
  exists self,
    MultiHeadAttention_init 3 10 0 rnd0 = Ok self
    /\ MultiHeadAttention_forward self (zeros [1; 2; 10]%nat)
         (zeros [1; 2; 10]%nat) (zeros [1; 2; 10]%nat) None
       = Err RuntimeError.
Proof.
  apply (multi_head_forward_fails_when_indivisible 3 10 0 rnd0
           (zeros [1; 2; 10]%nat) (zeros [1; 2; 10]%nat)
           (zeros [1; 2; 10]%nat) None 1 2);
    try reflexivity; try lia; try lra.
Defined.

(** ** FeedForward *)

Lemma Dropout_init_ok (rate : R) (draw : list nat -> bool) :
  0 <= rate <= 1 ->
  Dropout_init rate draw
  = Ok {| p := rate; training := true; bernoulli := draw |}.
Proof.
  intros [H0 H1]. unfold Dropout_init.
  destruct (Rlt_dec rate 0); [lra |].
  destruct (Rgt_dec rate 1); [lra | reflexivity].
Qed.

Lemma FeedForward_init_ok (E : nat) (rate : R) (rnd : ff_random) :
  0 <= rate <= 1 ->
  exists ff,
    FeedForward_init E rate rnd = Ok ff
    /\ in_features (ff_linear1 ff) = E
    /\ out_features (ff_linear1 ff) = inner_dim
    /\ in_features (ff_linear2 ff) = inner_dim
    /\ out_features (ff_linear2 ff) = E.
Proof.
  intros Hrate. unfold FeedForward_init.
  rewrite (Dropout_init_ok rate (rnd_ff_draw rnd) Hrate). cbn [bind].
  eexists. split; [reflexivity |]. cbn. repeat split.
Qed.

Lemma FeedForward_forward_rank3 (ff : FeedForward) (x : tensor R)
      (B L E : nat) :
  shape x = [B; L; E] ->
  in_features (ff_linear1 ff) = E ->
  in_features (ff_linear2 ff) = out_features (ff_linear1 ff) ->
  exists h out,
    Linear_forward (ff_linear1 ff) x = Ok h
    /\ FeedForward_forward ff x = Ok out
    /\ shape out = [B; L; out_features (ff_linear2 ff)]
    /\ (forall b i c,
          get h [b; i; c]
          = rsum E (fun k => get x [b; i; k]
                             * get (weight (ff_linear1 ff)) [c; k])
            + get (bias (ff_linear1 ff)) [c])
    /\ forall b i o,
         get out [b; i; o]
         = rsum (out_features (ff_linear1 ff))
             (fun c => get (Dropout_forward (ff_dropout ff) (relu h)) [b; i; c]
                       * get (weight (ff_linear2 ff)) [o; c])
           + get (bias (ff_linear2 ff)) [o].
Proof.
  intros Hx H1 H2. unfold FeedForward_forward.
  destruct (Linear_forward_rank3 (ff_linear1 ff) x B L E Hx H1)
    as [h [Eh [Sh Gh]]].
  rewrite Eh. cbn [bind].
  assert (Shd : shape (Dropout_forward (ff_dropout ff) (relu h))
                = [B; L; out_features (ff_linear1 ff)]).
  { unfold Dropout_forward. destruct (training (ff_dropout ff)); exact Sh. }
  destruct (Linear_forward_rank3 (ff_linear2 ff) _ B L _ Shd H2)
    as [out [Eo [So Go]]].
  exists h, out. repeat split; assumption.
Qed.

(** X10: The feed-forward block preserves the shape [(B, L, E)] and acts on each
    position separately: two inputs that agree on the feature vector of one
    position give, for the same dropout draws, the same output there. *)
Theorem feed_forward_is_position_wise (E : nat) (rate : R) (rnd : ff_random)
      (x x' : tensor R) (B L b i : nat) :
  0 <= rate <= 1 ->
  shape x = [B; L; E] ->
  shape x' = [B; L; E] ->
  (forall k, (k < E)%nat -> get x [b; i; k] = get x' [b; i; k]) ->
  exists ff out out',
    FeedForward_init E rate rnd = Ok ff
    /\ FeedForward_forward ff x = Ok out
    /\ FeedForward_forward ff x' = Ok out'
    /\ shape out = [B; L; E]
    /\ shape out' = [B; L; E]
    /\ forall o, get out [b; i; o] = get out' [b; i; o].
Proof.
  intros Hrate Hx Hx' Hrow.
  destruct (FeedForward_init_ok E rate rnd Hrate)
    as [ff [Hinit [H1i [H1o [H2i H2o]]]]].
  assert (H21 : in_features (ff_linear2 ff) = out_features (ff_linear1 ff))
    by congruence.
  destruct (FeedForward_forward_rank3 ff x B L E Hx H1i H21)
    as [h [out [_ [Eo [So [Gh Go]]]]]].
  destruct (FeedForward_forward_rank3 ff x' B L E Hx' H1i H21)
    as [h' [out' [_ [Eo' [So' [Gh' Go']]]]]].
  exists ff, out, out'.
  rewrite H2o in So, So'.
  repeat (split; [assumption |]).
  intros o. rewrite Go, Go'. f_equal.
  apply rsum_ext. intros c _. f_equal.
  assert (Hh : get h [b; i; c] = get h' [b; i; c]).
  { rewrite Gh, Gh'. f_equal. apply rsum_ext. intros k Hk.
    now rewrite (Hrow k Hk). }
  unfold Dropout_forward.
  destruct (training (ff_dropout ff)); cbn [get relu tmap]; now rewrite Hh.
Qed.

Lemma feed_forward_is_position_wise_witness :
  exists ff out out',
    FeedForward_init 2 0
      {| rnd_ff1 := (fun _ => 1, fun _ => 0);
         rnd_ff2 := (fun _ => 1, fun _ => 0);
         rnd_ff_draw := fun _ => true |} = Ok ff
    /\ FeedForward_forward ff (zeros [1; 2; 2]%nat) = Ok out
    /\ FeedForward_forward ff
         {| shape := [1; 2; 2]%nat;
            get := fun idx => INR (nth 1 idx 0%nat) |} = Ok out'
    /\ shape out = [1; 2; 2]%nat
    /\ shape out' = [1; 2; 2]%nat
    /\ forall o, get out [0; 0; o]%nat = get out' [0; 0; o]%nat.
Proof.
  apply (feed_forward_is_position_wise 2 0
           {| rnd_ff1 := (fun _ => 1, fun _ => 0);
              rnd_ff2 := (fun _ => 1, fun _ => 0);
              rnd_ff_draw := fun _ => true |}
           (zeros [1; 2; 2]%nat)
           {| shape := [1; 2; 2]%nat;
              get := fun idx => INR (nth 1 idx 0%nat) |}
           1 2 0 0);
    try reflexivity; try lra.
Defined.

(** ** LayerNorm *)





(** ** The positional table beyond the paired columns *)

Lemma pe_row_untouched (m d pos : nat) (t : tensor R) :
  shape t = [m; d] -> (pos < m)%nat ->
  exists t', foldM (pe_assign d pos) (seq 0 (d / 2)) t = Ok t'
    /\ shape t' = [m; d]
    /\ forall q c, (2 * (d / 2) <= c)%nat -> get t' [q; c] = get t [q; c].
Proof.
  intros Hsh Hpos.
  destruct (foldM_seq_inv (pe_assign d pos)
    (fun (n : nat) x => shape x = [m; d]
       /\ forall q c, (2 * (d / 2) <= c)%nat -> get x [q; c] = get t [q; c])
    (d / 2)%nat t) as [t' [Hf Hinv]].
  - split; [assumption | reflexivity].
  - intros k x Hk [Hx Hframe].
    destruct (pe_assign_ok m d pos k x Hx Hpos Hk) as [x' [E [S' [_ [_ F]]]]].
    exists x'. split; [exact E |]. split; [exact S' |].
    intros q c Hc. rewrite F; try (intros H; injection H; lia).
    now apply Hframe.
  - exists t'. tauto.
Qed.

Lemma PositionalEncoding_init_untouched (max_len d : nat) :
  exists self,
    PositionalEncoding_init max_len d = Ok self
    /\ forall q c, (2 * (d / 2) <= c)%nat ->
         get (positionalEncoding self) [q; c] = 0.
Proof.
  unfold PositionalEncoding_init.
  destruct (foldM_seq_inv
    (fun t pos => foldM (pe_assign d pos) (seq 0 (d / 2)) t)
    (fun (n : nat) x => shape x = [max_len; d]
       /\ forall q c, (2 * (d / 2) <= c)%nat -> get x [q; c] = 0)
    max_len (zeros [max_len; d])) as [t [Hf [Hsh Hz]]].
  - split; reflexivity.
  - intros k x Hk [Hx Hzero].
    destruct (pe_row_untouched max_len d k x Hx Hk) as [x' [E [S' F]]].
    exists x'. split; [exact E |]. split; [exact S' |].
    intros q c Hc. rewrite F by exact Hc. now apply Hzero.
  - rewrite Hf. cbn [bind]. eexists. split; [reflexivity |]. exact Hz.
Qed.

(** X13: For an odd [embedding_dim] the loop over [embedding_dim // 2] pairs never
    writes the last column, which keeps the zeros it was created with. *)
Theorem positional_table_last_column_zero_when_odd (max_len d pos : nat) :
  Nat.odd d = true -> (pos < max_len)%nat ->
  exists self,
    PositionalEncoding_init max_len d = Ok self
    /\ get (positionalEncoding self) [pos; d - 1]%nat = 0.
Proof.
  intros Hodd Hpos.
  destruct (PositionalEncoding_init_untouched max_len d) as [self [Hinit Hz]].
  exists self. split; [exact Hinit |].
  apply Hz.
  apply Nat.odd_spec in Hodd. destruct Hodd as [k ->].
  replace ((2 * k + 1) / 2)%nat with k; [lia |].
  apply (Nat.div_unique (2 * k + 1) 2 k 1); lia.
Qed.

Lemma positional_table_last_column_zero_when_odd_witness :
  exists self,
    PositionalEncoding_init 2 3 = Ok self
    /\ get (positionalEncoding self) [1; 3 - 1]%nat = 0.
Proof.
  apply (positional_table_last_column_zero_when_odd 2 3 1);
    [reflexivity | lia].
Defined.

(** X14: Every entry of the table lies between -1 and 1. *)
Theorem positional_table_bounded (max_len d : nat) :
  exists self,
    PositionalEncoding_init max_len d = Ok self
    /\ forall pos c, (pos < max_len)%nat -> (c < d)%nat ->
         -1 <= get (positionalEncoding self) [pos; c] <= 1.
Proof.
  destruct (PositionalEncoding_init_table max_len d)
    as [self [Hinit [_ Hent]]].
  destruct (PositionalEncoding_init_untouched max_len d)
    as [self' [Hinit' Hz]].
  assert (self' = self) by congruence. subst self'.
  exists self. split; [exact Hinit |].
  intros pos c Hpos Hc.
  destruct (Nat.lt_ge_cases c (2 * (d / 2))) as [Hlt | Hge].
  - pose proof (Nat.div_mod_eq c 2) as Hdm.
    pose proof (Nat.mod_upper_bound c 2) as Hmod.
    assert (Hi : (c / 2 < d / 2)%nat) by lia.
    destruct (Hent pos (c / 2)%nat Hpos Hi) as [Hs Hco].
    destruct (Nat.eq_dec (c mod 2) 0) as [H0 | H1].
    + replace (get (positionalEncoding self) [pos; c])
        with (get (positionalEncoding self) [pos; (2 * (c / 2))%nat])
        by (repeat f_equal; lia).
      rewrite Hs. unfold pe_sin. apply SIN_bound.
    + replace (get (positionalEncoding self) [pos; c])
        with (get (positionalEncoding self) [pos; (2 * (c / 2) + 1)%nat])
        by (repeat f_equal; lia).
      rewrite Hco. unfold pe_cos. apply COS_bound.
  - rewrite (Hz pos c Hge). lra.
Qed.

(** ** EncoderLayer *)

Lemma bind_ok_inv {A B : Type} (r : result A) (k : A -> result B) (b : B) :
  bind r k = Ok b -> exists a, r = Ok a /\ k a = Ok b.
Proof.
  destruct r as [a | e]; cbn [bind]; intros H; [| discriminate].
  exists a. auto.
Qed.

(** The forward call of a module the constructor returned. *)
Lemma MultiHeadAttention_forward_built (h E : nat) (rate : R)
      (rnd : mha_random) (self : MultiHeadAttention)
      (query key value : tensor R) (mask : option (tensor bool)) (B L : nat) :
  MultiHeadAttention_init h E rate rnd = Ok self ->
  (0 < h)%nat -> rate <= 1 -> E = (h * (E / h))%nat ->
  shape query = [B; L; E] ->
  shape key = [B; L; E] ->
  shape value = [B; L; E] ->
  mask_fits mask B L L ->
  exists out,
    MultiHeadAttention_forward self query key value mask = Ok out
    /\ shape out = [B; L; E].
Proof.
  intros Hself Hh Hrate Hdiv Hq Hk Hv Hm.
  destruct (MultiHeadAttention_forward_ok h E rate rnd query key value mask
              B L B L B L Hh Hrate Hdiv Hq Hk Hv eq_refl eq_refl Hm)
    as [self' [out [Hinit [Hf Hs]]]].
  assert (self' = self) by congruence. subst self'.
  exists out. auto.
Qed.

Lemma residual_layer_norm_shape (a x : tensor R) (B L E : nat) :
  shape a = [B; L; E] -> shape x = [B; L; E] ->
  exists out,
    (s <- tadd a x ;; LayerNorm_forward (LayerNorm_init E default_eps) s)
    = Ok out
    /\ shape out = [B; L; E].
Proof.
  intros Ha Hx.
  destruct (tadd_same_shape_rank3 a x B L E Ha Hx) as [s [Es [Ss _]]].
  rewrite Es. cbn [bind].
  destruct (LayerNorm_forward_rank3 (LayerNorm_init E default_eps) s B L E Ss
              eq_refl eq_refl) as [out [Eo [So _]]].
  exists out. auto.
Qed.

Lemma FeedForward_forward_built (E : nat) (rate : R) (rnd : ff_random)
      (ff : FeedForward) (x : tensor R) (B L : nat) :
  FeedForward_init E rate rnd = Ok ff ->
  0 <= rate <= 1 ->
  shape x = [B; L; E] ->
  exists out, FeedForward_forward ff x = Ok out /\ shape out = [B; L; E].
Proof.
  intros Hff Hrate Hx.
  destruct (FeedForward_init_ok E rate rnd Hrate)
    as [ff' [Hinit [H1i [H1o [H2i H2o]]]]].
  assert (ff' = ff) by congruence. subst ff'.
  destruct (FeedForward_forward_rank3 ff x B L E Hx H1i)
    as [h [out [_ [Eo [So _]]]]]; [congruence |].
  exists out. split; [exact Eo |]. now rewrite So, H2o.
Qed.

Lemma EncoderLayer_init_parts (h E : nat) (rate : R)
      (rnd : encoder_layer_random) (layer : EncoderLayer) :
  EncoderLayer_init h E rate rnd = Ok layer ->
  MultiHeadAttention_init h E rate (rnd_enc_mha rnd)
  = Ok (enc_multi_head_attention layer)
  /\ FeedForward_init E rate (rnd_enc_ff rnd) = Ok (enc_feed_forward layer)
  /\ enc_layer_norm1 layer = LayerNorm_init E default_eps
  /\ enc_layer_norm2 layer = LayerNorm_init E default_eps.
Proof.
  unfold EncoderLayer_init. intros H.
  apply bind_ok_inv in H. destruct H as [mha [Hm H]].
  apply bind_ok_inv in H. destruct H as [ff [Hf H]].
  injection H as <-. cbn. auto.
Qed.

Lemma EncoderLayer_init_ok (h E : nat) (rate : R)
      (rnd : encoder_layer_random) :
  (0 < h)%nat -> 0 <= rate <= 1 ->
  exists layer, EncoderLayer_init h E rate rnd = Ok layer.
Proof.
  intros Hh Hrate. unfold EncoderLayer_init.
  destruct (MultiHeadAttention_init_ok h E rate (rnd_enc_mha rnd) Hh)
    as [mha [Hm _]]; [lra |].
  destruct (FeedForward_init_ok E rate (rnd_enc_ff rnd) Hrate) as [ff [Hf _]].
  rewrite Hm. cbn [bind]. rewrite Hf. cbn [bind].
  eexists. reflexivity.
Qed.

Lemma EncoderLayer_forward_built (h E : nat) (rate : R)
      (rnd : encoder_layer_random) (layer : EncoderLayer)
      (x : tensor R) (x_mask : option (tensor bool)) (B L : nat) :
  EncoderLayer_init h E rate rnd = Ok layer ->
  (0 < h)%nat -> 0 <= rate <= 1 -> E = (h * (E / h))%nat ->
  shape x = [B; L; E] ->
  mask_fits x_mask B L L ->
  exists out,
    EncoderLayer_forward layer x x_mask = Ok out /\ shape out = [B; L; E].
Proof.
  intros Hlayer Hh Hrate Hdiv Hx Hm.
  destruct (EncoderLayer_init_parts h E rate rnd layer Hlayer)
    as [Hmha [Hff [Hln1 Hln2]]].
  unfold EncoderLayer_forward.
  destruct (MultiHeadAttention_forward_built h E rate (rnd_enc_mha rnd)
              (enc_multi_head_attention layer) x x x x_mask B L Hmha Hh)
    as [a [Ea Sa]]; try assumption; [lra |].
  rewrite Ea. cbn [bind]. rewrite Hln1, Hln2.
  destruct (residual_layer_norm_shape a x B L E Sa Hx) as [o1 [E1 S1]].
  apply bind_ok_inv in E1. destruct E1 as [s1 [Es1 El1]].
  rewrite Es1. cbn [bind]. rewrite El1. cbn [bind].
  destruct (FeedForward_forward_built E rate (rnd_enc_ff rnd)
              (enc_feed_forward layer) o1 B L Hff Hrate S1) as [f [Ef Sf]].
  rewrite Ef. cbn [bind].
  exact (residual_layer_norm_shape f o1 B L E Sf S1).
Qed.

(** X15: An encoder layer built by its constructor maps an input of shape
    [(B, L, E)] to an output of the same shape. *)
Theorem encoder_layer_preserves_shape (h E : nat) (rate : R)
      (rnd : encoder_layer_random) (x : tensor R)
      (x_mask : option (tensor bool)) (B L : nat) :
  (0 < h)%nat -> 0 <= rate <= 1 -> E = (h * (E / h))%nat ->
  shape x = [B; L; E] ->
  mask_fits x_mask B L L ->
  exists layer out,
    EncoderLayer_init h E rate rnd = Ok layer
    /\ EncoderLayer_forward layer x x_mask = Ok out
    /\ shape out = shape x.
Proof.
  intros Hh Hrate Hdiv Hx Hm.
  destruct (EncoderLayer_init_ok h E rate rnd Hh Hrate) as [layer Hlayer].
  destruct (EncoderLayer_forward_built h E rate rnd layer x x_mask B L
              Hlayer Hh Hrate Hdiv Hx Hm) as [out [Eo So]].
  exists layer, out. split; [exact Hlayer |]. split; [exact Eo |].
  now rewrite So, Hx.
Qed.

Lemma encoder_layer_preserves_shape_witness :
  exists layer out,
    EncoderLayer_init 2 4 (1 / 10) enc_layer_rnd0 = Ok layer
    /\ EncoderLayer_forward layer (zeros [1; 3; 4]%nat)
         (Some (full [1; 1; 3]%nat true)) = Ok out
    /\ shape out = shape (zeros [1; 3; 4]%nat).
Proof.
  apply (encoder_layer_preserves_shape 2 4 (1 / 10) enc_layer_rnd0
           (zeros [1; 3; 4]%nat) (Some (full [1; 1; 3]%nat true)) 1 3);
    try reflexivity; try lia; try lra.
  exists 1%nat. split; [reflexivity | left; reflexivity].
Defined.

(** ** Encoder *)

Lemma mapM_ok {A B : Type} (f : A -> result B) (l : list A) :
  (forall a, In a l -> exists b, f a = Ok b) ->
  exists bs,
    mapM f l = Ok bs
    /\ length bs = length l
    /\ forall i a, nth_error l i = Some a ->
         exists b, nth_error bs i = Some b /\ f a = Ok b.
Proof.
  induction l as [| a l IH]; intros Hf.
  - exists []. split; [reflexivity |]. split; [reflexivity |].
    intros [| i] a H; discriminate.
  - destruct (Hf a (or_introl eq_refl)) as [b Hb].
    destruct IH as [bs [Hbs [Hlen Hnth]]].
    { intros a' Ha'. apply Hf. now right. }
    exists (b :: bs). cbn [mapM]. rewrite Hb. cbn [bind].
    rewrite Hbs. cbn [bind]. split; [reflexivity |].
    split; [cbn; now rewrite Hlen |].
    intros [| i] a' H; cbn in H |- *.
    + injection H as <-. exists b. auto.
    + now apply Hnth.
Qed.

Lemma nth_error_seq0 (n i : nat) :
  (i < n)%nat -> nth_error (seq 0 n) i = Some i.
Proof.
  intros Hi.
  rewrite (nth_error_nth' (seq 0 n) 0%nat) by (rewrite length_seq; exact Hi).
  now rewrite seq_nth.
Qed.

Lemma Encoder_init_ok (V max_len h E : nat) (rate : R) (N : nat)
      (rnd_emb : list nat -> R) (rnd_layers : nat -> encoder_layer_random) :
  (0 < h)%nat -> 0 <= rate <= 1 ->
  exists enc,
    Encoder_init V max_len h E rate N rnd_emb rnd_layers = Ok enc
    /\ enc_N enc = N
    /\ enc_embedding enc = Embedding_init V E rnd_emb
    /\ PositionalEncoding_init max_len E = Ok (enc_positionalEncoding enc)
    /\ forall i, (i < N)%nat ->
         exists layer,
           nth_error (encoder_layers enc) i = Some layer
           /\ EncoderLayer_init h E rate (rnd_layers i) = Ok layer.
Proof.
  intros Hh Hrate. unfold Encoder_init.
  destruct (PositionalEncoding_init_table max_len E) as [pe [Hpe _]].
  rewrite Hpe. cbn [bind].
  destruct (mapM_ok (fun i => EncoderLayer_init h E rate (rnd_layers i))
              (seq 0 N)) as [layers [Hl [_ Hnth]]].
  { intros i _. now apply EncoderLayer_init_ok. }
  rewrite Hl. cbn [bind].
  eexists. split; [reflexivity |]. cbn.
  repeat split; try reflexivity.
  intros i Hi. apply Hnth. now apply nth_error_seq0.
Qed.

Lemma encoder_layers_loop (h E : nat) (rate : R)
      (rnd_layers : nat -> encoder_layer_random)
      (layers : list EncoderLayer) (N : nat)
      (x_mask : option (tensor bool)) (B L : nat) (x : tensor R) :
  (0 < h)%nat -> 0 <= rate <= 1 -> E = (h * (E / h))%nat ->
  (forall i, (i < N)%nat ->
     exists layer,
       nth_error layers i = Some layer
       /\ EncoderLayer_init h E rate (rnd_layers i) = Ok layer) ->
  mask_fits x_mask B L L ->
  shape x = [B; L; E] ->
  exists out,
    foldM (fun out i =>
             layer <- sequential_get layers i ;;
             EncoderLayer_forward layer out x_mask)
          (seq 0 N) x = Ok out
    /\ shape out = [B; L; E].
Proof.
  intros Hh Hrate Hdiv Hlayers Hm Hx.
  apply (foldM_seq_inv
           (fun out i =>
              layer <- sequential_get layers i ;;
              EncoderLayer_forward layer out x_mask)
           (fun (_ : nat) t => shape t = [B; L; E]) N x Hx).
  intros k t Hk Ht.
  destruct (Hlayers k Hk) as [layer [Hnth Hinit]].
  unfold sequential_get. rewrite Hnth. cbn [bind].
  exact (EncoderLayer_forward_built h E rate (rnd_layers k) layer t x_mask
           B L Hinit Hh Hrate Hdiv Ht Hm).
Qed.

(** X16: An encoder built by its constructor with [head > 0], a dropout rate
    in [[0, 1]] and [embedding_dim] a multiple of [head] accepts every batch
    of [max_len] token ids within the vocabulary, with a fitting mask, and
    returns a representation of shape [(B, max_len, E)], for any number of
    layers. *)
Theorem encoder_forward_shape (V max_len h E : nat) (rate : R) (N : nat)
      (rnd_emb : list nat -> R) (rnd_layers : nat -> encoder_layer_random)
      (x : tensor Z) (x_mask : option (tensor bool)) (B : nat) :
  (0 < h)%nat -> 0 <= rate <= 1 -> E = (h * (E / h))%nat ->
  shape x = [B; max_len] ->
  (forall b pos, (b < B)%nat -> (pos < max_len)%nat ->
     (0 <= get x [b; pos] < Z.of_nat V)%Z) ->
  mask_fits x_mask B max_len max_len ->
  exists enc out,
    Encoder_init V max_len h E rate N rnd_emb rnd_layers = Ok enc
    /\ Encoder_forward enc x x_mask = Ok out
    /\ shape out = [B; max_len; E].
Proof.
  intros Hh Hrate Hdiv Hx Hrange Hm.
  destruct (Encoder_init_ok V max_len h E rate N rnd_emb rnd_layers Hh Hrate)
    as [enc [Hinit [HN [Hemb [Hpe Hlayers]]]]].
  exists enc.
  destruct (PositionalEncoding_init_table max_len E) as [pe [Hpe' [Hsh _]]].
  assert (pe = enc_positionalEncoding enc) by congruence. subst pe.
  destruct (embed_then_encode (enc_embedding enc) (enc_positionalEncoding enc)
              x B max_len E Hx) as [e [Ee [Se _]]];
    try (rewrite Hemb; cbn); try assumption; try reflexivity.
  destruct (encoder_layers_loop h E rate rnd_layers (encoder_layers enc) N
              x_mask B max_len e Hh Hrate Hdiv Hlayers Hm Se)
    as [out [Eo So]].
  exists out. split; [exact Hinit |]. split; [| exact So].
  unfold Encoder_forward, Encoder_embed. rewrite Ee. cbn [bind].
  rewrite HN. exact Eo.
Qed.

Lemma encoder_forward_shape_witness :
  exists enc out,
    Encoder_init 5 3 2 4 (1 / 10) 2 (fun _ => 0) (fun _ => enc_layer_rnd0)
    = Ok enc
    /\ Encoder_forward enc (full [2; 3]%nat 4%Z)
         (Some (full [2; 1; 3]%nat true)) = Ok out
    /\ shape out = [2; 3; 4]%nat.
Proof.
  apply (encoder_forward_shape 5 3 2 4 (1 / 10) 2 (fun _ => 0)
           (fun _ => enc_layer_rnd0) (full [2; 3]%nat 4%Z)
           (Some (full [2; 1; 3]%nat true)) 2);
    try reflexivity; try lia; try lra.
  - intros b pos _ _. cbn. lia.
  - exists 1%nat. split; [reflexivity | left; reflexivity].
Defined.

Lemma all_indices_rank2_in (B M b pos : nat) :
  (b < B)%nat -> (pos < M)%nat -> In [b; pos] (all_indices [B; M]).
Proof.
  intros Hb Hp. cbn [all_indices].
  apply in_flat_map. exists b. split; [apply in_seq; lia |].
  apply in_map. apply in_flat_map. exists pos.
  split; [apply in_seq; lia |]. now left.
Qed.

Lemma Embedding_forward_out_of_range (self : Embedding) (x : tensor Z)
      (B M b pos : nat) :
  shape x = [B; M] -> (b < B)%nat -> (pos < M)%nat ->
  (get x [b; pos] < 0 \/ Z.of_nat (num_embeddings self) <= get x [b; pos])%Z ->
  Embedding_forward self x = Err IndexError.
Proof.
  intros Hx Hb Hp Hbad. unfold Embedding_forward.
  destruct (forallb _ (all_indices (shape x))) eqn:Hall; [| reflexivity].
  exfalso. rewrite forallb_forall in Hall.
  specialize (Hall [b; pos]). rewrite Hx in Hall.
  specialize (Hall (all_indices_rank2_in B M b pos Hb Hp)).
  apply andb_true_iff in Hall. destruct Hall as [H1 H2].
  apply Z.leb_le in H1. apply Z.ltb_lt in H2. lia.
Qed.

(** X18: A source token id outside the vocabulary makes the embedding lookup
    raise; the encoder and the whole model stop there, whatever their
    weights. *)
Theorem source_token_out_of_range_raises (self : Transformer) (x : tensor Z)
      (x_mask : option (tensor bool)) (target : tensor Z)
      (target_mask : option (tensor bool)) (B M b pos : nat) :
  shape x = [B; M] -> (b < B)%nat -> (pos < M)%nat ->
  (get x [b; pos] < 0
   \/ Z.of_nat (num_embeddings (enc_embedding (tr_encoder self)))
      <= get x [b; pos])%Z ->
  Encoder_forward (tr_encoder self) x x_mask = Err IndexError
  /\ Transformer_forward self x x_mask target target_mask = Err IndexError.
Proof.
  intros Hx Hb Hp Hbad.
  assert (He : Encoder_forward (tr_encoder self) x x_mask = Err IndexError).
  { unfold Encoder_forward, Encoder_embed.
    now rewrite (Embedding_forward_out_of_range _ x B M b pos Hx Hb Hp Hbad). }
  split; [exact He |].
  unfold Transformer_forward. now rewrite He.
Qed.

(** X17: An encoder only accepts sequences of exactly [max_len] tokens: for any
    other length (both lengths different from 1) the positional table does
    not broadcast and the call raises. *)
Theorem encoder_rejects_other_lengths (V max_len h E : nat) (rate : R)
      (N : nat) (rnd_emb : list nat -> R)
      (rnd_layers : nat -> encoder_layer_random)
      (x : tensor Z) (x_mask : option (tensor bool)) (B L : nat) :
  (0 < h)%nat -> 0 <= rate <= 1 ->
  shape x = [B; L] ->
  (forall b pos, (b < B)%nat -> (pos < L)%nat ->
     (0 <= get x [b; pos] < Z.of_nat V)%Z) ->
  L <> max_len -> L <> 1%nat -> max_len <> 1%nat ->
  exists enc,
    Encoder_init V max_len h E rate N rnd_emb rnd_layers = Ok enc
    /\ Encoder_forward enc x x_mask = Err RuntimeError.
Proof.
  intros Hh Hrate Hx Hrange HL HL1 HM1.
  destruct (Encoder_init_ok V max_len h E rate N rnd_emb rnd_layers Hh Hrate)
    as [enc [Hinit [_ [Hemb [Hpe _]]]]].
  exists enc. split; [exact Hinit |].
  destruct (PositionalEncoding_init_table max_len E) as [pe [Hpe' [Hsh _]]].
  assert (pe = enc_positionalEncoding enc) by congruence. subst pe.
  unfold Encoder_forward, Encoder_embed.
  destruct (Embedding_forward_rank2 (enc_embedding enc) x B L E Hx)
    as [e [Ee [Se _]]].
  { rewrite Hemb. reflexivity. }
  { rewrite Hemb. exact Hrange. }
  rewrite Ee. cbn [bind]. unfold PositionalEncoding_forward.
  now rewrite (tadd_table_length_clash B L E max_len E e _ Se Hsh HL HL1 HM1).
Qed.

Lemma encoder_rejects_other_lengths_witness :
  exists enc,
    Encoder_init 5 4 2 4 (1 / 10) 1 (fun _ => 0) (fun _ => enc_layer_rnd0)
    = Ok enc
    /\ Encoder_forward enc (full [2; 3]%nat 4%Z) None = Err RuntimeError.
Proof.
  apply (encoder_rejects_other_lengths 5 4 2 4 (1 / 10) 1 (fun _ => 0)
           (fun _ => enc_layer_rnd0) (full [2; 3]%nat 4%Z) None 2 3);
    try reflexivity; try lia; try lra.
  intros b pos _ _. cbn. lia.
Defined.

(** ** DecoderLayer *)

Lemma DecoderLayer_init_parts (h E : nat) (rate : R)
      (rnd : decoder_layer_random) (layer : DecoderLayer) :
  DecoderLayer_init h E rate rnd = Ok layer ->
  MultiHeadAttention_init h E rate (rnd_dec_mha1 rnd)
  = Ok (multi_head_attention1 layer)
  /\ MultiHeadAttention_init h E rate (rnd_dec_mha2 rnd)
     = Ok (multi_head_attention2 layer)
  /\ FeedForward_init E rate (rnd_dec_ff rnd) = Ok (feed_forward layer)
  /\ layer_norm1 layer = LayerNorm_init E default_eps
  /\ layer_norm2 layer = LayerNorm_init E default_eps
  /\ layer_norm3 layer = LayerNorm_init E default_eps.
Proof.
  unfold DecoderLayer_init. intros H.
  apply bind_ok_inv in H. destruct H as [m1 [H1 H]].
  apply bind_ok_inv in H. destruct H as [m2 [H2 H]].
  apply bind_ok_inv in H. destruct H as [ff [Hf H]].
  injection H as <-. cbn. repeat split; assumption.
Qed.

Lemma DecoderLayer_init_ok (h E : nat) (rate : R)
      (rnd : decoder_layer_random) :
  (0 < h)%nat -> 0 <= rate <= 1 ->
  exists layer, DecoderLayer_init h E rate rnd = Ok layer.
Proof.
  intros Hh Hrate. unfold DecoderLayer_init.
  destruct (MultiHeadAttention_init_ok h E rate (rnd_dec_mha1 rnd) Hh)
    as [m1 [H1 _]]; [lra |].
  destruct (MultiHeadAttention_init_ok h E rate (rnd_dec_mha2 rnd) Hh)
    as [m2 [H2 _]]; [lra |].
  destruct (FeedForward_init_ok E rate (rnd_dec_ff rnd) Hrate) as [ff [Hf _]].
  rewrite H1. cbn [bind]. rewrite H2. cbn [bind]. rewrite Hf. cbn [bind].
  eexists. reflexivity.
Qed.

Lemma DecoderLayer_stage1_built (h E : nat) (rate : R)
      (rnd : decoder_layer_random) (layer : DecoderLayer)
      (target : tensor R) (target_mask : option (tensor bool)) (B L : nat) :
  DecoderLayer_init h E rate rnd = Ok layer ->
  (0 < h)%nat -> 0 <= rate <= 1 -> E = (h * (E / h))%nat ->
  shape target = [B; L; E] ->
  mask_fits target_mask B L L ->
  exists out,
    DecoderLayer_stage1 layer target target_mask = Ok out
    /\ shape out = [B; L; E].
Proof.
  intros Hlayer Hh Hrate Hdiv Ht Hm.
  destruct (DecoderLayer_init_parts h E rate rnd layer Hlayer)
    as [H1 [_ [_ [Hln1 _]]]].
  unfold DecoderLayer_stage1.
  destruct (MultiHeadAttention_forward_built h E rate (rnd_dec_mha1 rnd)
              (multi_head_attention1 layer) target target target target_mask
              B L H1 Hh) as [a [Ea Sa]]; try assumption; [lra |].
  rewrite Ea. cbn [bind]. rewrite Hln1.
  exact (residual_layer_norm_shape a target B L E Sa Ht).
Qed.

Lemma DecoderLayer_forward_built (h E : nat) (rate : R)
      (rnd : decoder_layer_random) (layer : DecoderLayer)
      (encoder_out target : tensor R)
      (x_mask target_mask : option (tensor bool)) (B L : nat) :
  DecoderLayer_init h E rate rnd = Ok layer ->
  (0 < h)%nat -> 0 <= rate <= 1 -> E = (h * (E / h))%nat ->
  shape encoder_out = [B; L; E] ->
  shape target = [B; L; E] ->
  mask_fits x_mask B L L ->
  mask_fits target_mask B L L ->
  exists out,
    DecoderLayer_forward layer encoder_out target x_mask target_mask = Ok out
    /\ shape out = [B; L; E].
Proof.
  intros Hlayer Hh Hrate Hdiv He Ht Hxm Htm.
  destruct (DecoderLayer_init_parts h E rate rnd layer Hlayer)
    as [_ [H2 [Hff [_ [Hln2 Hln3]]]]].
  unfold DecoderLayer_forward.
  destruct (DecoderLayer_stage1_built h E rate rnd layer target target_mask
              B L Hlayer Hh Hrate Hdiv Ht Htm) as [o1 [E1 S1]].
  rewrite E1. cbn [bind].
  unfold DecoderLayer_stage2.
  destruct (MultiHeadAttention_forward_built h E rate (rnd_dec_mha2 rnd)
              (multi_head_attention2 layer) encoder_out encoder_out o1 x_mask
              B L H2 Hh) as [a [Ea Sa]]; try assumption; [lra |].
  rewrite Ea. cbn [bind]. rewrite Hln2.
  destruct (residual_layer_norm_shape a o1 B L E Sa S1) as [o2 [E2 S2]].
  apply bind_ok_inv in E2. destruct E2 as [s2 [Es2 El2]].
  rewrite Es2. cbn [bind]. rewrite El2. cbn [bind].
  unfold DecoderLayer_stage3.
  destruct (FeedForward_forward_built E rate (rnd_dec_ff rnd)
              (feed_forward layer) o2 B L Hff Hrate S2) as [f [Ef Sf]].
  rewrite Ef. cbn [bind]. rewrite Hln3.
  exact (residual_layer_norm_shape f o2 B L E Sf S2).
Qed.

(** X19: A decoder layer built by its constructor with [head > 0], a dropout
    rate in [[0, 1]] and [embedding_dim] a multiple of [head] returns a
    tensor of the target's shape when the encoder output has that same shape
    and both masks fit. *)
Theorem decoder_layer_preserves_shape (h E : nat) (rate : R)
      (rnd : decoder_layer_random) (encoder_out target : tensor R)
      (x_mask target_mask : option (tensor bool)) (B L : nat) :
  (0 < h)%nat -> 0 <= rate <= 1 -> E = (h * (E / h))%nat ->
  shape encoder_out = [B; L; E] ->
  shape target = [B; L; E] ->
  mask_fits x_mask B L L ->
  mask_fits target_mask B L L ->
  exists layer out,
    DecoderLayer_init h E rate rnd = Ok layer
    /\ DecoderLayer_forward layer encoder_out target x_mask target_mask
       = Ok out
    /\ shape out = shape target.
Proof.
  intros Hh Hrate Hdiv He Ht Hxm Htm.
  destruct (DecoderLayer_init_ok h E rate rnd Hh Hrate) as [layer Hlayer].
  destruct (DecoderLayer_forward_built h E rate rnd layer encoder_out target
              x_mask target_mask B L Hlayer Hh Hrate Hdiv He Ht Hxm Htm)
    as [out [Eo So]].
  exists layer, out. split; [exact Hlayer |]. split; [exact Eo |].
  now rewrite So, Ht.
Qed.

Lemma decoder_layer_preserves_shape_witness :
  exists layer out,
    DecoderLayer_init 2 4 (1 / 10) dec_layer_rnd0 = Ok layer
    /\ DecoderLayer_forward layer (zeros [1; 3; 4]%nat) (zeros [1; 3; 4]%nat)
         (Some (full [1; 1; 3]%nat true)) (Some (full [1; 3; 3]%nat true))
       = Ok out
    /\ shape out = shape (zeros [1; 3; 4]%nat).
Proof.
  apply (decoder_layer_preserves_shape 2 4 (1 / 10) dec_layer_rnd0
           (zeros [1; 3; 4]%nat) (zeros [1; 3; 4]%nat)
           (Some (full [1; 1; 3]%nat true)) (Some (full [1; 3; 3]%nat true))
           1 3);
    try reflexivity; try lia; try lra.
  - exists 1%nat. split; [reflexivity | left; reflexivity].
  - exists 3%nat. split; [reflexivity | right; reflexivity].
Defined.

(** X20: The cross-attention of the code reshapes the stage-1 output with the
    encoder output's sequence length, so a decoder layer raises whenever the
    source and target sequence lengths differ. *)
Theorem decoder_layer_needs_equal_lengths (h E : nat) (rate : R)
      (rnd : decoder_layer_random) (encoder_out target : tensor R)
      (x_mask target_mask : option (tensor bool)) (B S T : nat) :
  (0 < h)%nat -> 0 <= rate <= 1 -> E = (h * (E / h))%nat ->
  (0 < B)%nat -> (0 < E)%nat ->
  shape encoder_out = [B; S; E] ->
  shape target = [B; T; E] ->
  mask_fits target_mask B T T ->
  S <> T ->
  exists layer,
    DecoderLayer_init h E rate rnd = Ok layer
    /\ DecoderLayer_forward layer encoder_out target x_mask target_mask
       = Err RuntimeError.
Proof.
  intros Hh Hrate Hdiv HB HE He Ht Htm HST.
  destruct (DecoderLayer_init_ok h E rate rnd Hh Hrate) as [layer Hlayer].
  exists layer. split; [exact Hlayer |].
  destruct (DecoderLayer_init_parts h E rate rnd layer Hlayer)
    as [_ [H2 _]].
  unfold DecoderLayer_forward.
  destruct (DecoderLayer_stage1_built h E rate rnd layer target target_mask
              B T Hlayer Hh Hrate Hdiv Ht Htm) as [o1 [E1 S1]].
  rewrite E1. cbn [bind]. unfold DecoderLayer_stage2.
  destruct (MultiHeadAttention_forward_length_clash h E rate
              (rnd_dec_mha2 rnd) encoder_out encoder_out o1 x_mask B S S T Hh)
    as [mha [Hm Hf]]; try assumption; [lra | right; congruence |].
  assert (mha = multi_head_attention2 layer) by congruence. subst mha.
  now rewrite Hf.
Qed.

Lemma decoder_layer_needs_equal_lengths_witness :
  exists layer,
    DecoderLayer_init 2 4 (1 / 10) dec_layer_rnd0 = Ok layer
    /\ DecoderLayer_forward layer (zeros [1; 5; 4]%nat) (zeros [1; 3; 4]%nat)
         (Some (full [1; 1; 5]%nat true)) (Some (full [1; 3; 3]%nat true))
       = Err RuntimeError.
Proof.
  apply (decoder_layer_needs_equal_lengths 2 4 (1 / 10) dec_layer_rnd0
           (zeros [1; 5; 4]%nat) (zeros [1; 3; 4]%nat)
           (Some (full [1; 1; 5]%nat true)) (Some (full [1; 3; 3]%nat true))
           1 5 3);
    try reflexivity; try lia; try lra.
  exists 3%nat. split; [reflexivity | right; reflexivity].
Defined.

(** ** Decoder and Transformer *)

Lemma Decoder_init_ok (V max_len h E : nat) (rate : R) (N : nat)
      (rnd_emb : list nat -> R) (rnd_layers : nat -> decoder_layer_random) :
  (0 < h)%nat -> 0 <= rate <= 1 ->
  exists dec,
    Decoder_init V max_len h E rate N rnd_emb rnd_layers = Ok dec
    /\ dec_N dec = N
    /\ dec_embedding dec = Embedding_init V E rnd_emb
    /\ PositionalEncoding_init max_len E = Ok (dec_positionalEncoding dec)
    /\ forall i, (i < N)%nat ->
         exists layer,
           nth_error (decoder_layers dec) i = Some layer
           /\ DecoderLayer_init h E rate (rnd_layers i) = Ok layer.
Proof.
  intros Hh Hrate. unfold Decoder_init.
  destruct (PositionalEncoding_init_table max_len E) as [pe [Hpe _]].
  rewrite Hpe. cbn [bind].
  destruct (mapM_ok (fun i => DecoderLayer_init h E rate (rnd_layers i))
              (seq 0 N)) as [layers [Hl [_ Hnth]]].
  { intros i _. now apply DecoderLayer_init_ok. }
  rewrite Hl. cbn [bind].
  eexists. split; [reflexivity |]. cbn.
  repeat split; try reflexivity.
  intros i Hi. apply Hnth. now apply nth_error_seq0.
Qed.

Lemma Decoder_forward_built (V max_len h E : nat) (rate : R) (N : nat)
      (rnd_emb : list nat -> R) (rnd_layers : nat -> decoder_layer_random)
      (dec : Decoder) (encoder_out : tensor R) (x : tensor Z)
      (x_mask target_mask : option (tensor bool)) (B : nat) :
  Decoder_init V max_len h E rate N rnd_emb rnd_layers = Ok dec ->
  (0 < h)%nat -> 0 <= rate <= 1 -> E = (h * (E / h))%nat ->
  shape encoder_out = [B; max_len; E] ->
  shape x = [B; max_len] ->
  (forall b pos, (b < B)%nat -> (pos < max_len)%nat ->
     (0 <= get x [b; pos] < Z.of_nat V)%Z) ->
  mask_fits x_mask B max_len max_len ->
  mask_fits target_mask B max_len max_len ->
  exists out,
    Decoder_forward dec encoder_out x x_mask target_mask = Ok out
    /\ shape out = [B; max_len; E].
Proof.
  intros Hdec Hh Hrate Hdiv He Hx Hrange Hxm Htm.
  destruct (Decoder_init_ok V max_len h E rate N rnd_emb rnd_layers Hh Hrate)
    as [dec' [Hinit [HN [Hemb [Hpe Hlayers]]]]].
  assert (dec' = dec) by congruence. subst dec'.
  destruct (PositionalEncoding_init_table max_len E) as [pe [Hpe' [Hsh _]]].
  assert (pe = dec_positionalEncoding dec) by congruence. subst pe.
  destruct (embed_then_encode (dec_embedding dec) (dec_positionalEncoding dec)
              x B max_len E Hx) as [e [Ee [Se _]]].
  { rewrite Hemb. reflexivity. }
  { exact Hsh. }
  { rewrite Hemb. exact Hrange. }
  unfold Decoder_forward, Decoder_embed. rewrite Ee. cbn [bind]. rewrite HN.
  apply (foldM_seq_inv
           (fun out i =>
              layer <- sequential_get (decoder_layers dec) i ;;
              DecoderLayer_forward layer encoder_out out x_mask target_mask)
           (fun (_ : nat) t => shape t = [B; max_len; E]) N e Se).
  intros k t Hk Ht.
  destruct (Hlayers k Hk) as [layer [Hnth Hl]].
  unfold sequential_get. rewrite Hnth. cbn [bind].
  exact (DecoderLayer_forward_built h E rate (rnd_layers k) layer
           encoder_out t x_mask target_mask B max_len Hl Hh Hrate Hdiv
           He Ht Hxm Htm).
Qed.

Lemma Encoder_forward_built (V max_len h E : nat) (rate : R) (N : nat)
      (rnd_emb : list nat -> R) (rnd_layers : nat -> encoder_layer_random)
      (enc : Encoder) (x : tensor Z) (x_mask : option (tensor bool))
      (B : nat) :
  Encoder_init V max_len h E rate N rnd_emb rnd_layers = Ok enc ->
  (0 < h)%nat -> 0 <= rate <= 1 -> E = (h * (E / h))%nat ->
  shape x = [B; max_len] ->
  (forall b pos, (b < B)%nat -> (pos < max_len)%nat ->
     (0 <= get x [b; pos] < Z.of_nat V)%Z) ->
  mask_fits x_mask B max_len max_len ->
  exists out,
    Encoder_forward enc x x_mask = Ok out /\ shape out = [B; max_len; E].
Proof.
  intros Henc Hh Hrate Hdiv Hx Hrange Hm.
  destruct (Encoder_init_ok V max_len h E rate N rnd_emb rnd_layers Hh Hrate)
    as [enc' [Hinit [HN [Hemb [Hpe Hlayers]]]]].
  assert (enc' = enc) by congruence. subst enc'.
  destruct (PositionalEncoding_init_table max_len E) as [pe [Hpe' [Hsh _]]].
  assert (pe = enc_positionalEncoding enc) by congruence. subst pe.
  destruct (embed_then_encode (enc_embedding enc) (enc_positionalEncoding enc)
              x B max_len E Hx) as [e [Ee [Se _]]].
  { rewrite Hemb. reflexivity. }
  { exact Hsh. }
  { rewrite Hemb. exact Hrange. }
  unfold Encoder_forward, Encoder_embed. rewrite Ee. cbn [bind]. rewrite HN.
  exact (encoder_layers_loop h E rate rnd_layers (encoder_layers enc) N
           x_mask B max_len e Hh Hrate Hdiv Hlayers Hm Se).
Qed.

(** X21: A decoder built by its constructor with [head > 0], a dropout rate
    in [[0, 1]] and [embedding_dim] a multiple of [head], given an encoder
    output of shape [(B, max_len, E)], [max_len] target ids within the
    vocabulary and fitting masks, returns a tensor of shape
    [(B, max_len, E)]. *)
Theorem decoder_forward_shape (V max_len h E : nat) (rate : R) (N : nat)
      (rnd_emb : list nat -> R) (rnd_layers : nat -> decoder_layer_random)
      (encoder_out : tensor R) (x : tensor Z)
      (x_mask target_mask : option (tensor bool)) (B : nat) :
  (0 < h)%nat -> 0 <= rate <= 1 -> E = (h * (E / h))%nat ->
  shape encoder_out = [B; max_len; E] ->
  shape x = [B; max_len] ->
  (forall b pos, (b < B)%nat -> (pos < max_len)%nat ->
     (0 <= get x [b; pos] < Z.of_nat V)%Z) ->
  mask_fits x_mask B max_len max_len ->
  mask_fits target_mask B max_len max_len ->
  exists dec out,
    Decoder_init V max_len h E rate N rnd_emb rnd_layers = Ok dec
    /\ Decoder_forward dec encoder_out x x_mask target_mask = Ok out
    /\ shape out = [B; max_len; E].
Proof.
  intros Hh Hrate Hdiv He Hx Hrange Hxm Htm.
  destruct (Decoder_init_ok V max_len h E rate N rnd_emb rnd_layers Hh Hrate)
    as [dec [Hinit _]].
  destruct (Decoder_forward_built V max_len h E rate N rnd_emb rnd_layers dec
              encoder_out x x_mask target_mask B Hinit Hh Hrate Hdiv He Hx
              Hrange Hxm Htm) as [out [Eo So]].
  exists dec, out. auto.
Qed.

Lemma decoder_forward_shape_witness :
  exists dec out,
    Decoder_init 5 3 2 4 (1 / 10) 2 (fun _ => 0) (fun _ => dec_layer_rnd0)
    = Ok dec
    /\ Decoder_forward dec (zeros [2; 3; 4]%nat) (full [2; 3]%nat 4%Z)
         (Some (full [2; 1; 3]%nat true)) (Some (full [2; 3; 3]%nat true))
       = Ok out
    /\ shape out = [2; 3; 4]%nat.
Proof.
  apply (decoder_forward_shape 5 3 2 4 (1 / 10) 2 (fun _ => 0)
           (fun _ => dec_layer_rnd0) (zeros [2; 3; 4]%nat)
           (full [2; 3]%nat 4%Z)
           (Some (full [2; 1; 3]%nat true)) (Some (full [2; 3; 3]%nat true))
           2);
    try reflexivity; try lia; try lra.
  - intros b pos _ _. cbn. lia.
  - exists 1%nat. split; [reflexivity | left; reflexivity].
  - exists 3%nat. split; [reflexivity | right; reflexivity].
Defined.

Lemma Transformer_init_ok (Vs Vt max_len h E : nat) (rate : R) (N : nat)
      (rnd : transformer_random) :
  (0 < h)%nat -> 0 <= rate <= 1 ->
  exists self,
    Transformer_init Vs Vt max_len h E rate N rnd = Ok self
    /\ Encoder_init Vs max_len h E rate N (rnd_src_emb rnd)
         (rnd_enc_layers rnd) = Ok (tr_encoder self)
    /\ Decoder_init Vt max_len h E rate N (rnd_tgt_emb rnd)
         (rnd_dec_layers rnd) = Ok (tr_decoder self)
    /\ in_features (tr_out self) = E
    /\ out_features (tr_out self) = Vt.
Proof.
  intros Hh Hrate. unfold Transformer_init.
  destruct (Encoder_init_ok Vs max_len h E rate N (rnd_src_emb rnd)
              (rnd_enc_layers rnd) Hh Hrate) as [enc [He _]].
  destruct (Decoder_init_ok Vt max_len h E rate N (rnd_tgt_emb rnd)
              (rnd_dec_layers rnd) Hh Hrate) as [dec [Hd _]].
  rewrite He. cbn [bind]. rewrite Hd. cbn [bind].
  eexists. split; [reflexivity |]. cbn. repeat split; assumption.
Qed.

(** X22: The public contract of the model, for a model built with
    [head > 0], a dropout rate in [[0, 1]] and [embedding_dim] a multiple of
    [head]: for source and target batches of [max_len] token ids within
    their vocabularies, a padding mask for the source and a causal mask for
    the target, the forward call returns logits of shape
    [(B, max_len, target_size)]. *)
Theorem transformer_forward_logits_shape (Vs Vt max_len h E : nat) (rate : R)
      (N : nat) (rnd : transformer_random)
      (x target : tensor Z) (x_mask target_mask : option (tensor bool))
      (B : nat) :
  (0 < h)%nat -> 0 <= rate <= 1 -> E = (h * (E / h))%nat ->
  shape x = [B; max_len] ->
  shape target = [B; max_len] ->
  (forall b pos, (b < B)%nat -> (pos < max_len)%nat ->
     (0 <= get x [b; pos] < Z.of_nat Vs)%Z) ->
  (forall b pos, (b < B)%nat -> (pos < max_len)%nat ->
     (0 <= get target [b; pos] < Z.of_nat Vt)%Z) ->
  mask_fits x_mask B max_len max_len ->
  mask_fits target_mask B max_len max_len ->
  exists self logits,
    Transformer_init Vs Vt max_len h E rate N rnd = Ok self
    /\ Transformer_forward self x x_mask target target_mask = Ok logits
    /\ shape logits = [B; max_len; Vt].
Proof.
  intros Hh Hrate Hdiv Hx Ht Hrx Hrt Hxm Htm.
  destruct (Transformer_init_ok Vs Vt max_len h E rate N rnd Hh Hrate)
    as [self [Hinit [Henc [Hdec [Hin Hout]]]]].
  destruct (Encoder_forward_built Vs max_len h E rate N _ _ (tr_encoder self)
              x x_mask B Henc Hh Hrate Hdiv Hx Hrx Hxm) as [eo [Ee Se]].
  destruct (Decoder_forward_built Vt max_len h E rate N _ _ (tr_decoder self)
              eo target x_mask target_mask B Hdec Hh Hrate Hdiv Se Ht Hrt
              Hxm Htm) as [d [Ed Sd]].
  destruct (Linear_forward_rank3 (tr_out self) d B max_len E Sd Hin)
    as [logits [El [Sl _]]].
  exists self, logits. split; [exact Hinit |].
  unfold Transformer_forward. rewrite Ee. cbn [bind]. rewrite Ed. cbn [bind].
  split; [exact El |]. now rewrite Sl, Hout.
Qed.

Lemma transformer_forward_logits_shape_witness :
  exists self logits,
    Transformer_init 23 23 4 2 4 (1 / 10) 1 transformer_rnd0 = Ok self
    /\ Transformer_forward self (full [2; 4]%nat 2%Z)
         (Some (full [2; 1; 4]%nat true)) (full [2; 4]%nat 3%Z)
         (Some (full [2; 4; 4]%nat true)) = Ok logits
    /\ shape logits = [2; 4; 23]%nat.
Proof.
  apply (transformer_forward_logits_shape 23 23 4 2 4 (1 / 10) 1
           transformer_rnd0 (full [2; 4]%nat 2%Z) (full [2; 4]%nat 3%Z)
           (Some (full [2; 1; 4]%nat true)) (Some (full [2; 4; 4]%nat true))
           2);
    try reflexivity; try lia; try lra.
  - intros b pos _ _. cbn. lia.
  - intros b pos _ _. cbn. lia.
  - exists 1%nat. split; [reflexivity | left; reflexivity].
  - exists 4%nat. split; [reflexivity | right; reflexivity].
Defined.

Lemma source_token_out_of_range_raises_witness :
  exists self,
    Transformer_init 23 23 4 2 4 (1 / 10) 1 transformer_rnd0 = Ok self
    /\ Encoder_forward (tr_encoder self) (full [2; 4]%nat 23%Z) None
       = Err IndexError
    /\ Transformer_forward self (full [2; 4]%nat 23%Z) None
         (full [2; 4]%nat 3%Z) None = Err IndexError.
Proof.
  destruct (Transformer_init_ok 23 23 4 2 4 (1 / 10) 1 transformer_rnd0)
    as [self [Hinit [Henc _]]]; [lia | lra |].
  exists self. split; [exact Hinit |].
  destruct (Encoder_init_ok 23 4 2 4 (1 / 10) 1 (rnd_src_emb transformer_rnd0)
              (rnd_enc_layers transformer_rnd0))
    as [enc [He [_ [Hemb _]]]]; [lia | lra |].
  assert (enc = tr_encoder self) by congruence. subst enc.
  apply (source_token_out_of_range_raises self (full [2; 4]%nat 23%Z) None
           (full [2; 4]%nat 3%Z) None 2 4 0 0);
    [reflexivity | lia | lia |].
  rewrite Hemb. cbn. lia.
Defined.

(** ** Constructor errors *)

(** X23: A negative dropout rate is accepted by the attention module, which then
    simply has no dropout, but rejected by the feed-forward block, whose
    [nn.Dropout] is always built: encoder and decoder layers cannot be
    constructed with it. *)
Theorem negative_dropout_rate_split (h E : nat) (rate : R)
      (rnd : mha_random) (rnd_e : encoder_layer_random)
      (rnd_d : decoder_layer_random) :
  (0 < h)%nat -> rate < 0 ->
  (exists mha,
     MultiHeadAttention_init h E rate rnd = Ok mha
     /\ sdpa_dropout (scaled_dot_product_attention mha) = None)
  /\ EncoderLayer_init h E rate rnd_e = Err ValueError
  /\ DecoderLayer_init h E rate rnd_d = Err ValueError.
Proof.
  intros Hh Hrate.
  assert (Hmha : forall r, exists mha,
            MultiHeadAttention_init h E rate r = Ok mha
            /\ sdpa_dropout (scaled_dot_product_attention mha) = None).
  { intros r. unfold MultiHeadAttention_init, ScaledDotProductAttention_init.
    destruct (Nat.eqb_spec h 0); [lia |]. cbn [bind].
    destruct (Rgt_dec rate 0); [lra |]. cbn [bind].
    eexists. split; reflexivity. }
  assert (Hff : forall r, FeedForward_init E rate r = Err ValueError).
  { intros r. unfold FeedForward_init, Dropout_init.
    destruct (Rlt_dec rate 0); [reflexivity | lra]. }
  split; [apply Hmha |]. split.
  - unfold EncoderLayer_init.
    destruct (Hmha (rnd_enc_mha rnd_e)) as [m [Hm _]].
    rewrite Hm. cbn [bind]. now rewrite Hff.
  - unfold DecoderLayer_init.
    destruct (Hmha (rnd_dec_mha1 rnd_d)) as [m1 [Hm1 _]].
    destruct (Hmha (rnd_dec_mha2 rnd_d)) as [m2 [Hm2 _]].
    rewrite Hm1. cbn [bind]. rewrite Hm2. cbn [bind]. now rewrite Hff.
Qed.

Lemma negative_dropout_rate_split_witness :
  (exists mha,
     MultiHeadAttention_init 2 4 (-1) rnd0 = Ok mha
     /\ sdpa_dropout (scaled_dot_product_attention mha) = None)
  /\ EncoderLayer_init 2 4 (-1) enc_layer_rnd0 = Err ValueError
  /\ DecoderLayer_init 2 4 (-1) dec_layer_rnd0 = Err ValueError.
Proof.
  apply (negative_dropout_rate_split 2 4 (-1) rnd0 enc_layer_rnd0
           dec_layer_rnd0); [lia | lra].
Defined.

(** X24: With a head count of 0 the first layer's [embedding_dim // head] raises,
    so a model with at least one layer cannot be built; with no layer at
    all nothing divides and construction succeeds. *)
Theorem zero_heads_raise_unless_no_layer (Vs Vt max_len E : nat) (rate : R)
      (N : nat) (rnd : transformer_random) :
  (0 < N)%nat ->
  Transformer_init Vs Vt max_len 0 E rate N rnd = Err ZeroDivisionError
  /\ exists self, Transformer_init Vs Vt max_len 0 E rate 0 rnd = Ok self.
Proof.
  intros HN. split.
  - unfold Transformer_init, Encoder_init.
    destruct (PositionalEncoding_init_table max_len E) as [pe [Hpe _]].
    rewrite Hpe. cbn [bind].
    destruct N as [| n]; [lia |].
    cbn [seq mapM]. unfold EncoderLayer_init at 1.
    unfold MultiHeadAttention_init. cbn [Nat.eqb bind]. reflexivity.
  - unfold Transformer_init, Encoder_init, Decoder_init.
    destruct (PositionalEncoding_init_table max_len E) as [pe [Hpe _]].
    rewrite Hpe. cbn [bind seq mapM].
    eexists. reflexivity.
Qed.

Lemma zero_heads_raise_unless_no_layer_witness :
  Transformer_init 23 23 4 0 4 (1 / 10) 6 transformer_rnd0
  = Err ZeroDivisionError
  /\ exists self,
       Transformer_init 23 23 4 0 4 (1 / 10) 0 transformer_rnd0 = Ok self.
Proof.
  apply (zero_heads_raise_unless_no_layer 23 23 4 4 (1 / 10) 6
           transformer_rnd0).
  lia.
Defined.

(** ** Errors of the attention kernel *)

(** X4: The kernel transposes axes 2 and 3 of the key, so a key of rank 3 or
    less, as in [(B, L, dk)], makes it raise before anything is computed. *)
Theorem kernel_rejects_low_rank_key (self : ScaledDotProductAttention)
      (query key value : tensor R) (mask : option (tensor bool)) :
  (length (shape key) <= 3)%nat ->
  ScaledDotProductAttention_forward self query key value mask
  = Err IndexError.
Proof.
  intros Hr. unfold ScaledDotProductAttention_forward, transpose, rank.
  destruct (Nat.ltb_spec 3 (length (shape key))) as [H | _]; [lia |].
  now rewrite andb_false_r.
Qed.

Lemma kernel_rejects_low_rank_key_witness :
  ScaledDotProductAttention_forward
    {| sdpa_dk := 2; sdpa_dropout_rate := 0; sdpa_dropout := None |}
    (zeros [1; 3; 2]%nat) (zeros [1; 3; 2]%nat) (zeros [1; 3; 2]%nat) None
  = Err IndexError.
Proof.
  apply (kernel_rejects_low_rank_key
           {| sdpa_dk := 2; sdpa_dropout_rate := 0; sdpa_dropout := None |}
           (zeros [1; 3; 2]%nat) (zeros [1; 3; 2]%nat) (zeros [1; 3; 2]%nat)
           None).
  cbn. lia.
Defined.

(** X5: A mask whose last axis is neither 1 nor the number of key positions
    cannot be broadcast against the scores: the kernel raises the shape
    error. *)
Theorem kernel_rejects_mask_of_other_length
      (self : ScaledDotProductAttention)
      (query key value : tensor R) (m : tensor bool)
      (B H Lq Lk D Bm Lm Lk' : nat) :
  shape query = [B; H; Lq; D] ->
  shape key = [B; H; Lk; D] ->
  shape m = [Bm; Lm; Lk'] ->
  Lk' <> Lk -> Lk' <> 1%nat -> Lk <> 1%nat ->
  ScaledDotProductAttention_forward self query key value (Some m)
  = Err RuntimeError.
Proof.
  intros Hq Hk Hm Hne H1 H1'.
  unfold ScaledDotProductAttention_forward.
  unfold transpose, rank. rewrite Hk.
  cbn [length Nat.ltb Nat.leb andb bind swap seq map nth Nat.eqb].
  match goal with
  | |- context [matmul query ?kt] =>
      destruct (matmul_rank4 query kt B H Lq D Lk Hq eq_refl)
        as [s [Es [Ss _]]]
  end.
  rewrite Es. cbn [bind].
  unfold unsqueeze, rank. rewrite Hm.
  cbn [length Nat.leb bind insert_at firstn skipn app].
  unfold masked_fill, tmap2, broadcast_shapes.
  cbn [tmap shape]. rewrite Ss. cbn [rev app broadcast_rev].
  now rewrite (broadcast_dim_clash Lk Lk') by auto.
Qed.

Lemma kernel_rejects_mask_of_other_length_witness :
  ScaledDotProductAttention_forward
    {| sdpa_dk := 1; sdpa_dropout_rate := 0; sdpa_dropout := None |}
    (zeros [1; 1; 2; 1]%nat) (zeros [1; 1; 2; 1]%nat)
    (zeros [1; 1; 2; 1]%nat) (Some (full [1; 1; 3]%nat true))
  = Err RuntimeError.
Proof.
  apply (kernel_rejects_mask_of_other_length
           {| sdpa_dk := 1; sdpa_dropout_rate := 0; sdpa_dropout := None |}
           (zeros [1; 1; 2; 1]%nat) (zeros [1; 1; 2; 1]%nat)
           (zeros [1; 1; 2; 1]%nat) (full [1; 1; 3]%nat true)
           1 1 2 2 1 1 1 3);
    try reflexivity; lia.
Defined.

(** ** MultiHeadAttention.forward, entry by entry *)

Lemma div_mod_block (n q r : nat) :
  (r < n)%nat -> ((q * n + r) / n = q /\ (q * n + r) mod n = r)%nat.
Proof.
  intros Hr. split.
  - symmetry. apply (Nat.div_unique (q * n + r) n q r); lia.
  - symmetry. apply (Nat.mod_unique (q * n + r) n q r); lia.
Qed.

(** Reading a [(B, L, E)] tensor through the shape [(B, L, h, dk)]. *)
Lemma unravel_split_heads (B L E h dk b i hh c : nat) :
  E = (h * dk)%nat -> (i < L)%nat -> (hh < h)%nat -> (c < dk)%nat ->
  unravel [B; L; E] (ravel [B; L; h; dk] [b; i; hh; c])
  = [b; i; hh * dk + c]%nat.
Proof.
  intros -> Hi Hh Hc.
  cbn [unravel ravel numel fold_right]. rewrite !Nat.mul_1_r, !Nat.add_0_r.
  assert (Hw : (hh * dk + c < h * dk)%nat) by nia.
  assert (Hr : (i * (h * dk) + (hh * dk + c) < L * (h * dk))%nat) by nia.
  destruct (div_mod_block (L * (h * dk)) b _ Hr) as [D1 M1].
  rewrite D1, M1.
  destruct (div_mod_block (h * dk) i _ Hw) as [D2 M2].
  rewrite D2, M2. now rewrite Nat.div_1_r.
Qed.

(** Reading a [(B, h, L, dk)] tensor through the shape [(B, L, E)]: the
    element at position [i], feature [c] is the one at row-major offset
    [i * E + c] of the [(h, L, dk)] block. *)
Lemma unravel_merge_heads (B L E h dk b i c : nat) :
  E = (h * dk)%nat -> (i < L)%nat -> (c < E)%nat ->
  unravel [B; h; L; dk] (ravel [B; L; E] [b; i; c])
  = [b; (i * E + c) / (L * dk); ((i * E + c) mod (L * dk)) / dk;
     ((i * E + c) mod (L * dk)) mod dk]%nat.
Proof.
  intros HE Hi Hc.
  cbn [unravel ravel numel fold_right]. rewrite !Nat.mul_1_r, !Nat.add_0_r.
  assert (Hr : (i * E + c < h * (L * dk))%nat) by (subst E; nia).
  replace (b * (L * E))%nat with (b * (h * (L * dk)))%nat by (subst E; ring).
  destruct (div_mod_block (h * (L * dk)) b _ Hr) as [D1 M1].
  rewrite D1, M1. now rewrite Nat.div_1_r.
Qed.

Lemma merge_heads_in_bounds (L E h dk i c : nat) :
  E = (h * dk)%nat -> (i < L)%nat -> (c < E)%nat ->
  ((i * E + c) / (L * dk) < h
   /\ ((i * E + c) mod (L * dk)) / dk < L
   /\ ((i * E + c) mod (L * dk)) mod dk < dk)%nat.
Proof.
  intros HE Hi Hc.
  assert (Hdk : (0 < dk)%nat) by (subst E; nia).
  assert (HL : (0 < L * dk)%nat) by nia.
  assert (Hr : (i * E + c < h * (L * dk))%nat) by (subst E; nia).
  split; [| split].
  - apply Nat.Div0.div_lt_upper_bound. lia.
  - apply Nat.Div0.div_lt_upper_bound.
    pose proof (Nat.mod_upper_bound (i * E + c) (L * dk)). lia.
  - apply Nat.mod_upper_bound. lia.
Qed.

(** The kernel formula only reads its arguments inside their bounds. *)
Lemma attention_ext (self : ScaledDotProductAttention)
      (q k v q' k' v' : tensor R) (mask : option (tensor bool))
      (B H Lq Lk D Dv b h i c : nat) :
  (forall b h i c, (b < B)%nat -> (h < H)%nat -> (i < Lq)%nat -> (c < D)%nat ->
     get q [b; h; i; c] = get q' [b; h; i; c]) ->
  (forall b h j c, (b < B)%nat -> (h < H)%nat -> (j < Lk)%nat -> (c < D)%nat ->
     get k [b; h; j; c] = get k' [b; h; j; c]) ->
  (forall b h j c, (b < B)%nat -> (h < H)%nat -> (j < Lk)%nat -> (c < Dv)%nat ->
     get v [b; h; j; c] = get v' [b; h; j; c]) ->
  (b < B)%nat -> (h < H)%nat -> (i < Lq)%nat -> (c < Dv)%nat ->
  AttentionSpec.attention self q k v mask D Lk b h i c
  = AttentionSpec.attention self q' k' v' mask D Lk b h i c.
Proof.
  intros Hq Hk Hv Hb Hh Hi Hc.
  assert (Hscore : forall j, (j < Lk)%nat ->
            AttentionSpec.masked_score self q k mask D b h i j
            = AttentionSpec.masked_score self q' k' mask D b h i j).
  { intros j Hj.
    assert (Hs : AttentionSpec.score self q k D b h i j
                 = AttentionSpec.score self q' k' D b h i j).
    { unfold AttentionSpec.score. f_equal. apply rsum_ext. intros d Hd.
      now rewrite (Hq b h i d), (Hk b h j d). }
    unfold AttentionSpec.masked_score. rewrite Hs. reflexivity. }
  assert (Hsoft : forall j, (j < Lk)%nat ->
            AttentionSpec.softmax_weight self q k mask D Lk b h i j
            = AttentionSpec.softmax_weight self q' k' mask D Lk b h i j).
  { intros j Hj. unfold AttentionSpec.softmax_weight.
    rewrite (Hscore j Hj). f_equal.
    apply rsum_ext. intros j' Hj'. now rewrite (Hscore j' Hj'). }
  unfold AttentionSpec.attention. apply rsum_ext. intros j Hj.
  rewrite (Hv b h j c) by assumption. f_equal.
  unfold AttentionSpec.weight_after_dropout. now rewrite (Hsoft j Hj).
Qed.

Lemma split_heads_entries (l : Linear) (x x0 x1 x2 : tensor R)
      (B L E h dk : nat) :
  E = (h * dk)%nat ->
  shape x = [B; L; E] -> in_features l = E -> out_features l = E ->
  Linear_forward l x = Ok x0 ->
  view x0 [B; L; h; dk] = Ok x1 ->
  transpose x1 1 2 = Ok x2 ->
  shape x2 = [B; h; L; dk]
  /\ forall b hh i c,
       (b < B)%nat -> (hh < h)%nat -> (i < L)%nat -> (c < dk)%nat ->
       get x2 [b; hh; i; c] = get (heads_of h dk l x) [b; hh; i; c].
Proof.
  intros HE Hx Hin Hout E0 E1 E2.
  destruct (Linear_forward_rank3 l x B L E Hx Hin) as [y0 [F0 [S0 G0]]].
  assert (y0 = x0) by congruence. subst y0. rewrite Hout in S0.
  destruct (view_ok x0 [B; L; h; dk]) as [y1 [F1 [S1 G1]]].
  { rewrite S0. symmetry. now apply numel_split. }
  assert (y1 = x1) by congruence. subst y1.
  destruct (transpose12_rank4 x1 _ _ _ _ S1) as [y2 [F2 [S2 G2]]].
  assert (y2 = x2) by congruence. subst y2.
  split; [exact S2 |].
  intros b hh i c Hb Hh Hi Hc.
  rewrite G2, G1, S0, (unravel_split_heads B L E h dk b i hh c HE Hi Hh Hc).
  rewrite G0. cbn [heads_of get nth]. unfold project. now rewrite Hin.
Qed.

Lemma MultiHeadAttention_forward_formula (h E : nat) (rate : R)
      (rnd : mha_random) (query key value : tensor R)
      (mask : option (tensor bool)) (B L b i o : nat) :
  (0 < h)%nat -> rate <= 1 -> E = (h * (E / h))%nat ->
  shape query = [B; L; E] ->
  shape key = [B; L; E] ->
  shape value = [B; L; E] ->
  mask_fits mask B L L ->
  (b < B)%nat -> (i < L)%nat ->
  exists self out,
    MultiHeadAttention_init h E rate rnd = Ok self
    /\ MultiHeadAttention_forward self query key value mask = Ok out
    /\ get out [b; i; o]
       = rsum E (fun c =>
           AttentionSpec.attention (scaled_dot_product_attention self)
             (heads_of h (E / h) (dense_query self) query)
             (heads_of h (E / h) (dense_key self) key)
             (heads_of h (E / h) (dense_value self) value)
             mask (E / h) L
             b
             ((i * E + c) / (L * (E / h)))
             (((i * E + c) mod (L * (E / h))) / (E / h))
             (((i * E + c) mod (L * (E / h))) mod (E / h))
           * get (weight (dense self)) [o; c])
         + get (bias (dense self)) [o].
Proof.
  intros Hh Hrate Hdiv Hq Hk Hv Hm Hb Hi.
  destruct (MultiHeadAttention_forward_ok h E rate rnd query key value mask
              B L B L B L Hh Hrate Hdiv Hq Hk Hv eq_refl eq_refl Hm)
    as [self [out [Hinit [Hf _]]]].
  exists self, out. split; [exact Hinit |]. split; [exact Hf |].
  destruct (MultiHeadAttention_init_ok h E rate rnd Hh Hrate)
    as [self' [Hinit' [HE [Hhead [Hdk [Hqi [Hqo [Hki [Hko [Hvi [Hvo
         [Hdi [Hdo [Hsdk Hdp]]]]]]]]]]]]]].
  assert (self' = self) by congruence. subst self'.
  set (dk := (E / h)%nat) in *.
  unfold MultiHeadAttention_forward in Hf.
  rewrite Hq, Hhead, Hdk, HE in Hf.
  apply bind_ok_inv in Hf. destruct Hf as [q0 [Eq0 Hf]].
  apply bind_ok_inv in Hf. destruct Hf as [q1 [Eq1 Hf]].
  apply bind_ok_inv in Hf. destruct Hf as [k0 [Ek0 Hf]].
  apply bind_ok_inv in Hf. destruct Hf as [k1 [Ek1 Hf]].
  apply bind_ok_inv in Hf. destruct Hf as [v0 [Ev0 Hf]].
  apply bind_ok_inv in Hf. destruct Hf as [v1 [Ev1 Hf]].
  apply bind_ok_inv in Hf. destruct Hf as [q2 [Eq2 Hf]].
  apply bind_ok_inv in Hf. destruct Hf as [k2 [Ek2 Hf]].
  apply bind_ok_inv in Hf. destruct Hf as [v2 [Ev2 Hf]].
  apply bind_ok_inv in Hf. destruct Hf as [a [Ea Hf]].
  apply bind_ok_inv in Hf. destruct Hf as [a1 [Ea1 Eo]].
  destruct (split_heads_entries _ query q0 q1 q2 B L E h dk Hdiv Hq Hqi Hqo
              Eq0 Eq1 Eq2) as [Sq2 Gq2].
  destruct (split_heads_entries _ key k0 k1 k2 B L E h dk Hdiv Hk Hki Hko
              Ek0 Ek1 Ek2) as [Sk2 Gk2].
  destruct (split_heads_entries _ value v0 v1 v2 B L E h dk Hdiv Hv Hvi Hvo
              Ev0 Ev1 Ev2) as [Sv2 Gv2].
  destruct (sdpa_forward_spec (scaled_dot_product_attention self)
              q2 k2 v2 mask B h L L dk dk Sq2 Sk2 Sv2 Hm Hdp)
    as [a' [Ea' [Sa Ga]]].
  assert (a' = a) by congruence. subst a'.
  destruct (view_ok a [B; L; E]) as [a1' [Ea1' [Sa1 Ga1]]].
  { rewrite Sa. cbn [numel fold_right]. clearbody dk. subst E. ring. }
  assert (a1' = a1) by congruence. subst a1'.
  destruct (Linear_forward_rank3 (dense self) a1 B L E Sa1 Hdi)
    as [out' [Eo' [_ Go]]].
  assert (out' = out) by congruence. subst out'.
  rewrite Go. f_equal. apply rsum_ext. intros c Hc. f_equal.
  rewrite Ga1, Sa, (unravel_merge_heads B L E h dk b i c Hdiv Hi Hc).
  destruct (merge_heads_in_bounds L E h dk i c Hdiv Hi Hc) as [B1 [B2 B3]].
  rewrite Ga by assumption.
  apply (attention_ext _ q2 k2 v2 _ _ _ mask B h L L dk dk); assumption.
Qed.

(** X8: The forward call entry by entry.  The projected query, key and value are
    split into heads and passed to the kernel; the kernel's output, of shape
    [(B, h, L, dk)], is then read in row-major order as [(B, L, E)] without
    moving the head axis back: feature [c] of position [i] is the element at
    offset [i * E + c] of the [(h, L, dk)] block, which the output
    projection then combines. *)
Theorem multi_head_forward_entries (h E : nat) (rate : R)
      (rnd : mha_random) (query key value : tensor R)
      (mask : option (tensor bool)) (B L b i o : nat) :
  (0 < h)%nat -> rate <= 1 -> E = (h * (E / h))%nat ->
  shape query = [B; L; E] ->
  shape key = [B; L; E] ->
  shape value = [B; L; E] ->
  mask_fits mask B L L ->
  (b < B)%nat -> (i < L)%nat ->
  exists self out,
    MultiHeadAttention_init h E rate rnd = Ok self
    /\ MultiHeadAttention_forward self query key value mask = Ok out
    /\ get out [b; i; o]
       = rsum E (fun c =>
           AttentionSpec.attention (scaled_dot_product_attention self)
             (heads_of h (E / h) (dense_query self) query)
             (heads_of h (E / h) (dense_key self) key)
             (heads_of h (E / h) (dense_value self) value)
             mask (E / h) L
             b
             ((i * E + c) / (L * (E / h)))
             (((i * E + c) mod (L * (E / h))) / (E / h))
             (((i * E + c) mod (L * (E / h))) mod (E / h))
           * get (weight (dense self)) [o; c])
         + get (bias (dense self)) [o].
Proof.
  exact (MultiHeadAttention_forward_formula h E rate rnd query key value mask
           B L b i o).
Qed.

Lemma multi_head_forward_entries_witness :
  exists self out,
    MultiHeadAttention_init 2 4 0 rnd0 = Ok self
    /\ MultiHeadAttention_forward self (zeros [1; 3; 4]%nat)
         (zeros [1; 3; 4]%nat) (zeros [1; 3; 4]%nat)
         (Some (full [1; 1; 3]%nat true)) = Ok out.
Proof.
  destruct (multi_head_forward_entries 2 4 0 rnd0
              (zeros [1; 3; 4]%nat) (zeros [1; 3; 4]%nat) (zeros [1; 3; 4]%nat)
              (Some (full [1; 1; 3]%nat true)) 1 3 0 0 0)
    as [self [out [Hinit [Hf _]]]];
    try reflexivity; try lia; try lra.
  - exists 1%nat. split; [reflexivity | left; reflexivity].
  - exists self, out. split; [exact Hinit | exact Hf].
Defined.

(** X9: With a single head the reshapes are the identity on positions: the
    module is the plain attention of the projected inputs followed by the
    output projection, and position [i] of the output reads the kernel's
    output at position [i] only. *)
Theorem single_head_is_plain_attention (E : nat) (rate : R)
      (rnd : mha_random) (query key value : tensor R)
      (mask : option (tensor bool)) (B L b i o : nat) :
  rate <= 1 ->
  shape query = [B; L; E] ->
  shape key = [B; L; E] ->
  shape value = [B; L; E] ->
  mask_fits mask B L L ->
  (b < B)%nat -> (i < L)%nat ->
  exists self out,
    MultiHeadAttention_init 1 E rate rnd = Ok self
    /\ MultiHeadAttention_forward self query key value mask = Ok out
    /\ get out [b; i; o]
       = rsum E (fun c =>
           AttentionSpec.attention (scaled_dot_product_attention self)
             (heads_of 1 E (dense_query self) query)
             (heads_of 1 E (dense_key self) key)
             (heads_of 1 E (dense_value self) value)
             mask E L b 0 i c
           * get (weight (dense self)) [o; c])
         + get (bias (dense self)) [o].
Proof.
  intros Hrate Hq Hk Hv Hm Hb Hi.
  destruct (MultiHeadAttention_forward_formula 1 E rate rnd query key value
              mask B L b i o) as [self [out [Hinit [Hf Hout]]]];
    try assumption; [lia | rewrite Nat.div_1_r; lia |].
  exists self, out. split; [exact Hinit |]. split; [exact Hf |].
  rewrite Hout. rewrite !Nat.div_1_r. f_equal.
  apply rsum_ext. intros c Hc.
  assert (Hr : (i * E + c < L * E)%nat) by nia.
  rewrite (Nat.div_small _ _ Hr), (Nat.mod_small _ _ Hr).
  destruct (div_mod_block E i c Hc) as [D M].
  now rewrite D, M.
Qed.

Lemma single_head_is_plain_attention_witness :
  exists self out,
    MultiHeadAttention_init 1 4 0 rnd0 = Ok self
    /\ MultiHeadAttention_forward self (zeros [1; 3; 4]%nat)
         (zeros [1; 3; 4]%nat) (zeros [1; 3; 4]%nat)
         (Some (full [1; 1; 3]%nat true)) = Ok out.
Proof.
  destruct (single_head_is_plain_attention 4 0 rnd0
              (zeros [1; 3; 4]%nat) (zeros [1; 3; 4]%nat) (zeros [1; 3; 4]%nat)
              (Some (full [1; 1; 3]%nat true)) 1 3 0 0 0)
    as [self [out [Hinit [Hf _]]]];
    try reflexivity; try lia; try lra.
  - exists 1%nat. split; [reflexivity | left; reflexivity].
  - exists self, out. split; [exact Hinit | exact Hf].
Defined.
